(** * Submission orchestration of the form factory provider

    Shallow embedding of [src/provider/form-factory-provider.tsx] (three
    variants of [FormFactoryProvider]) and of the confirmation modal
    [IncompleteFormConfirmationModal].

    The provider is UI glue: what it does is the sequence of calls it makes on
    its collaborators (validation helpers, form processors, notification
    primitives, the callbacks of the host) and the two pieces of UI state it
    drives ([isSubmitting], [isEmptyFormModalOpen]).  The embedding therefore
    runs every handler in a small monad that threads the store, records the
    calls in a trace and propagates JavaScript exceptions.

    Variants 1 and 3 run their effect when [isSubmitting] changes, so a
    submission is one execution of their async function.  The effect of
    variant 2 depends on a callback that every render creates anew, so it
    runs again after every render: beside the handlers of that variant, each
    taken with the continuation of the submission it starts, the provider
    is modelled as it lives ([Live]): renders, gestures on the modal, and
    settlements of the submissions in flight, in any order.

    What can throw is what the code itself may be handed or may read: the
    validation helpers on [undefined] (the root form before it registers),
    [undefined.processor], the empty-form callback, and the promises.  The
    notification primitives, the setters and the closing callbacks of the
    host are taken not to throw. *)

From Stdlib Require Import List String Ascii Bool Arith NArith Lia Sorted Permutation.
Import ListNotations.
Open Scope string_scope.
Open Scope list_scope.
Open Scope nat_scope.

(** ** Values that cross the boundary *)

(** An [AbortController] is known by its identity only. *)
Definition AbortController := nat.

(** A form processor is known by its identity; what its [processSubmission]
    does is given by the environment below. *)
Definition FormProcessor := nat.

(** What a processor resolves with. *)
Definition Result := nat.

(** [FormContextProps]: the provider reads the [processor] field and otherwise
    hands the context around as a reference. *)
Record FormContextProps := mkContext {
  contextRef : nat;
  processor : FormProcessor
}.

(** The argument of [showToast]. *)
Record ToastDescriptor := mkToast {
  toastTitle : string;
  toastKind : string;
  toastDescription : string;
  toastCritical : bool
}.

(** The argument of [showSnackbar]. *)
Record SnackbarDescriptor := mkSnackbar {
  snackTitle : string;
  snackSubtitle : string;
  snackKind : string;
  snackIsLowContrast : bool
}.

(** JavaScript values that can be thrown and caught: [instanceof Error] holds
    of [JsError] only. *)
Inductive JsValue :=
| JsError (message : string)
| JsToast (descriptor : ToastDescriptor)
| JsOther (repr : string).

Definition instanceofError (v : JsValue) : bool :=
  match v with JsError _ => true | _ => false end.

(** A promise, seen from the single event loop: how it settles and when. *)
Inductive Settled (A : Type) :=
| Fulfilled (a : A)
| Rejected (reason : JsValue).
Arguments Fulfilled {A} a.
Arguments Rejected {A} reason.

Record Promise (A : Type) := mkPromise {
  settledAt : nat;
  outcome : Settled A
}.
Arguments mkPromise {A} settledAt outcome.
Arguments settledAt {A} p.
Arguments outcome {A} p.

(** The reason of the rejection that settles first (the earlier element wins
    between two that settle together), with its time. *)
Fixpoint firstRejection {A} (ps : list (Promise A)) : option (nat * JsValue) :=
  match ps with
  | [] => None
  | p :: rest =>
      match outcome p, firstRejection rest with
      | Fulfilled _, later => later
      | Rejected e, None => Some (settledAt p, e)
      | Rejected e, Some (time, e') =>
          if settledAt p <=? time then Some (settledAt p, e) else Some (time, e')
      end
  end.

Fixpoint fulfilledValues {A} (ps : list (Promise A)) : list A :=
  match ps with
  | [] => []
  | p :: rest =>
      match outcome p with
      | Fulfilled a => a :: fulfilledValues rest
      | Rejected _ => fulfilledValues rest
      end
  end.

(** [Promise.all]: rejects with the first rejection, otherwise fulfils with
    the values in the order of the input. *)
Definition Promise_all {A} (ps : list (Promise A)) : Settled (list A) :=
  match firstRejection ps with
  | Some (_, e) => Rejected e
  | None => Fulfilled (fulfilledValues ps)
  end.

(** What the optional [handleEmptyFormSubmission] callback hands back. *)
Inductive EmptyFormAnswer :=
| AnswerPromise (p : Settled unit)
| AnswerBoolean (b : bool)
| AnswerOther.

(** The callback itself: it hands back an answer or throws. *)
Inductive EmptyFormCallback :=
| Returns (result : EmptyFormAnswer)
| Throws (thrown : JsValue).

(** How a call completes. *)
Inductive Completion (A : Type) :=
| Normal (a : A)
| Abrupt (thrown : JsValue).
Arguments Normal {A} a.
Arguments Abrupt {A} thrown.

(** ** The trace *)

Inductive ModalGesture := PressCancel | PressConfirm | RequestClose.

(** The helpers of [form-factory-helper] that are asked about a form. *)
Inductive Helper := ValidateForm | ValidateEmptyForm | ValidateEmptyFields.

Inductive Event :=
| CallValidateForm (formContext : FormContextProps)
| CallValidateEmptyForm (formContext : FormContextProps)
| CallValidateEmptyFields (formContext : FormContextProps)
| CallHandleEmptyFormSubmission
| UserGesture (g : ModalGesture)
| SetIsEmptyFormModalOpen (b : bool)
| CallProcessSubmission (p : FormProcessor) (formContext : FormContextProps)
                        (abortController : AbortController)
| SetIsSubmitting (b : bool)
| ShowSnackbar (d : SnackbarDescriptor)
| ShowToast (v : JsValue)
| CallProcessPostSubmissionActions (handlers : list string) (results : list Result)
                                   (patient : nat) (sessionMode : string)
| HideFormCollapseToggle
| OnSubmit (results : list Result)
| HandleClose
| HandleDiscardForm
| Abort (abortController : AbortController)
| CallOnUndefined (helper : Helper)      (* a helper is handed [undefined] *)
| AllSettled (fulfilled : bool).         (* [await Promise.all(...)] resumes *)

(** ** The store and the environment *)

(** The two refs and the two pieces of UI state. [subForms] keeps the entries
    of the JavaScript object in insertion order. *)
Record Store := mkStore {
  isSubmitting : bool;
  isEmptyFormModalOpen : bool;
  rootForm : option FormContextProps;
  subForms : list (string * FormContextProps)
}.

(** The props of one render and the collaborators imported by the module.
    The helpers live outside this file; what they do with [undefined] (the
    root form before it registers) is theirs to decide and is a parameter
    here. *)
Record Env := mkEnv {
  patient : nat;
  sessionMode : string;
  t : string -> string -> string;
  onSubmit : bool;                                  (* is [onSubmit] given *)
  postSubmissionHandlers : option (list string);
  handleEmptyFormSubmission : option EmptyFormCallback; (* [None]: the prop is not given *)
  abortController : AbortController;                (* [new AbortController()] of the render *)
  validateForm : FormContextProps -> bool;
  validateEmptyForm : FormContextProps -> bool;
  validateEmptyFields : FormContextProps -> bool;
  processSubmission :
    FormProcessor -> FormContextProps -> AbortController -> Promise Result;
  processPostSubmissionActions : list string -> list Result -> Settled unit;
  validateFormOnUndefined : Completion bool;
  validateEmptyFormOnUndefined : Completion bool;
  validateEmptyFieldsOnUndefined : Completion bool
}.

(** ** The monad: store, trace, exceptions *)

Definition M (A : Type) := Store -> Completion A * Store * list Event.

Definition ret {A} (a : A) : M A := fun s => (Normal a, s, []).

Definition bind {A B} (m : M A) (k : A -> M B) : M B :=
  fun s =>
    match m s with
    | (Normal a, s1, tr1) =>
        match k a s1 with
        | (c, s2, tr2) => (c, s2, tr1 ++ tr2)
        end
    | (Abrupt e, s1, tr1) => (Abrupt e, s1, tr1)
    end.

Definition throw {A} (e : JsValue) : M A := fun s => (Abrupt e, s, []).

Definition tryCatch {A} (body : M A) (handler : JsValue -> M A) : M A :=
  fun s =>
    match body s with
    | (Normal a, s1, tr1) => (Normal a, s1, tr1)
    | (Abrupt e, s1, tr1) =>
        match handler e s1 with
        | (c, s2, tr2) => (c, s2, tr1 ++ tr2)
        end
    end.

Definition get : M Store := fun s => (Normal s, s, []).
Definition modify (f : Store -> Store) : M unit := fun s => (Normal tt, f s, []).
Definition emit (ev : Event) : M unit := fun s => (Normal tt, s, [ev]).

(** A call that completes as [c] and touches nothing. *)
Definition completes {A} (c : Completion A) : M A := fun s => (c, s, []).

(** [await] of a settled promise. *)
Definition await {A} (p : Settled A) : M A :=
  match p with
  | Fulfilled a => ret a
  | Rejected e => throw e
  end.

(** A call of an async function that nobody awaits: a rejection stays with
    the promise and does not reach the caller. *)
Definition floating (m : M unit) : M unit := tryCatch m (fun _ => ret tt).

Declare Scope js_scope.
Delimit Scope js_scope with js.
Notation "x <- m ;; k" := (bind m (fun x => k))
  (at level 61, m at next level, right associativity) : js_scope.
Notation "m ;; k" := (bind m (fun _ => k))
  (at level 61, right associativity) : js_scope.
Open Scope js_scope.

Definition completion {A} (r : Completion A * Store * list Event) := fst (fst r).
Definition finalStore {A} (r : Completion A * Store * list Event) := snd (fst r).
Definition trace {A} (r : Completion A * Store * list Event) := snd r.

(** [Array.prototype.every], [some] and [map] with a callback that runs in
    the monad; [every] stops at the first [false], [some] at the first [true]. *)
Fixpoint every {A} (callback : A -> M bool) (l : list A) : M bool :=
  match l with
  | [] => ret true
  | x :: rest => b <- callback x ;; if b then every callback rest else ret false
  end.

Fixpoint some {A} (callback : A -> M bool) (l : list A) : M bool :=
  match l with
  | [] => ret false
  | x :: rest => b <- callback x ;; if b then ret true else some callback rest
  end.

Fixpoint mapM {A B} (callback : A -> M B) (l : list A) : M (list B) :=
  match l with
  | [] => ret []
  | x :: rest => y <- callback x ;; ys <- mapM callback rest ;; ret (y :: ys)
  end.

(** ** The registry of forms *)

(** [o[k] = v] on the own properties of an object, seen as its entries in
    insertion order: an existing key keeps its place. *)
Fixpoint defineOwn {V} (o : list (string * V)) (k : string) (v : V) : list (string * V) :=
  match o with
  | [] => [(k, v)]
  | (k', v') :: rest =>
      if String.eqb k' k then (k', v) :: rest else (k', v') :: defineOwn rest k v
  end.

(** [o[k] = v] on an object that started as [{}] and holds form contexts.
    The key ["__proto__"] reaches the setter inherited from
    [Object.prototype]: the context becomes the prototype of the object and
    no own property is made.  Every other key makes or updates an own
    property (the properties a context brings along as a prototype are plain
    writable ones, which an assignment shadows). *)
Definition assign {V} (o : list (string * V)) (k : string) (v : V) : list (string * V) :=
  if String.eqb k "__proto__" then o else defineOwn o k v.

Definition digit (c : ascii) : option N :=
  let n := N_of_ascii c in
  if ((48 <=? n) && (n <=? 57))%N then Some (n - 48)%N else None.

Fixpoint digits (s : string) (acc : N) : option N :=
  match s with
  | EmptyString => Some acc
  | String c rest =>
      match digit c with
      | Some d => digits rest (10 * acc + d)%N
      | None => None
      end
  end.

(** The keys that JavaScript treats as array indices: canonical decimal
    numerals below [2^32 - 1]. *)
Definition arrayIndex (k : string) : option N :=
  match k with
  | EmptyString => None
  | String c rest =>
      if (Ascii.eqb c "0"%char && negb (String.eqb rest EmptyString))%bool then None
      else match digits k 0%N with
           | Some n => if (n <? 4294967295)%N then Some n else None
           | None => None
           end
  end.

Fixpoint insertByIndex {V} (x : N * V) (l : list (N * V)) : list (N * V) :=
  match l with
  | [] => [x]
  | y :: rest => if (fst x <=? fst y)%N then x :: l else y :: insertByIndex x rest
  end.

Definition indexEntries {V} (o : list (string * V)) : list (N * V) :=
  fold_right
    (fun kv acc =>
       match arrayIndex (fst kv) with
       | Some n => insertByIndex (n, snd kv) acc
       | None => acc
       end) [] o.

Definition namedEntries {V} (o : list (string * V)) : list (string * V) :=
  filter (fun kv => match arrayIndex (fst kv) with Some _ => false | None => true end) o.

(** [Object.values]: array-index keys in ascending order first, then the
    other keys in insertion order. *)
Definition Object_values {V} (o : list (string * V)) : list V :=
  map snd (indexEntries o) ++ map snd (namedEntries o).

Definition registerForm (formId : string) (isSubForm : bool) (context : FormContextProps)
  : M unit :=
  modify (fun s =>
    if isSubForm
    then mkStore (isSubmitting s) (isEmptyFormModalOpen s) (rootForm s)
                 (assign (subForms s) formId context)
    else mkStore (isSubmitting s) (isEmptyFormModalOpen s) (Some context) (subForms s)).

(** [[rootForm.current, ...Object.values(subForms.current)]]: before the
    root form registers the first element is [undefined]. *)
Definition currentForms : M (list (option FormContextProps)) :=
  s <- get ;;
  ret (rootForm s :: map Some (Object_values (subForms s))).

(** ** Calls on the collaborators *)

Definition withIsSubmitting (b : bool) (s : Store) : Store :=
  mkStore b (isEmptyFormModalOpen s) (rootForm s) (subForms s).

Definition withIsEmptyFormModalOpen (b : bool) (s : Store) : Store :=
  mkStore (isSubmitting s) b (rootForm s) (subForms s).

Definition setIsSubmitting (b : bool) : M unit :=
  emit (SetIsSubmitting b) ;; modify (withIsSubmitting b).

Definition setIsEmptyFormModalOpen (b : bool) : M unit :=
  emit (SetIsEmptyFormModalOpen b) ;; modify (withIsEmptyFormModalOpen b).

Definition call_validateForm (e : Env) (formContext : option FormContextProps) : M bool :=
  match formContext with
  | Some f => emit (CallValidateForm f) ;; ret (validateForm e f)
  | None => emit (CallOnUndefined ValidateForm) ;; completes (validateFormOnUndefined e)
  end.

Definition call_validateEmptyForm (e : Env) (formContext : option FormContextProps)
  : M bool :=
  match formContext with
  | Some f => emit (CallValidateEmptyForm f) ;; ret (validateEmptyForm e f)
  | None =>
      emit (CallOnUndefined ValidateEmptyForm) ;; completes (validateEmptyFormOnUndefined e)
  end.

Definition call_validateEmptyFields (e : Env) (formContext : option FormContextProps)
  : M bool :=
  match formContext with
  | Some f => emit (CallValidateEmptyFields f) ;; ret (validateEmptyFields e f)
  | None =>
      emit (CallOnUndefined ValidateEmptyFields) ;;
      completes (validateEmptyFieldsOnUndefined e)
  end.

(** Reading a property of [undefined]. *)
Definition TypeError_undefined (property : string) : JsValue :=
  JsError ("Cannot read properties of undefined (reading '" ++ property ++ "')")%string.

(** [formContext.processor.processSubmission(formContext, abortController)]:
    the call returns its promise at once; on [undefined] the read of
    [processor] throws. *)
Definition call_processSubmission (e : Env) (formContext : option FormContextProps)
  : M (Promise Result) :=
  match formContext with
  | Some f =>
      emit (CallProcessSubmission (processor f) f (abortController e)) ;;
      ret (processSubmission e (processor f) f (abortController e))
  | None => throw (TypeError_undefined "processor")
  end.

Definition call_processPostSubmissionActions (e : Env) (handlers : list string)
           (results : list Result) : M unit :=
  emit (CallProcessPostSubmissionActions handlers results (patient e) (sessionMode e)) ;;
  await (processPostSubmissionActions e handlers results).

(** [handleEmptyFormSubmission()]. *)
Definition call_handleEmptyFormSubmission (callback : EmptyFormCallback)
  : M EmptyFormAnswer :=
  emit CallHandleEmptyFormSubmission ;;
  match callback with
  | Returns result => ret result
  | Throws thrown => throw thrown
  end.

Definition showSnackbar (d : SnackbarDescriptor) : M unit := emit (ShowSnackbar d).
Definition showToast (v : JsValue) : M unit := emit (ShowToast v).
Definition hideFormCollapseToggle : M unit := emit HideFormCollapseToggle.
Definition call_onSubmit (results : list Result) : M unit := emit (OnSubmit results).
Definition handleClose : M unit := emit HandleClose.
Definition handleDiscardForm : M unit := emit HandleDiscardForm.
Definition abort (c : AbortController) : M unit := emit (Abort c).

(** ** The submission block

    The three variants share one [try]/[catch] statement, word for word.  It
    is split at its [await]: the first part is [forms.map(...)], which calls
    every processor and collects the promises; [finishSubmissions] is what
    runs once [Promise.all] has settled.  The [catch] clause guards both
    parts and runs at most once. *)

Definition recordUpdated (e : Env) : SnackbarDescriptor :=
  mkSnackbar (t e "updatedRecord" "Record updated")
             (t e "updatedRecordDescription" "The patient encounter was updated")
             "success" true.

Definition formSubmitted (e : Env) : SnackbarDescriptor :=
  mkSnackbar (t e "submittedForm" "Form submitted")
             (t e "submittedFormDescription" "Form submitted successfully")
             "success" true.

Definition errorToast (e : Env) (message : string) : ToastDescriptor :=
  mkToast (t e "errorProcessingFormSubmission" "Error processing form submission")
          "error" message true.

Definition catchSubmissionError (e : Env) (errorObject : JsValue) : M unit :=
  setIsSubmitting false ;;
  match errorObject with
  | JsError message => showToast (JsToast (errorToast e message))
  | _ => showToast errorObject
  end.

(** [await Promise.all(...)]: the async function resumes when all promises
    are fulfilled or the first one is rejected. *)
Definition awaitAll (pending : list (Promise Result)) : M (list Result) :=
  emit (AllSettled (match Promise_all pending with
                    | Fulfilled _ => true
                    | Rejected _ => false
                    end)) ;;
  await (Promise_all pending).

Definition finishSubmissions (e : Env) (pending : list (Promise Result)) : M unit :=
  tryCatch
    (results <- awaitAll pending ;;
     setIsSubmitting false ;;
     (if String.eqb (sessionMode e) "edit"
      then showSnackbar (recordUpdated e)
      else showSnackbar (formSubmitted e)) ;;
     match postSubmissionHandlers e with
     | Some handlers => call_processPostSubmissionActions e handlers results
     | None => ret tt
     end ;;
     hideFormCollapseToggle ;;
     if onSubmit e then call_onSubmit results else handleClose)
    (catchSubmissionError e).

(** The block up to its [await], on the list as the code builds it: the
    promises of the calls, or nothing when a call threw (on [undefined]) and
    the [catch] clause has run. *)
Definition beginSubmissions (e : Env) (forms : list (option FormContextProps))
  : M (option (list (Promise Result))) :=
  tryCatch
    (pending <- mapM (fun formContext => call_processSubmission e formContext) forms ;;
     ret (Some pending))
    (fun errorObject => catchSubmissionError e errorObject ;; ret None).

(** The block from its [await] on. *)
Definition resumeSubmissions (e : Env) (started : option (list (Promise Result)))
  : M unit :=
  match started with
  | Some pending => finishSubmissions e pending
  | None => ret tt
  end.

Definition submissionBlock (e : Env) (forms : list (option FormContextProps)) : M unit :=
  started <- beginSubmissions e forms ;;
  resumeSubmissions e started.

(** The block on forms that are all there ([FormContextProps[]]), where no
    call throws. *)
Definition startSubmissions (e : Env) (forms : list FormContextProps)
  : M (list (Promise Result)) :=
  mapM (fun formContext => call_processSubmission e (Some formContext)) forms.

Definition submitForms (e : Env) (forms : list FormContextProps) : M unit :=
  pending <- startSubmissions e forms ;;
  finishSubmissions e pending.

(** ** Variant 1: the empty-form callback, answers of three kinds *)

Module V1.

Definition handleFormSubmission (e : Env) : M unit :=
  s <- get ;;
  if isSubmitting s then
    forms <- currentForms ;;
    isValid <- every (call_validateForm e) forms ;;
    if isValid then
      isEmpty <- every (call_validateEmptyForm e) forms ;;
      match isEmpty, handleEmptyFormSubmission e with
      | true, Some callback =>
          result <- call_handleEmptyFormSubmission callback ;;
          match result with
          | AnswerPromise p => tryCatch (await p ;; handleClose) (fun _ => ret tt)
          | AnswerBoolean b => if b then handleClose else ret tt
          | AnswerOther => handleClose
          end ;;
          setIsSubmitting false
      | _, _ => submissionBlock e forms
      end
    else setIsSubmitting false
  else ret tt.

(** The effect starts the async function and returns its cleanup. *)
Definition useEffect (e : Env) : M (option (M unit)) :=
  floating (handleFormSubmission e) ;;
  ret (Some (abort (abortController e))).

End V1.

(** ** Variant 2: the confirmation modal *)

(** The modal: both the Cancel button and closing the dialog go to
    [onDiscard], the Confirm button to [onConfirmation]; a modal that is not
    open takes no gesture. *)
Definition IncompleteFormConfirmationModal {A} (onDiscard onConfirmation : A)
           (open : bool) (g : ModalGesture) : option A :=
  if open then
    Some match g with
         | PressCancel => onDiscard
         | PressConfirm => onConfirmation
         | RequestClose => onDiscard
         end
  else None.

Module V2.

Definition handleFormSubmission (e : Env) (forms : list FormContextProps) : M unit :=
  submitForms e forms.

(** [handleIncompleteFormConfirmation]: [handleFormSubmission(forms)] is not
    awaited, so the processors are called, the modal is closed, and the
    handler returns with the submission left in flight (its promises are
    the result here). *)
Definition handleIncompleteFormConfirmation (e : Env)
  : M (option (list (Promise Result))) :=
  forms <- currentForms ;;
  started <- beginSubmissions e forms ;;
  setIsEmptyFormModalOpen false ;;
  ret started.

Definition handleIncompleteFormDiscard : M unit :=
  setIsEmptyFormModalOpen false ;;
  setIsSubmitting false.

(** The effect up to its return: [handleFormSubmission(forms)] is not
    awaited, so the async function runs up to its [await] and the promises
    are left in flight (they are the result here). *)
Definition effectNow (e : Env) : M (option (list (Promise Result))) :=
  s <- get ;;
  if isSubmitting s then
    forms <- currentForms ;;
    isValid <- every (call_validateForm e) forms ;;
    isEmpty <- some (call_validateEmptyFields e) forms ;;
    if isValid then
      if isEmpty then setIsEmptyFormModalOpen true ;; ret None
      else beginSubmissions e forms
    else setIsSubmitting false ;; ret None
  else ret None.

(** One execution of the effect, taken with the continuation of the
    submission it started; this variant returns no cleanup. *)
Definition useEffect (e : Env) : M (option (M unit)) :=
  started <- effectNow e ;;
  resumeSubmissions e started ;;
  ret None.

(** [{isEmptyFormModalOpen && <IncompleteFormConfirmationModal ... />}]:
    one gesture of the user on the modal, when it is there.  The handler it
    reaches is taken with the settlement of the submission it starts, as if
    nothing else ran in between. *)
Definition gesture (e : Env) (g : ModalGesture) : M unit :=
  s <- get ;;
  if isEmptyFormModalOpen s then
    match IncompleteFormConfirmationModal
            (handleIncompleteFormDiscard ;; ret None)
            (handleIncompleteFormConfirmation e)
            (isEmptyFormModalOpen s) g with
    | Some callback =>
        emit (UserGesture g) ;;
        started <- callback ;;
        resumeSubmissions e started
    | None => ret tt
    end
  else ret tt.

End V2.

(** ** Variant 3: the empty-form callback, awaited *)

Module V3.

Definition handleFormSubmission (e : Env) : M unit :=
  s <- get ;;
  if isSubmitting s then
    forms <- currentForms ;;
    isValid <- every (call_validateForm e) forms ;;
    isEmpty <- every (call_validateEmptyForm e) forms ;;
    match (isEmpty && isValid)%bool, handleEmptyFormSubmission e with
    | true, Some callback =>
        tryCatch
          (result <- call_handleEmptyFormSubmission callback ;;
           match result with
           | AnswerPromise p => await p
           | _ => ret tt
           end ;;
           handleDiscardForm ;;
           setIsSubmitting false)
          (fun _ => setIsSubmitting false)
    | _, _ =>
        if isValid then submissionBlock e forms else setIsSubmitting false
    end
  else ret tt.

Definition useEffect (e : Env) : M (option (M unit)) :=
  floating (handleFormSubmission e) ;;
  ret (Some (abort (abortController e))).

End V3.

(** ** Teardown *)

(** React runs the cleanup that the effect returned, if any. *)
Definition runCleanup (cleanup : option (M unit)) : M unit :=
  match cleanup with
  | Some f => f
  | None => ret tt
  end.

Definition mountThenUnmount (useEffect : M (option (M unit))) : M unit :=
  cleanup <- useEffect ;; runCleanup cleanup.

(** ** Variant 2 as the provider lives

    [handleFormSubmission] is made by [useCallback] with [abortController]
    among its dependencies, and every render makes a new [AbortController]:
    the callback is new at every render, and the effect, which depends on
    [[isSubmitting, handleFormSubmission]], runs after every render.  The
    provider is therefore a machine: it renders (and runs its effect), takes
    gestures on the modal of its last render, and resumes the submissions in
    flight when their promises settle (the continuation is run as a whole,
    its second [await] included).  A schedule is any sequence of these
    steps; those of React are among them. *)

Module Live.

(** A call of [handleFormSubmission] waiting at its [await]: the render that
    made the callback, and the promises. *)
Record Flight := mkFlight {
  flightEnv : Env;
  flightPending : list (Promise Result)
}.

Record Provider := mkProvider {
  store : Store;
  committed : option Env;        (* the props of the last render *)
  shown : bool;                  (* did the last render show the modal *)
  flights : list Flight
}.

Inductive Step :=
| Render (e : Env)
| Gesture (g : ModalGesture)
| Settle (i : nat)
| Register (formId : string) (isSubForm : bool) (context : FormContextProps).

Definition takeOff (e : Env) (started : option (list (Promise Result)))
           (fs : list Flight) : list Flight :=
  match started with
  | Some pending => fs ++ [mkFlight e pending]
  | None => fs
  end.

Fixpoint removeAt {A} (i : nat) (l : list A) : list A :=
  match i, l with
  | _, [] => []
  | O, _ :: rest => rest
  | S j, x :: rest => x :: removeAt j rest
  end.

(** What a run of a handler leaves in flight; a handler that threw leaves
    nothing. *)
Definition landed {A} (c : Completion (option A)) : option A :=
  match c with
  | Normal started => started
  | Abrupt _ => None
  end.

Definition step (p : Provider) (st : Step) : Provider * list Event :=
  match st with
  | Render e =>
      match V2.effectNow e (store p) with
      | (c, s', tr) =>
          (mkProvider s' (Some e) (isEmptyFormModalOpen (store p))
                      (takeOff e (landed c) (flights p)), tr)
      end
  | Gesture g =>
      match committed p with
      | Some e =>
          match IncompleteFormConfirmationModal
                  (V2.handleIncompleteFormDiscard ;; ret None)
                  (V2.handleIncompleteFormConfirmation e)
                  (shown p) g with
          | Some callback =>
              match (emit (UserGesture g) ;; callback) (store p) with
              | (c, s', tr) =>
                  (mkProvider s' (committed p) (shown p)
                              (takeOff e (landed c) (flights p)), tr)
              end
          | None => (p, [])
          end
      | None => (p, [])
      end
  | Settle i =>
      match nth_error (flights p) i with
      | Some f =>
          match finishSubmissions (flightEnv f) (flightPending f) (store p) with
          | (_, s', tr) =>
              (mkProvider s' (committed p) (shown p) (removeAt i (flights p)), tr)
          end
      | None => (p, [])
      end
  | Register formId isSubForm context =>
      match registerForm formId isSubForm context (store p) with
      | (_, s', tr) => (mkProvider s' (committed p) (shown p) (flights p), tr)
      end
  end.

Fixpoint run (p : Provider) (schedule : list Step) : Provider * list Event :=
  match schedule with
  | [] => (p, [])
  | st :: rest =>
      match step p st with
      | (p1, tr1) =>
          match run p1 rest with
          | (p2, tr2) => (p2, tr1 ++ tr2)
          end
      end
  end.

(** The provider once mounted on the store [s], before its first render. *)
Definition mounted (s : Store) : Provider := mkProvider s None false [].

End Live.

(** * Vocabulary of the statements *)

(** ** What a run visits *)

(** The elements that [every] visits: up to and including the first one that
    fails [p]. *)
Fixpoint visitedByEvery {A} (p : A -> bool) (l : list A) : list A :=
  match l with
  | [] => []
  | x :: rest => x :: (if p x then visitedByEvery p rest else [])
  end.

(** The elements that [some] visits: up to and including the first one that
    passes [p]. *)
Fixpoint visitedBySome {A} (p : A -> bool) (l : list A) : list A :=
  match l with
  | [] => []
  | x :: rest => x :: (if p x then [] else visitedBySome p rest)
  end.

(** The forms of a submission once the root form [root] is registered. *)
Definition formsOf (s : Store) (root : FormContextProps) : list FormContextProps :=
  root :: Object_values (subForms s).

Definition validations (e : Env) (forms : list FormContextProps) : list Event :=
  map CallValidateForm (visitedByEvery (validateForm e) forms).

Definition emptyFormChecks (e : Env) (forms : list FormContextProps) : list Event :=
  map CallValidateEmptyForm (visitedByEvery (validateEmptyForm e) forms).

Definition emptyFieldsChecks (e : Env) (forms : list FormContextProps) : list Event :=
  map CallValidateEmptyFields (visitedBySome (validateEmptyFields e) forms).

(** The promises and the calls of [forms.map(...)]. *)
Definition submissionPromises (e : Env) (forms : list FormContextProps)
  : list (Promise Result) :=
  map (fun f => processSubmission e (processor f) f (abortController e)) forms.

Definition allFulfilled (pending : list (Promise Result)) : bool :=
  match Promise_all pending with
  | Fulfilled _ => true
  | Rejected _ => false
  end.

Definition submissionCalls (e : Env) (forms : list FormContextProps) : list Event :=
  map (fun f => CallProcessSubmission (processor f) f (abortController e)) forms.

(** ** The submission block in closed form *)

Definition successSnackbar (e : Env) : SnackbarDescriptor :=
  if String.eqb (sessionMode e) "edit" then recordUpdated e else formSubmitted e.

(** What [showToast] receives for a caught value. *)
Definition shownToast (e : Env) (errorObject : JsValue) : JsValue :=
  match errorObject with
  | JsError message => JsToast (errorToast e message)
  | _ => errorObject
  end.

Definition failureTail (e : Env) (errorObject : JsValue) : list Event :=
  [SetIsSubmitting false; ShowToast (shownToast e errorObject)].

Definition closingTail (e : Env) (results : list Result) : list Event :=
  [HideFormCollapseToggle; if onSubmit e then OnSubmit results else HandleClose].

Definition successTail (e : Env) (results : list Result) : list Event :=
  SetIsSubmitting false :: ShowSnackbar (successSnackbar e) ::
  match postSubmissionHandlers e with
  | Some handlers =>
      CallProcessPostSubmissionActions handlers results (patient e) (sessionMode e) ::
      match processPostSubmissionActions e handlers results with
      | Fulfilled _ => closingTail e results
      | Rejected errorObject => failureTail e errorObject
      end
  | None => closingTail e results
  end.

Definition finishTrace (e : Env) (pending : list (Promise Result)) : list Event :=
  AllSettled (allFulfilled pending) ::
  match Promise_all pending with
  | Fulfilled results => successTail e results
  | Rejected errorObject => failureTail e errorObject
  end.

Definition submitTrace (e : Env) (forms : list FormContextProps) : list Event :=
  submissionCalls e forms ++ finishTrace e (submissionPromises e forms).

Definition answerTrace1 (result : EmptyFormAnswer) : list Event :=
  match result with
  | AnswerPromise (Fulfilled _) => [HandleClose]
  | AnswerPromise (Rejected _) => []
  | AnswerBoolean b => if b then [HandleClose] else []
  | AnswerOther => [HandleClose]
  end.

Definition answerTrace3 (result : EmptyFormAnswer) : list Event :=
  match result with
  | AnswerPromise (Rejected _) => [SetIsSubmitting false]
  | _ => [HandleDiscardForm; SetIsSubmitting false]
  end.

(** What the call of the empty-form callback and what follows it leave, in
    variant 1 (a callback that throws ends the async function there) and in
    variant 3 (which catches it). *)
Definition callbackRun1 (s : Store) (before : list Event) (callback : EmptyFormCallback)
  : Completion unit * Store * list Event :=
  match callback with
  | Returns result =>
      (Normal tt, withIsSubmitting false s,
       before ++ CallHandleEmptyFormSubmission :: answerTrace1 result
       ++ [SetIsSubmitting false])
  | Throws thrown => (Abrupt thrown, s, before ++ [CallHandleEmptyFormSubmission])
  end.

Definition callbackTrace3 (callback : EmptyFormCallback) : list Event :=
  CallHandleEmptyFormSubmission ::
  match callback with
  | Returns result => answerTrace3 result
  | Throws _ => [SetIsSubmitting false]
  end.

(** The effect of variant 2 leaves one of three stores. *)
Definition storeAfterEffect2 (e : Env) (s : Store) (root : FormContextProps) : Store :=
  if forallb (validateForm e) (formsOf s root) then
    if existsb (validateEmptyFields e) (formsOf s root)
    then withIsEmptyFormModalOpen true s
    else withIsSubmitting false s
  else withIsSubmitting false s.

(** What the effect of variant 2 leaves in flight. *)
Definition startedByEffect2 (e : Env) (s : Store) (root : FormContextProps)
  : option (list (Promise Result)) :=
  if forallb (validateForm e) (formsOf s root) then
    if existsb (validateEmptyFields e) (formsOf s root) then None
    else Some (submissionPromises e (formsOf s root))
  else None.

Definition closeModal (s : Store) : Store :=
  withIsSubmitting false (withIsEmptyFormModalOpen false s).

Definition confirmTrace (e : Env) (forms : list FormContextProps) : list Event :=
  UserGesture PressConfirm ::
  submissionCalls e forms ++
  SetIsEmptyFormModalOpen false :: finishTrace e (submissionPromises e forms).

Definition discardTrace (g : ModalGesture) : list Event :=
  [UserGesture g; SetIsEmptyFormModalOpen false; SetIsSubmitting false].

(** ** Projections of a trace *)

Definition select {B} (pick : Event -> option B) (tr : list Event) : list B :=
  flat_map (fun ev => match pick ev with Some b => [b] | None => [] end) tr.

Definition pickProcessorCall (ev : Event)
  : option (FormProcessor * FormContextProps * AbortController) :=
  match ev with CallProcessSubmission p f c => Some (p, f, c) | _ => None end.

Definition pickToast (ev : Event) : option JsValue :=
  match ev with ShowToast v => Some v | _ => None end.

Definition pickSnackbar (ev : Event) : option SnackbarDescriptor :=
  match ev with ShowSnackbar d => Some d | _ => None end.

Definition pickAbort (ev : Event) : option AbortController :=
  match ev with Abort c => Some c | _ => None end.

Definition pickPostSubmission (ev : Event) : option (list Result) :=
  match ev with CallProcessPostSubmissionActions _ results _ _ => Some results | _ => None end.

Definition pickOnSubmit (ev : Event) : option (list Result) :=
  match ev with OnSubmit results => Some results | _ => None end.

Definition pickClose (ev : Event) : option unit :=
  match ev with HandleClose => Some tt | _ => None end.

Definition pickEmptyFormCallback (ev : Event) : option unit :=
  match ev with CallHandleEmptyFormSubmission => Some tt | _ => None end.

(** Every [processSubmission] call of a trace: processor, context, token. *)
Definition processorCalls := select pickProcessorCall.
Definition toasts := select pickToast.
Definition snackbars := select pickSnackbar.
Definition aborts := select pickAbort.
Definition forwardedToPostSubmission := select pickPostSubmission.
Definition forwardedToOnSubmit := select pickOnSubmit.
Definition closes := select pickClose.
Definition emptyFormCallbacks := select pickEmptyFormCallback.

(** The calls that only ask a helper about a form. *)
Definition isQuery (ev : Event) : bool :=
  match ev with
  | CallValidateForm _ | CallValidateEmptyForm _ | CallValidateEmptyFields _
  | CallOnUndefined _ => true
  | _ => false
  end.

(** What a run does besides asking. *)
Definition effects (tr : list Event) : list Event :=
  filter (fun ev => negb (isQuery ev)) tr.

Definition isProcessorCall (ev : Event) : bool :=
  match ev with CallProcessSubmission _ _ _ => true | _ => false end.

(** What each form is submitted as: its own processor, itself, the token of
    the render. *)
Definition expectedCalls (e : Env) (forms : list FormContextProps)
  : list (FormProcessor * FormContextProps * AbortController) :=
  map (fun f => (processor f, f, abortController e)) forms.

(** [results] holds what the processor of each form resolved with, form by
    form. *)
Definition collected (e : Env) (forms : list FormContextProps) (results : list Result)
  : Prop :=
  Forall2
    (fun f r =>
       outcome (processSubmission e (processor f) f (abortController e)) = Fulfilled r)
    forms results.

(** Some call of the trace went to a processor whose promise rejects. *)
Definition rejectedIn (e : Env) (tr : list Event) : Prop :=
  exists p f c reason,
    In (CallProcessSubmission p f c) tr /\
    outcome (processSubmission e p f c) = Rejected reason.

(** The rejection of some called processor was caught once: exactly one
    toast, made from the caught value. *)
Definition CaughtOnce (e : Env) (tr : list Event) : Prop :=
  exists p f c errorObject,
    In (CallProcessSubmission p f c) tr /\
    outcome (processSubmission e p f c) = Rejected errorObject /\
    toasts tr =
      [match errorObject with
       | JsError message =>
           JsToast (mkToast (t e "errorProcessingFormSubmission"
                               "Error processing form submission")
                            "error" message true)
       | _ => errorObject
       end].

(** A run that aborts in silence: no processor, no toast, no snackbar, and
    nothing done but [setIsSubmitting(false)]. *)
Definition SilentAbort {A} (s : Store) (r : Completion A * Store * list Event) : Prop :=
  processorCalls (trace r) = [] /\
  toasts (trace r) = [] /\
  snackbars (trace r) = [] /\
  effects (trace r) = [SetIsSubmitting false] /\
  finalStore r = withIsSubmitting false s.

(** ** Stages *)

(** The stages as the specification orders them: validate, empty-check,
    confirm, process (the calls, then their settlement), post-submission
    actions, close/notify. *)
Definition claimedStage (ev : Event) : option nat :=
  match ev with
  | CallValidateForm _ | CallOnUndefined ValidateForm => Some 0
  | CallValidateEmptyForm _ | CallValidateEmptyFields _
  | CallOnUndefined ValidateEmptyForm | CallOnUndefined ValidateEmptyFields => Some 1
  | CallHandleEmptyFormSubmission | UserGesture _ | SetIsEmptyFormModalOpen true => Some 2
  | CallProcessSubmission _ _ _ => Some 3
  | AllSettled _ => Some 4
  | CallProcessPostSubmissionActions _ _ _ _ => Some 5
  | ShowSnackbar _ | ShowToast _ | HideFormCollapseToggle | OnSubmit _
  | HandleClose | HandleDiscardForm => Some 6
  | SetIsSubmitting _ | SetIsEmptyFormModalOpen false | Abort _ => None
  end.

(** The stages as one execution of a handler orders them: the success
    snackbar comes between the settlement and the post-submission actions,
    the collapse toggle is hidden before the form is handed over or closed. *)
Definition actualStage (ev : Event) : option nat :=
  match ev with
  | CallValidateForm _ | CallOnUndefined ValidateForm => Some 0
  | CallValidateEmptyForm _ | CallValidateEmptyFields _
  | CallOnUndefined ValidateEmptyForm | CallOnUndefined ValidateEmptyFields => Some 1
  | CallHandleEmptyFormSubmission | UserGesture _ | SetIsEmptyFormModalOpen true => Some 2
  | CallProcessSubmission _ _ _ => Some 3
  | AllSettled _ => Some 4
  | ShowSnackbar _ => Some 5
  | CallProcessPostSubmissionActions _ _ _ _ => Some 6
  | HideFormCollapseToggle => Some 7
  | ShowToast _ | OnSubmit _ | HandleClose | HandleDiscardForm => Some 8
  | SetIsSubmitting _ | SetIsEmptyFormModalOpen false | Abort _ => None
  end.

(** No event of a later stage comes before an event of an earlier one. *)
Definition StageOrdered (stage : Event -> option nat) (tr : list Event) : Prop :=
  forall pre a mid b post i j,
    tr = pre ++ a :: mid ++ b :: post ->
    stage a = Some i -> stage b = Some j -> i <= j.

(** The staged events of [tr] are in order and none is of a stage before
    [k]. *)
Definition StagedFrom (stage : Event -> option nat) (k : nat) (tr : list Event) : Prop :=
  StronglySorted le (select stage tr) /\
  Forall (fun n => k <= n) (select stage tr).

(** No call of a processor. *)
Definition Calm (tr : list Event) : Prop :=
  forall ev, In ev tr -> isProcessorCall ev = false.

(** What a handler keeps to when it runs before the root form has
    registered: no processor is called, nothing is aborted, the refs stay,
    and its own events are in stage order. *)
Definition Harmless {A} (s : Store) (r : Completion A * Store * list Event) : Prop :=
  processorCalls (trace r) = [] /\
  aborts (trace r) = [] /\
  rootForm (finalStore r) = rootForm s /\
  subForms (finalStore r) = subForms s /\
  StagedFrom actualStage 0 (trace r).

(** ** Sample inputs *)

(** What the helpers of the library do with [undefined]: they read its
    fields. *)
Definition helperThrows : Completion bool :=
  Abrupt (JsError "Cannot destructure property of undefined").

Definition rootSample : FormContextProps := mkContext 1 7.
Definition subSample : FormContextProps := mkContext 2 8.

Definition sampleEnv : Env :=
  mkEnv 42 "enter" (fun _ fallback => fallback) true (Some ["linkHandler"]) None 5
        (fun _ => true) (fun _ => false) (fun _ => false)
        (fun p f _ => mkPromise (contextRef f) (Fulfilled (p + 100)))
        (fun _ _ => Fulfilled tt)
        helperThrows helperThrows helperThrows.

Definition sampleStore : Store :=
  mkStore true false (Some rootSample) [("vitals", subSample)].

(** The sub-form fails validation. *)
Definition invalidSubFormEnv : Env :=
  mkEnv 42 "enter" (fun _ fallback => fallback) true None None 5
        (fun f => Nat.eqb (contextRef f) 1) (fun _ => false) (fun _ => false)
        (fun p f _ => mkPromise 0 (Fulfilled p)) (fun _ _ => Fulfilled tt)
        helperThrows helperThrows helperThrows.

(** Every form is valid and empty; [callback] is the empty-form callback. *)
Definition emptyFormEnv (callback : option EmptyFormAnswer) : Env :=
  mkEnv 42 "edit" (fun _ fallback => fallback) false (Some [])
        (option_map Returns callback) 5
        (fun _ => true) (fun _ => true) (fun _ => true)
        (fun p f _ => mkPromise (contextRef f) (Fulfilled (p + 100)))
        (fun _ _ => Fulfilled tt)
        helperThrows helperThrows helperThrows.

(** The processor of the sub-form rejects with an [Error], that of the root
    form later with something else. *)
Definition rejectingEnv : Env :=
  mkEnv 42 "enter" (fun _ fallback => fallback) true (Some ["linkHandler"]) None 5
        (fun _ => true) (fun _ => false) (fun _ => false)
        (fun p f _ =>
           if Nat.eqb p 8 then mkPromise 1 (Rejected (JsError "save failed"))
           else mkPromise 2 (Rejected (JsOther "plain")))
        (fun _ _ => Fulfilled tt)
        helperThrows helperThrows helperThrows.

(** The empty-form callback is given and its promise rejects. *)
Definition cancelledEnv : Env :=
  emptyFormEnv (Some (AnswerPromise (Rejected (JsOther "cancelled")))).


(** ** Further vocabulary: registrations, more projections, outcomes *)

(** The refs of a provider that has just mounted: [useRef()] and
    [useRef({})]. *)
Definition mountedStore (submitting : bool) : Store :=
  mkStore submitting false None [].

(** A sequence of [registerForm] calls, as the form components mount. *)
Fixpoint registrations (calls : list (string * bool * FormContextProps)) : M unit :=
  match calls with
  | [] => ret tt
  | (formId, isSubForm, context) :: rest =>
      registerForm formId isSubForm context ;; registrations rest
  end.

(** The calls made while a form mounts: its root form, then its sub-forms. *)
Definition mountForms (rootId : string) (root : FormContextProps)
           (subs : list (string * FormContextProps))
  : list (string * bool * FormContextProps) :=
  (rootId, false, root) :: map (fun entry => (fst entry, true, snd entry)) subs.

Definition pickValidation (ev : Event) : option FormContextProps :=
  match ev with CallValidateForm f => Some f | _ => None end.

Definition pickEmptyCheck (ev : Event) : option FormContextProps :=
  match ev with
  | CallValidateEmptyForm f | CallValidateEmptyFields f => Some f
  | _ => None
  end.

Definition pickCollapseToggle (ev : Event) : option unit :=
  match ev with HideFormCollapseToggle => Some tt | _ => None end.

Definition pickDiscard (ev : Event) : option unit :=
  match ev with HandleDiscardForm => Some tt | _ => None end.

Definition pickSetIsSubmitting (ev : Event) : option bool :=
  match ev with SetIsSubmitting b => Some b | _ => None end.

Definition pickSetModal (ev : Event) : option bool :=
  match ev with SetIsEmptyFormModalOpen b => Some b | _ => None end.

(** The forms handed to [validateForm], in the order of the calls. *)
Definition validatedForms := select pickValidation.
(** The forms handed to [validateEmptyForm] or [validateEmptyFields]. *)
Definition emptyChecked := select pickEmptyCheck.
Definition collapseToggles := select pickCollapseToggle.
Definition discards := select pickDiscard.
Definition isSubmittingUpdates := select pickSetIsSubmitting.
Definition modalUpdates := select pickSetModal.

(** The form is left as it was: no success snackbar, nothing forwarded,
    neither closed nor its collapse toggle hidden. *)
Definition LeftOpen (tr : list Event) : Prop :=
  snackbars tr = [] /\
  forwardedToPostSubmission tr = [] /\
  forwardedToOnSubmit tr = [] /\
  closes tr = [] /\
  collapseToggles tr = [].

(** The outcome of a submission whose processors resolved with [results] and
    whose post-submission actions did not fail. *)
Definition Succeeded (e : Env) (results : list Result) (tr : list Event) : Prop :=
  snackbars tr
  = [if String.eqb (sessionMode e) "edit" then recordUpdated e else formSubmitted e] /\
  toasts tr = [] /\
  isSubmittingUpdates tr = [false] /\
  collapseToggles tr = [tt] /\
  forwardedToOnSubmit tr = (if onSubmit e then [results] else []) /\
  closes tr = (if onSubmit e then [] else [tt]).

(** The outcome of a submission whose processors resolved and whose
    post-submission actions rejected with [reason]. *)
Definition FailedAfterSuccess (e : Env) (reason : JsValue) (tr : list Event) : Prop :=
  snackbars tr
  = [if String.eqb (sessionMode e) "edit" then recordUpdated e else formSubmitted e] /\
  toasts tr =
    [match reason with
     | JsError message =>
         JsToast (mkToast (t e "errorProcessingFormSubmission"
                             "Error processing form submission")
                          "error" message true)
     | _ => reason
     end] /\
  isSubmittingUpdates tr = [false; false] /\
  collapseToggles tr = [] /\
  forwardedToOnSubmit tr = [] /\
  closes tr = [].

(** Every call of a processor in [tr] carries the token [c]. *)
Definition SharesToken (c : AbortController) (tr : list Event) : Prop :=
  Forall (fun call => snd call = c) (processorCalls tr).

(** The run left the refs and the modal as they were. *)
Definition KeepsRefs {A} (s : Store) (r : Completion A * Store * list Event) : Prop :=
  rootForm (finalStore r) = rootForm s /\ subForms (finalStore r) = subForms s.

(** Events that are neither a call of a processor nor part of what follows
    the settlement: the questions to the helpers, the gestures, the updates
    of the modal. *)
Definition isInert (ev : Event) : bool :=
  match ev with
  | CallValidateForm _ | CallValidateEmptyForm _ | CallValidateEmptyFields _
  | UserGesture _ | SetIsEmptyFormModalOpen _ => true
  | _ => false
  end.

(** [tr] is a run of the submission block over [forms], with inert events
    before the calls and between the calls and the settlement. *)
Definition Block (e : Env) (forms : list FormContextProps) (tr : list Event) : Prop :=
  exists before between,
    Forall (fun ev => isInert ev = true) before /\
    Forall (fun ev => isInert ev = true) between /\
    tr = before ++ submissionCalls e forms ++ between
         ++ finishTrace e (submissionPromises e forms).

(** [tr] is the trace of one of the handlers that can reach the processors,
    run from the store [s] with the props [e]: the async function of variant
    1 or 3, the effect of variant 2, or a gesture on its modal. *)
Definition RunOf (e : Env) (s : Store) (tr : list Event) : Prop :=
  tr = trace (V1.handleFormSubmission e s) \/
  tr = trace (V2.useEffect e s) \/
  (exists g, tr = trace (V2.gesture e g s)) \/
  tr = trace (V3.handleFormSubmission e s).

(** ** More sample inputs *)

Definition lateSample : FormContextProps := mkContext 3 9.

(** The processors resolve; the post-submission actions reject. *)
Definition failingActionsEnv : Env :=
  mkEnv 42 "edit" (fun _ fallback => fallback) true (Some ["linkHandler"]) None 5
        (fun _ => true) (fun _ => false) (fun _ => false)
        (fun p f _ => mkPromise (contextRef f) (Fulfilled (p + 100)))
        (fun _ _ => Rejected (JsError "link failed"))
        helperThrows helperThrows helperThrows.

(** The root form has data, the sub-form is empty; a callback is given. *)
Definition partlyFilledEnv : Env :=
  mkEnv 42 "enter" (fun _ fallback => fallback) false None
        (Some (Returns (AnswerBoolean false))) 5
        (fun _ => true)
        (fun f => Nat.eqb (contextRef f) 2) (fun f => Nat.eqb (contextRef f) 2)
        (fun p f _ => mkPromise (contextRef f) (Fulfilled (p + 100)))
        (fun _ _ => Fulfilled tt)
        helperThrows helperThrows helperThrows.

(** The root form fails validation. *)
Definition invalidRootEnv : Env :=
  mkEnv 42 "enter" (fun _ fallback => fallback) true None None 5
        (fun f => Nat.eqb (contextRef f) 2) (fun _ => false) (fun _ => false)
        (fun p f _ => mkPromise 0 (Fulfilled p)) (fun _ _ => Fulfilled tt)
        helperThrows helperThrows helperThrows.

(** ** The living provider *)

(** The props of another render: every render makes its own
    [AbortController]. *)
Definition rerender (c : AbortController) (e : Env) : Env :=
  mkEnv (patient e) (sessionMode e) (t e) (onSubmit e) (postSubmissionHandlers e)
        (handleEmptyFormSubmission e) c
        (validateForm e) (validateEmptyForm e) (validateEmptyFields e)
        (processSubmission e) (processPostSubmissionActions e)
        (validateFormOnUndefined e) (validateEmptyFormOnUndefined e)
        (validateEmptyFieldsOnUndefined e).

(** A render finds an empty submission: when it is submitting, the root form
    has registered, every form is valid and some form is empty. *)
Definition EmptySubmission (e : Env) (s : Store) : Prop :=
  isSubmitting s = true ->
  exists root,
    rootForm s = Some root /\
    forallb (validateForm e) (formsOf s root) = true /\
    existsb (validateEmptyFields e) (formsOf s root) = true.

(** [P] holds of the props and of the store at every render of the
    schedule. *)
Fixpoint AtEveryRender (P : Env -> Store -> Prop) (p : Live.Provider)
         (schedule : list Live.Step) : Prop :=
  match schedule with
  | [] => True
  | st :: rest =>
      match st with
      | Live.Render e => P e (Live.store p)
      | _ => True
      end /\
      AtEveryRender P (fst (Live.step p st)) rest
  end.

(** If the modal is open or shown, it has been opened in [past]. *)
Definition Opened (p : Live.Provider) (past : list Event) : Prop :=
  isEmptyFormModalOpen (Live.store p) = true \/ Live.shown p = true ->
  In (SetIsEmptyFormModalOpen true) past.

(** The modal is on the screen and the root form has registered. *)
Definition AwaitsAnswer (e : Env) (root : FormContextProps) (p : Live.Provider) : Prop :=
  Live.committed p = Some e /\ Live.shown p = true /\
  rootForm (Live.store p) = Some root.

(** The empty-form callback throws. *)
Definition throwingCallbackEnv : Env :=
  mkEnv 42 "edit" (fun _ fallback => fallback) false (Some [])
        (Some (Throws (JsError "callback failed"))) 5
        (fun _ => true) (fun _ => true) (fun _ => true)
        (fun p f _ => mkPromise (contextRef f) (Fulfilled (p + 100)))
        (fun _ _ => Fulfilled tt)
        helperThrows helperThrows helperThrows.

(** The calls a submission owes to the registry: the processor of the root
    form first, then the processor of every registered sub-form, once each,
    all with the token [c]. *)
Definition OwedTo (c : AbortController) (root : FormContextProps)
           (registry : list (string * FormContextProps))
           (calls : list (FormProcessor * FormContextProps * AbortController)) : Prop :=
  exists rest,
    Permutation rest (map snd registry) /\
    calls = map (fun f => (processor f, f, c)) (root :: rest).

(** What the processors called in [calls] resolved with, call by call. *)
Definition ResultsOf (e : Env)
           (calls : list (FormProcessor * FormContextProps * AbortController))
           (results : list Result) : Prop :=
  Forall2
    (fun call r =>
       outcome (processSubmission e (fst (fst call)) (snd (fst call)) (snd call))
       = Fulfilled r)
    calls results.

(** Every form of the registry went once to its own processor with the token
    of the render; what goes on to the post-submission actions and to
    [onSubmit] is the list of what these calls resolved with, call by call,
    and it goes there at most once. *)
Definition DeliveredOnce (e : Env) (root : FormContextProps)
           (registry : list (string * FormContextProps)) (tr : list Event) : Prop :=
  OwedTo (abortController e) root registry (processorCalls tr) /\
  (forall results,
     In results (forwardedToPostSubmission tr ++ forwardedToOnSubmit tr) ->
     ResultsOf e (processorCalls tr) results) /\
  (forall results,
     ResultsOf e (processorCalls tr) results ->
     (forall handlers,
        postSubmissionHandlers e = Some handlers ->
        forwardedToPostSubmission tr = [results]) /\
     (onSubmit e = true ->
      (forall handlers,
         postSubmissionHandlers e = Some handlers ->
         processPostSubmissionActions e handlers results = Fulfilled tt) ->
      forwardedToOnSubmit tr = [results])) /\
  List.length (forwardedToPostSubmission tr) <= 1 /\
  List.length (forwardedToOnSubmit tr) <= 1.

(** Renders of the sample submissions: the forms valid and empty, and the
    forms valid and filled. *)
Definition emptyRender (c : AbortController) : Live.Step :=
  Live.Render (rerender c (emptyFormEnv None)).

Definition filledRender (c : AbortController) : Live.Step :=
  Live.Render (rerender c sampleEnv).

(** The empty sample submission up to the press on Confirm. *)
Definition untilConfirm : list Live.Step :=
  [emptyRender 5; emptyRender 6; Live.Gesture PressConfirm].

(** The provider and the trace once the steps [more] have followed the press
    on Confirm, and once the gesture [g] and a render have followed the
    showing of the modal. *)
Definition afterConfirm (more : list Live.Step) : Live.Provider * list Event :=
  Live.run (Live.mounted sampleStore) (untilConfirm ++ more).

Definition afterGesture (g : ModalGesture) : Live.Provider * list Event :=
  Live.run (Live.mounted sampleStore)
           [emptyRender 5; emptyRender 6; Live.Gesture g; emptyRender 7].
(** * Verification *)

(** ** How the array callbacks run *)

Section Queries.
Context {A : Type} (ev : A -> Event) (p : A -> bool) (onNone : M bool).

Let callback (x : option A) : M bool :=
  match x with
  | Some a => emit (ev a) ;; ret (p a)
  | None => onNone
  end.

Lemma every_query (l : list A) (s : Store) :
  every callback (map Some l) s
  = (Normal (forallb p l), s, map ev (visitedByEvery p l)).
Proof.
  induction l as [|x rest IH]; [reflexivity|].
  cbn [every forallb visitedByEvery map callback].
  unfold bind at 1. cbn.
  destruct (p x); cbn.
  - rewrite IH. reflexivity.
  - reflexivity.
Qed.

Lemma some_query (l : list A) (s : Store) :
  some callback (map Some l) s
  = (Normal (existsb p l), s, map ev (visitedBySome p l)).
Proof.
  induction l as [|x rest IH]; [reflexivity|].
  cbn [some existsb visitedBySome map callback].
  unfold bind at 1. cbn.
  destruct (p x); cbn.
  - reflexivity.
  - rewrite IH. reflexivity.
Qed.

Lemma visitedByEvery_all (l : list A) :
  forallb p l = true -> visitedByEvery p l = l.
Proof.
  induction l as [|x rest IH]; cbn; [reflexivity|].
  destruct (p x); cbn; [|discriminate].
  intros H. now rewrite IH.
Qed.

Lemma visitedBySome_none (l : list A) :
  existsb p l = false -> visitedBySome p l = l.
Proof.
  induction l as [|x rest IH]; cbn; [reflexivity|].
  destruct (p x); cbn; [discriminate|].
  intros H. now rewrite IH.
Qed.
End Queries.

Lemma every_validateForm e l s :
  every (call_validateForm e) (map Some l) s
  = (Normal (forallb (validateForm e) l), s,
     map CallValidateForm (visitedByEvery (validateForm e) l)).
Proof. exact (every_query CallValidateForm (validateForm e) _ l s). Qed.

Lemma every_validateEmptyForm e l s :
  every (call_validateEmptyForm e) (map Some l) s
  = (Normal (forallb (validateEmptyForm e) l), s,
     map CallValidateEmptyForm (visitedByEvery (validateEmptyForm e) l)).
Proof. exact (every_query CallValidateEmptyForm (validateEmptyForm e) _ l s). Qed.

Lemma some_validateEmptyFields e l s :
  some (call_validateEmptyFields e) (map Some l) s
  = (Normal (existsb (validateEmptyFields e) l), s,
     map CallValidateEmptyFields (visitedBySome (validateEmptyFields e) l)).
Proof. exact (some_query CallValidateEmptyFields (validateEmptyFields e) _ l s). Qed.

Lemma mapM_calls {A B} (ev : A -> Event) (g : A -> B) l s :
  mapM (fun x => emit (ev x) ;; ret (g x)) l s = (Normal (map g l), s, map ev l).
Proof.
  induction l as [|x rest IH]; [reflexivity|].
  cbn [mapM map]. unfold bind at 1. unfold bind at 1. cbn [emit ret].
  unfold bind at 1. rewrite IH. cbn. rewrite app_nil_r. reflexivity.
Qed.

Lemma startSubmissions_run e forms s :
  startSubmissions e forms s
  = (Normal (submissionPromises e forms), s, submissionCalls e forms).
Proof.
  exact (mapM_calls
           (fun f => CallProcessSubmission (processor f) f (abortController e))
           (fun f => processSubmission e (processor f) f (abortController e))
           forms s).
Qed.

Lemma mapM_map {A B C} (f : B -> M C) (g : A -> B) l s :
  mapM f (map g l) s = mapM (fun x => f (g x)) l s.
Proof.
  revert s. induction l as [|x rest IH]; intros s; [reflexivity|].
  cbn [mapM map]. unfold bind.
  destruct (f (g x) s) as [[[y|thrown] s1] tr1]; [|reflexivity].
  rewrite IH. reflexivity.
Qed.

Lemma beginSubmissions_run e forms s :
  beginSubmissions e (map Some forms) s
  = (Normal (Some (submissionPromises e forms)), s, submissionCalls e forms).
Proof.
  unfold beginSubmissions, tryCatch, bind.
  rewrite mapM_map.
  change (mapM (fun x => call_processSubmission e (Some x)) forms s)
    with (startSubmissions e forms s).
  rewrite startSubmissions_run. cbn. rewrite app_nil_r. reflexivity.
Qed.

(** On [undefined] the first call throws and the [catch] clause runs. *)
Lemma beginSubmissions_undefined e rest s :
  beginSubmissions e (None :: rest) s
  = (Normal None, withIsSubmitting false s,
     [SetIsSubmitting false;
      ShowToast (JsToast (errorToast e
        "Cannot read properties of undefined (reading 'processor')"))]).
Proof. reflexivity. Qed.

(** ** The submission block in closed form *)

Lemma finishSubmissions_run e pending s :
  finishSubmissions e pending s
  = (Normal tt, withIsSubmitting false s, finishTrace e pending).
Proof.
  unfold finishSubmissions, awaitAll, finishTrace, allFulfilled, successTail,
    successSnackbar, closingTail, catchSubmissionError, tryCatch, bind.
  destruct (Promise_all pending) as [results|errorObject]; cbn.
  - destruct (String.eqb (sessionMode e) "edit"); cbn;
      destruct (postSubmissionHandlers e) as [handlers|]; cbn;
      try (unfold call_processPostSubmissionActions, bind; cbn;
           destruct (processPostSubmissionActions e handlers results) as [[]|err]; cbn;
           try destruct err);
      destruct (onSubmit e); reflexivity.
  - destruct errorObject; reflexivity.
Qed.

Lemma submitForms_run e forms s :
  submitForms e forms s = (Normal tt, withIsSubmitting false s, submitTrace e forms).
Proof.
  unfold submitForms, bind. rewrite startSubmissions_run, finishSubmissions_run.
  reflexivity.
Qed.

(** On forms that are all there the block of the variants is [submitForms]. *)
Lemma submissionBlock_run e forms s :
  submissionBlock e (map Some forms) s
  = (Normal tt, withIsSubmitting false s, submitTrace e forms).
Proof.
  unfold submissionBlock, bind, resumeSubmissions.
  rewrite beginSubmissions_run, finishSubmissions_run. reflexivity.
Qed.

Lemma submissionBlock_undefined e rest s :
  submissionBlock e (None :: rest) s
  = (Normal tt, withIsSubmitting false s,
     [SetIsSubmitting false;
      ShowToast (JsToast (errorToast e
        "Cannot read properties of undefined (reading 'processor')"))]).
Proof. reflexivity. Qed.

(** ** The variants in closed form *)

Ltac run_step :=
  cbv beta iota delta [bind get ret throw emit modify tryCatch floating await
                       completes currentForms resumeSubmissions
                       call_handleEmptyFormSubmission
                       setIsSubmitting setIsEmptyFormModalOpen handleClose
                       handleDiscardForm abort runCleanup].

Ltac run_queries :=
  repeat first
    [ rewrite every_validateForm
    | rewrite every_validateEmptyForm
    | rewrite some_validateEmptyFields
    | rewrite submissionBlock_run
    | rewrite submitForms_run
    | rewrite beginSubmissions_run
    | rewrite startSubmissions_run
    | rewrite finishSubmissions_run ];
  run_step.

(** With the root form registered the list of forms has no hole. *)
Ltac registered Hroot s root :=
  rewrite Hroot;
  change (Some root :: map Some (Object_values (subForms s)))
    with (map Some (formsOf s root)).

Lemma V1_run e s root :
  isSubmitting s = true -> rootForm s = Some root ->
  V1.handleFormSubmission e s
  = if forallb (validateForm e) (formsOf s root) then
      match forallb (validateEmptyForm e) (formsOf s root),
            handleEmptyFormSubmission e with
      | true, Some callback =>
          callbackRun1 s (validations e (formsOf s root)
                          ++ emptyFormChecks e (formsOf s root)) callback
      | _, _ =>
          (Normal tt, withIsSubmitting false s,
           validations e (formsOf s root) ++ emptyFormChecks e (formsOf s root)
           ++ submitTrace e (formsOf s root))
      end
    else (Normal tt, withIsSubmitting false s,
          validations e (formsOf s root) ++ [SetIsSubmitting false]).
Proof.
  intros Hsub Hroot.
  unfold V1.handleFormSubmission, validations, emptyFormChecks, callbackRun1.
  run_step. rewrite Hsub. registered Hroot s root. run_queries.
  destruct (forallb (validateForm e) (formsOf s root)); [|reflexivity].
  run_queries.
  destruct (forallb (validateEmptyForm e) (formsOf s root));
    destruct (handleEmptyFormSubmission e) as [[result|thrown]|]; run_queries;
    rewrite <- ?app_assoc; try reflexivity.
  destruct result as [[[]|err]|[]|]; reflexivity.
Qed.

Lemma V3_run e s root :
  isSubmitting s = true -> rootForm s = Some root ->
  V3.handleFormSubmission e s
  = (Normal tt, withIsSubmitting false s,
     validations e (formsOf s root) ++ emptyFormChecks e (formsOf s root) ++
     match (forallb (validateEmptyForm e) (formsOf s root)
            && forallb (validateForm e) (formsOf s root))%bool,
           handleEmptyFormSubmission e with
     | true, Some callback => callbackTrace3 callback
     | _, _ =>
         if forallb (validateForm e) (formsOf s root)
         then submitTrace e (formsOf s root)
         else [SetIsSubmitting false]
     end).
Proof.
  intros Hsub Hroot.
  unfold V3.handleFormSubmission, validations, emptyFormChecks, callbackTrace3.
  run_step. rewrite Hsub. registered Hroot s root. run_queries.
  destruct (forallb (validateEmptyForm e) (formsOf s root));
    destruct (forallb (validateForm e) (formsOf s root));
    destruct (handleEmptyFormSubmission e) as [[result|thrown]|]; cbn [andb];
    run_queries; try reflexivity.
  destruct result as [[[]|err]|[]|]; reflexivity.
Qed.

Lemma V2_effectNow_run e s root :
  isSubmitting s = true -> rootForm s = Some root ->
  V2.effectNow e s
  = (Normal (startedByEffect2 e s root),
     (if forallb (validateForm e) (formsOf s root) then
        if existsb (validateEmptyFields e) (formsOf s root)
        then withIsEmptyFormModalOpen true s else s
      else withIsSubmitting false s),
     validations e (formsOf s root) ++ emptyFieldsChecks e (formsOf s root) ++
     if forallb (validateForm e) (formsOf s root) then
       if existsb (validateEmptyFields e) (formsOf s root)
       then [SetIsEmptyFormModalOpen true]
       else submissionCalls e (formsOf s root)
     else [SetIsSubmitting false]).
Proof.
  intros Hsub Hroot.
  unfold V2.effectNow, validations, emptyFieldsChecks, startedByEffect2.
  run_step. rewrite Hsub. registered Hroot s root. run_queries.
  destruct (forallb (validateForm e) (formsOf s root));
    destruct (existsb (validateEmptyFields e) (formsOf s root));
    run_queries; rewrite ?app_nil_r; reflexivity.
Qed.

Lemma V2_effectNow_idle e s :
  isSubmitting s = false -> V2.effectNow e s = (Normal None, s, []).
Proof.
  intros Hsub. unfold V2.effectNow. run_step. rewrite Hsub. reflexivity.
Qed.

Lemma V2_effect_run e s root :
  isSubmitting s = true -> rootForm s = Some root ->
  V2.useEffect e s
  = (Normal None, storeAfterEffect2 e s root,
     validations e (formsOf s root) ++ emptyFieldsChecks e (formsOf s root) ++
     if forallb (validateForm e) (formsOf s root) then
       if existsb (validateEmptyFields e) (formsOf s root)
       then [SetIsEmptyFormModalOpen true]
       else submitTrace e (formsOf s root)
     else [SetIsSubmitting false]).
Proof.
  intros Hsub Hroot.
  unfold V2.useEffect, bind. rewrite (V2_effectNow_run e s root Hsub Hroot).
  unfold startedByEffect2, storeAfterEffect2, submitTrace.
  destruct (forallb (validateForm e) (formsOf s root));
    destruct (existsb (validateEmptyFields e) (formsOf s root));
    run_step; run_queries; rewrite ?app_nil_r, <- ?app_assoc; reflexivity.
Qed.

Lemma V2_effect_idle e s :
  isSubmitting s = false -> V2.useEffect e s = (Normal None, s, []).
Proof.
  intros Hsub. unfold V2.useEffect, bind. rewrite (V2_effectNow_idle e s Hsub).
  reflexivity.
Qed.

Lemma V2_confirmation_run e s root :
  rootForm s = Some root ->
  V2.handleIncompleteFormConfirmation e s
  = (Normal (Some (submissionPromises e (formsOf s root))),
     withIsEmptyFormModalOpen false s,
     submissionCalls e (formsOf s root) ++ [SetIsEmptyFormModalOpen false]).
Proof.
  intros Hroot. unfold V2.handleIncompleteFormConfirmation. run_step. registered Hroot s root.
  run_queries. rewrite app_nil_r. reflexivity.
Qed.

Lemma V2_gesture_closed e g s :
  isEmptyFormModalOpen s = false -> V2.gesture e g s = (Normal tt, s, []).
Proof.
  intros Hopen. unfold V2.gesture. run_step. rewrite Hopen. reflexivity.
Qed.

Lemma V2_gesture_open e g s root :
  isEmptyFormModalOpen s = true -> rootForm s = Some root ->
  V2.gesture e g s
  = (Normal tt, closeModal s,
     match g with
     | PressConfirm => confirmTrace e (formsOf s root)
     | _ => discardTrace g
     end).
Proof.
  intros Hopen Hroot.
  unfold V2.gesture, IncompleteFormConfirmationModal,
    V2.handleIncompleteFormDiscard, confirmTrace, discardTrace.
  run_step. rewrite Hopen.
  destruct g; run_step; try reflexivity.
  rewrite (V2_confirmation_run e s root Hroot). run_queries.
  rewrite <- app_assoc. reflexivity.
Qed.

Lemma V1_idle e s :
  isSubmitting s = false -> V1.handleFormSubmission e s = (Normal tt, s, []).
Proof.
  intros Hsub. unfold V1.handleFormSubmission. run_step. rewrite Hsub. reflexivity.
Qed.

Lemma V3_idle e s :
  isSubmitting s = false -> V3.handleFormSubmission e s = (Normal tt, s, []).
Proof.
  intros Hsub. unfold V3.handleFormSubmission. run_step. rewrite Hsub. reflexivity.
Qed.

(** ** The registry *)

Lemma insertByIndex_In {V} (x y : N * V) l :
  In y (insertByIndex x l) <-> y = x \/ In y l.
Proof.
  induction l as [|z rest IH]; cbn.
  - intuition auto.
  - destruct (fst x <=? fst z)%N; cbn; [intuition auto|].
    rewrite IH. intuition auto.
Qed.

Lemma indexEntries_In {V} (o : list (string * V)) n v :
  In (n, v) (indexEntries o) <-> exists k, In (k, v) o /\ arrayIndex k = Some n.
Proof.
  induction o as [|[k' v'] rest IH]; cbn.
  - split; [contradiction | intros [k [[] _]]].
  - destruct (arrayIndex k') as [n'|] eqn:Hk'.
    + rewrite insertByIndex_In, IH. split.
      * intros [[= -> ->] | [k [Hin Hk]]]; [exists k'; auto | exists k; auto].
      * intros [k [[[= -> ->] | Hin] Hk]].
        -- left. congruence.
        -- right. exists k. auto.
    + rewrite IH. split.
      * intros [k [Hin Hk]]. exists k. auto.
      * intros [k [[[= -> ->] | Hin] Hk]]; [congruence | exists k; auto].
Qed.

(** [Object.values] reorders the entries and loses none. *)
Lemma Object_values_In {V} (o : list (string * V)) v :
  In v (Object_values o) <-> exists k, In (k, v) o.
Proof.
  unfold Object_values. rewrite in_app_iff, !in_map_iff. split.
  - intros [[[n v'] [Hv Hin]] | [[k v'] [Hv Hin]]]; cbn in Hv; subst v'.
    + apply indexEntries_In in Hin. destruct Hin as [k [Hin _]]. exists k. exact Hin.
    + apply filter_In in Hin. exists k. apply Hin.
  - intros [k Hin]. destruct (arrayIndex k) as [n|] eqn:Hk.
    + left. exists (n, v). split; [reflexivity|].
      apply indexEntries_In. exists k. auto.
    + right. exists (k, v). split; [reflexivity|].
      apply filter_In. cbn. rewrite Hk. auto.
Qed.

Lemma defineOwn_In {V} (o : list (string * V)) k v : In (k, v) (defineOwn o k v).
Proof.
  induction o as [|[k' v'] rest IH]; cbn; [now left|].
  destruct (String.eqb k' k) eqn:Hk.
  - apply String.eqb_eq in Hk. subst k'. now left.
  - right. exact IH.
Qed.

Lemma defineOwn_keeps {V} (o : list (string * V)) k v k' v' :
  k' <> k -> In (k', v') o -> In (k', v') (defineOwn o k v).
Proof.
  intros Hneq. induction o as [|[k0 v0] rest IH]; cbn; [contradiction|].
  destruct (String.eqb k0 k) eqn:Hk.
  - apply String.eqb_eq in Hk. subst k0.
    intros [[= -> ->] | Hin]; [congruence | now right].
  - intros [Heq | Hin]; [now left | right; auto].
Qed.

Lemma assign_ordinary {V} (o : list (string * V)) k v :
  k <> "__proto__" -> assign o k v = defineOwn o k v.
Proof.
  intros Hk. unfold assign. apply String.eqb_neq in Hk. rewrite Hk. reflexivity.
Qed.

Lemma assign_proto {V} (o : list (string * V)) v : assign o "__proto__" v = o.
Proof. reflexivity. Qed.

Lemma assign_In {V} (o : list (string * V)) k v :
  k <> "__proto__" -> In (k, v) (assign o k v).
Proof. intros Hk. rewrite (assign_ordinary o k v Hk). apply defineOwn_In. Qed.

Lemma assign_keeps {V} (o : list (string * V)) k v k' v' :
  k' <> k -> In (k', v') o -> In (k', v') (assign o k v).
Proof.
  intros Hneq Hin. unfold assign.
  destruct (String.eqb k "__proto__"); [exact Hin | apply defineOwn_keeps; assumption].
Qed.

(** A sub-form that registers is among the forms of the next submission,
    and so are the sub-forms registered before it under other names; the root
    form that registers is their head. *)
Lemma registered_forms_are_submitted formId context s root :
  formId <> "__proto__" -> rootForm s = Some root ->
  let s' := finalStore (registerForm formId true context s) in
  rootForm s' = Some root /\
  In context (formsOf s' root) /\
  (forall otherId other,
     otherId <> formId -> In (otherId, other) (subForms s) -> In other (formsOf s' root)).
Proof.
  intros Hid Hroot. cbn. split; [exact Hroot|]. split.
  - right. apply Object_values_In. exists formId. apply assign_In. exact Hid.
  - intros otherId other Hneq Hin. right. apply Object_values_In.
    exists otherId. apply assign_keeps; assumption.
Qed.

Lemma registered_root_is_first formId context s :
  let s' := finalStore (registerForm formId false context s) in
  rootForm s' = Some context /\ subForms s' = subForms s.
Proof. split; reflexivity. Qed.

(** When all forms are empty, some form is: the list of forms starts with the
    root form. *)
Lemma all_empty_is_some_empty (p : FormContextProps -> bool) s root :
  forallb p (formsOf s root) = true -> existsb p (formsOf s root) = true.
Proof.
  unfold formsOf. cbn. intros Hall. apply andb_true_iff in Hall.
  destruct Hall as [-> _]. reflexivity.
Qed.

(** ** Projections *)

Lemma select_app {B} (pick : Event -> option B) a b :
  select pick (a ++ b) = select pick a ++ select pick b.
Proof. unfold select. apply flat_map_app. Qed.

Lemma select_map_none {A B} (pick : Event -> option B) (g : A -> Event) l :
  (forall x, pick (g x) = None) -> select pick (map g l) = [].
Proof.
  intros Hnone. induction l as [|x rest IH]; [reflexivity|].
  cbn. rewrite Hnone. exact IH.
Qed.

Lemma select_map_some {A B} (pick : Event -> option B) (g : A -> Event) (h : A -> B) l :
  (forall x, pick (g x) = Some (h x)) -> select pick (map g l) = map h l.
Proof.
  intros Hsome. induction l as [|x rest IH]; [reflexivity|].
  cbn. rewrite Hsome. cbn. f_equal. exact IH.
Qed.

Lemma select_In {B} (pick : Event -> option B) tr b :
  In b (select pick tr) <-> exists ev, In ev tr /\ pick ev = Some b.
Proof.
  unfold select. rewrite in_flat_map. split.
  - intros [ev [Hin Hb]]. exists ev. split; [exact Hin|].
    destruct (pick ev); cbn in Hb; [|contradiction].
    destruct Hb as [<-|[]]. reflexivity.
  - intros [ev [Hin Hb]]. exists ev. split; [exact Hin|].
    rewrite Hb. now left.
Qed.

Lemma select_validations {B} (pick : Event -> option B) e forms :
  (forall f, pick (CallValidateForm f) = None) -> select pick (validations e forms) = [].
Proof. intros H. apply select_map_none. exact H. Qed.

Lemma select_emptyFormChecks {B} (pick : Event -> option B) e forms :
  (forall f, pick (CallValidateEmptyForm f) = None) ->
  select pick (emptyFormChecks e forms) = [].
Proof. intros H. apply select_map_none. exact H. Qed.

Lemma select_emptyFieldsChecks {B} (pick : Event -> option B) e forms :
  (forall f, pick (CallValidateEmptyFields f) = None) ->
  select pick (emptyFieldsChecks e forms) = [].
Proof. intros H. apply select_map_none. exact H. Qed.

Lemma select_submissionCalls {B} (pick : Event -> option B) e forms :
  (forall p f c, pick (CallProcessSubmission p f c) = None) ->
  select pick (submissionCalls e forms) = [].
Proof. intros H. apply select_map_none. intros f. apply H. Qed.

Lemma processorCalls_submissionCalls e forms :
  processorCalls (submissionCalls e forms) = expectedCalls e forms.
Proof. apply select_map_some. reflexivity. Qed.

Lemma processorCalls_finishTrace e pending :
  processorCalls (finishTrace e pending) = [].
Proof.
  unfold finishTrace, successTail, closingTail, failureTail.
  destruct (Promise_all pending) as [results|err]; [|reflexivity].
  destruct (postSubmissionHandlers e) as [handlers|]; cbn.
  - destruct (processPostSubmissionActions e handlers results);
      [destruct (onSubmit e)|]; reflexivity.
  - destruct (onSubmit e); reflexivity.
Qed.

Lemma processorCalls_submitTrace e forms :
  processorCalls (submitTrace e forms) = expectedCalls e forms.
Proof.
  unfold submitTrace, processorCalls. rewrite select_app.
  fold processorCalls.
  rewrite processorCalls_submissionCalls, processorCalls_finishTrace.
  apply app_nil_r.
Qed.

Lemma effects_app a b : effects (a ++ b) = effects a ++ effects b.
Proof. apply filter_app. Qed.

Lemma effects_queries {A} (g : A -> Event) l :
  (forall x, isQuery (g x) = true) -> effects (map g l) = [].
Proof.
  intros Hq. induction l as [|x rest IH]; [reflexivity|].
  cbn. rewrite Hq. exact IH.
Qed.

Lemma effects_validations e forms : effects (validations e forms) = [].
Proof. apply effects_queries. reflexivity. Qed.

Lemma effects_emptyFormChecks e forms : effects (emptyFormChecks e forms) = [].
Proof. apply effects_queries. reflexivity. Qed.

Lemma effects_emptyFieldsChecks e forms : effects (emptyFieldsChecks e forms) = [].
Proof. apply effects_queries. reflexivity. Qed.

(** Rewrites a projection of a trace built from the blocks above. *)
Ltac project :=
  unfold processorCalls, toasts, snackbars, aborts, forwardedToPostSubmission,
    forwardedToOnSubmit, closes, emptyFormCallbacks;
  repeat first
    [ rewrite select_app
    | rewrite select_validations by reflexivity
    | rewrite select_emptyFormChecks by reflexivity
    | rewrite select_emptyFieldsChecks by reflexivity
    | rewrite select_submissionCalls by reflexivity
    | rewrite effects_app
    | rewrite effects_validations
    | rewrite effects_emptyFormChecks
    | rewrite effects_emptyFieldsChecks ];
  cbn [app].

Lemma some_form_fails e forms f :
  In f forms -> validateForm e f = false -> forallb (validateForm e) forms = false.
Proof.
  intros Hin Hf. apply not_true_is_false. intros Hall.
  rewrite forallb_forall in Hall. rewrite (Hall f Hin) in Hf. discriminate.
Qed.


(** ** Stages *)

Section Staging.
Variable stage : Event -> option nat.

Lemma StagedFrom_nil k : StagedFrom stage k [].
Proof. split; constructor. Qed.

Lemma StagedFrom_weaken k k' tr :
  k' <= k -> StagedFrom stage k tr -> StagedFrom stage k' tr.
Proof.
  intros Hle [Hsorted Hfrom]. split; [exact Hsorted|].
  eapply Forall_impl; [|exact Hfrom]. cbn. intros n Hn. lia.
Qed.

Lemma StagedFrom_unstaged k ev tr :
  stage ev = None -> StagedFrom stage k tr -> StagedFrom stage k (ev :: tr).
Proof.
  intros Hev Htr. unfold StagedFrom, select. cbn [flat_map]. rewrite Hev. exact Htr.
Qed.

Lemma StagedFrom_staged k j ev tr :
  stage ev = Some j -> k <= j -> StagedFrom stage j tr ->
  StagedFrom stage k (ev :: tr).
Proof.
  intros Hev Hle [Hsorted Hfrom]. unfold StagedFrom, select. cbn [flat_map].
  rewrite Hev. cbn [app]. split.
  - constructor; assumption.
  - constructor; [exact Hle|].
    eapply Forall_impl; [|exact Hfrom]. cbn. intros n Hn. lia.
Qed.

Lemma StagedFrom_block {A} k j (g : A -> Event) l tr :
  (forall x, stage (g x) = Some j) -> k <= j -> StagedFrom stage j tr ->
  StagedFrom stage k (map g l ++ tr).
Proof.
  intros Hg Hle Htr. apply (StagedFrom_weaken j); [exact Hle|].
  induction l as [|x rest IH]; [exact Htr|].
  cbn [map app]. apply (StagedFrom_staged j j); auto.
Qed.

Lemma sorted_pair (l1 l2 l3 : list nat) i j :
  StronglySorted le (l1 ++ i :: l2 ++ j :: l3) -> i <= j.
Proof.
  induction l1 as [|x l1 IH]; cbn; intros Hsorted.
  - apply StronglySorted_inv in Hsorted. destruct Hsorted as [_ Hall].
    rewrite Forall_forall in Hall. apply Hall.
    rewrite in_app_iff. right. now left.
  - apply StronglySorted_inv in Hsorted. apply IH. apply Hsorted.
Qed.

Lemma StagedFrom_ordered k tr : StagedFrom stage k tr -> StageOrdered stage tr.
Proof.
  intros [Hsorted _] pre a mid b post i j -> Ha Hb.
  rewrite select_app in Hsorted.
  change (a :: mid ++ b :: post) with ([a] ++ mid ++ [b] ++ post) in Hsorted.
  rewrite !select_app in Hsorted.
  unfold select at 2 4 in Hsorted. cbn [flat_map] in Hsorted.
  rewrite Ha, Hb in Hsorted. cbn [app] in Hsorted.
  exact (sorted_pair _ _ _ _ _ Hsorted).
Qed.
End Staging.

Ltac staged :=
  repeat first
    [ apply StagedFrom_nil
    | eapply StagedFrom_block; [intros; reflexivity | lia | ]
    | apply StagedFrom_unstaged; [reflexivity | ]
    | eapply StagedFrom_staged; [reflexivity | lia | ] ].


(** ** Before the root form registers *)

Ltac tidy := rewrite <- ?app_assoc; cbn [app]; rewrite ?app_nil_r.

Ltac harmless :=
  unfold Harmless, trace, finalStore; cbn [fst snd];
  split; [project; reflexivity|];
  split; [project; reflexivity|];
  split; [try reflexivity; assumption|];
  split; [reflexivity|];
  unfold validations, emptyFormChecks, emptyFieldsChecks; tidy; staged.

Lemma V1_rootless e s :
  isSubmitting s = true -> rootForm s = None ->
  Harmless s (V1.handleFormSubmission e s) /\
  isEmptyFormModalOpen (finalStore (V1.handleFormSubmission e s)) = isEmptyFormModalOpen s.
Proof.
  intros Hsub Hroot.
  unfold V1.handleFormSubmission. run_step. rewrite Hsub, Hroot.
  cbn [every call_validateForm]. run_step.
  destruct (validateFormOnUndefined e) as [[|]|thrown]; run_step;
    try (split; [harmless | reflexivity]).
  rewrite every_validateForm. run_step.
  fold (validations e (Object_values (subForms s))).
  destruct (forallb (validateForm e) (Object_values (subForms s))); run_step;
    [|split; [harmless | reflexivity]].
  cbn [every call_validateEmptyForm]. run_step.
  destruct (validateEmptyFormOnUndefined e) as [[|]|thrown']; run_step;
    try rewrite submissionBlock_undefined;
    try (split; [harmless | reflexivity]).
  rewrite every_validateEmptyForm. run_step.
  fold (emptyFormChecks e (Object_values (subForms s))).
  destruct (forallb (validateEmptyForm e) (Object_values (subForms s)));
    destruct (handleEmptyFormSubmission e) as [[result|thrown']|]; run_step;
    try rewrite submissionBlock_undefined;
    try (split; [harmless | reflexivity]).
  destruct result as [[[]|err]|[]|]; run_step; split; try reflexivity; harmless.
Qed.

Lemma V3_rootless e s :
  isSubmitting s = true -> rootForm s = None ->
  Harmless s (V3.handleFormSubmission e s) /\
  isEmptyFormModalOpen (finalStore (V3.handleFormSubmission e s)) = isEmptyFormModalOpen s.
Proof.
  intros Hsub Hroot.
  unfold V3.handleFormSubmission. run_step. rewrite Hsub, Hroot.
  cbn [every call_validateForm]. run_step.
  destruct (validateFormOnUndefined e) as [[|]|thrown]; run_step;
    try (split; [harmless | reflexivity]).
  - rewrite every_validateForm. run_step.
    fold (validations e (Object_values (subForms s))).
    cbn [every call_validateEmptyForm]. run_step.
    destruct (validateEmptyFormOnUndefined e) as [[|]|thrown']; run_step;
      try (split; [harmless | reflexivity]).
    + rewrite every_validateEmptyForm. run_step.
      fold (emptyFormChecks e (Object_values (subForms s))).
      destruct (forallb (validateEmptyForm e) (Object_values (subForms s)));
        destruct (forallb (validateForm e) (Object_values (subForms s)));
        destruct (handleEmptyFormSubmission e) as [[result|thrown']|]; cbn [andb];
        run_step; try rewrite submissionBlock_undefined;
        try (split; [harmless | reflexivity]).
      destruct result as [[[]|err]|[]|]; run_step; split; try reflexivity; harmless.
    + cbn [andb].
      destruct (forallb (validateForm e) (Object_values (subForms s)));
        run_step; try rewrite submissionBlock_undefined;
        split; try reflexivity; harmless.
  - cbn [every call_validateEmptyForm]. run_step.
    destruct (validateEmptyFormOnUndefined e) as [[|]|thrown']; run_step;
      [ | | split; [harmless | reflexivity]].
    + rewrite every_validateEmptyForm. run_step.
      fold (emptyFormChecks e (Object_values (subForms s))).
      rewrite andb_false_r. run_step. split; try reflexivity; harmless.
    + cbn [andb]. run_step. split; try reflexivity; harmless.
Qed.

Lemma V2_effect_rootless e s :
  isSubmitting s = true -> rootForm s = None ->
  Harmless s (V2.useEffect e s).
Proof.
  intros Hsub Hroot.
  unfold V2.useEffect, V2.effectNow. run_step. rewrite Hsub, Hroot.
  cbn [every call_validateForm]. run_step.
  destruct (validateFormOnUndefined e) as [[|]|thrown]; run_step; try harmless.
  - rewrite every_validateForm. run_step.
    fold (validations e (Object_values (subForms s))).
    cbn [some call_validateEmptyFields]. run_step.
    destruct (validateEmptyFieldsOnUndefined e) as [[|]|thrown']; run_step;
      try harmless.
    + destruct (forallb (validateForm e) (Object_values (subForms s)));
        run_step; harmless.
    + rewrite some_validateEmptyFields. run_step.
      fold (emptyFieldsChecks e (Object_values (subForms s))).
      destruct (forallb (validateForm e) (Object_values (subForms s)));
        destruct (existsb (validateEmptyFields e) (Object_values (subForms s)));
        run_step; try rewrite beginSubmissions_undefined; run_step; harmless.
  - cbn [some call_validateEmptyFields]. run_step.
    destruct (validateEmptyFieldsOnUndefined e) as [[|]|thrown']; run_step;
      try harmless.
    rewrite some_validateEmptyFields. run_step.
    fold (emptyFieldsChecks e (Object_values (subForms s))).
    harmless.
Qed.

Lemma V2_gesture_rootless e g s :
  isEmptyFormModalOpen s = true -> rootForm s = None ->
  Harmless s (V2.gesture e g s).
Proof.
  intros Hopen Hroot.
  unfold V2.gesture, IncompleteFormConfirmationModal,
    V2.handleIncompleteFormConfirmation, V2.handleIncompleteFormDiscard.
  run_step. rewrite Hopen.
  destruct g; run_step; try harmless.
  rewrite Hroot, beginSubmissions_undefined. run_step. harmless.
Qed.

(** ** Validation failure *)

(** C4. When some registered form fails [validateForm], the submission
    aborts: no [processSubmission] call, no toast, no snackbar, and the only
    effect is [setIsSubmitting(false)].  This holds of the three variants. *)
Theorem invalid_submission_aborts_silently e s root f :
  isSubmitting s = true -> rootForm s = Some root ->
  In f (formsOf s root) -> validateForm e f = false ->
  SilentAbort s (V1.handleFormSubmission e s) /\
  SilentAbort s (V2.useEffect e s) /\
  SilentAbort s (V3.handleFormSubmission e s).
Proof.
  intros Hsub Hroot Hin Hf.
  pose proof (some_form_fails e _ f Hin Hf) as Hinvalid.
  unfold SilentAbort.
  rewrite (V1_run e s root Hsub Hroot), (V2_effect_run e s root Hsub Hroot),
    (V3_run e s root Hsub Hroot).
  unfold storeAfterEffect2. rewrite Hinvalid, andb_false_r.
  unfold trace, finalStore. cbn [fst snd].
  repeat split; project; reflexivity.
Qed.

Lemma invalid_submission_aborts_silently_witness :
  SilentAbort sampleStore (V1.handleFormSubmission invalidSubFormEnv sampleStore) /\
  SilentAbort sampleStore (V2.useEffect invalidSubFormEnv sampleStore) /\
  SilentAbort sampleStore (V3.handleFormSubmission invalidSubFormEnv sampleStore).
Proof.
  apply (invalid_submission_aborts_silently
           invalidSubFormEnv sampleStore rootSample subSample);
    [reflexivity | reflexivity | vm_compute; auto | reflexivity].
Defined.

(** ** The empty-form callback (variants 1 and 3) *)

(** C8. In the variants that take [handleEmptyFormSubmission], when all forms
    are valid and empty and no callback is given, the empty-form check changes
    nothing: after the two rounds of checks the run is the submission block
    itself, with no call of a callback in it. *)
Theorem empty_form_without_callback_is_submitted e s root :
  isSubmitting s = true -> rootForm s = Some root ->
  forallb (validateForm e) (formsOf s root) = true ->
  forallb (validateEmptyForm e) (formsOf s root) = true ->
  handleEmptyFormSubmission e = None ->
  let forms := formsOf s root in
  let checks := map CallValidateForm forms ++ map CallValidateEmptyForm forms in
  (trace (V1.handleFormSubmission e s) = checks ++ trace (submitForms e forms s) /\
   emptyFormCallbacks (trace (V1.handleFormSubmission e s)) = [] /\
   processorCalls (trace (V1.handleFormSubmission e s)) = expectedCalls e forms) /\
  (trace (V3.handleFormSubmission e s) = checks ++ trace (submitForms e forms s) /\
   emptyFormCallbacks (trace (V3.handleFormSubmission e s)) = [] /\
   processorCalls (trace (V3.handleFormSubmission e s)) = expectedCalls e forms).
Proof.
  intros Hsub Hroot Hvalid Hempty Hnone forms checks. subst forms checks.
  assert (Hquiet : emptyFormCallbacks (submitTrace e (formsOf s root)) = []).
  { unfold submitTrace, finishTrace, successTail, closingTail, failureTail.
    project.
    destruct (Promise_all _) as [results|err]; [|reflexivity].
    destruct (postSubmissionHandlers e) as [handlers|]; cbn.
    - destruct (processPostSubmissionActions e handlers results);
        [destruct (onSubmit e)|]; reflexivity.
    - destruct (onSubmit e); reflexivity. }
  rewrite (V1_run e s root Hsub Hroot), (V3_run e s root Hsub Hroot), submitForms_run.
  rewrite Hvalid, Hempty, Hnone. cbn [andb].
  unfold validations, emptyFormChecks.
  rewrite !visitedByEvery_all by assumption.
  unfold trace. cbn [snd]. rewrite <- !app_assoc.
  repeat split; try reflexivity.
  all: unfold emptyFormCallbacks, processorCalls; rewrite !select_app;
    rewrite !select_map_none by reflexivity; cbn [app];
    try exact Hquiet; apply processorCalls_submitTrace.
Qed.

Lemma empty_form_without_callback_is_submitted_witness :
  (trace (V1.handleFormSubmission (emptyFormEnv None) sampleStore)
   = (map CallValidateForm (formsOf sampleStore rootSample)
      ++ map CallValidateEmptyForm (formsOf sampleStore rootSample))
     ++ trace (submitForms (emptyFormEnv None) (formsOf sampleStore rootSample)
                 sampleStore) /\
   emptyFormCallbacks (trace (V1.handleFormSubmission (emptyFormEnv None) sampleStore)) = [] /\
   processorCalls (trace (V1.handleFormSubmission (emptyFormEnv None) sampleStore))
   = expectedCalls (emptyFormEnv None) (formsOf sampleStore rootSample)) /\
  (trace (V3.handleFormSubmission (emptyFormEnv None) sampleStore)
   = (map CallValidateForm (formsOf sampleStore rootSample)
      ++ map CallValidateEmptyForm (formsOf sampleStore rootSample))
     ++ trace (submitForms (emptyFormEnv None) (formsOf sampleStore rootSample)
                 sampleStore) /\
   emptyFormCallbacks (trace (V3.handleFormSubmission (emptyFormEnv None) sampleStore)) = [] /\
   processorCalls (trace (V3.handleFormSubmission (emptyFormEnv None) sampleStore))
   = expectedCalls (emptyFormEnv None) (formsOf sampleStore rootSample)).
Proof.
  apply (empty_form_without_callback_is_submitted (emptyFormEnv None) sampleStore rootSample);
    reflexivity.
Defined.

(** C9. In the variants that take [handleEmptyFormSubmission], when the
    callback is given and all forms are valid and empty, the callback is
    called and no [processSubmission] is called, whatever the callback does;
    whatever it hands back (a promise that resolves or rejects, a boolean,
    anything else), [isSubmitting] is reset to false, and in variant 1 a
    rejected promise also leaves the form open: [handleClose] is not called.
    Variant 3 resets [isSubmitting] even when the callback throws. *)
Theorem empty_form_with_callback_is_not_submitted e s root callback :
  isSubmitting s = true -> rootForm s = Some root ->
  forallb (validateForm e) (formsOf s root) = true ->
  forallb (validateEmptyForm e) (formsOf s root) = true ->
  handleEmptyFormSubmission e = Some callback ->
  (processorCalls (trace (V1.handleFormSubmission e s)) = [] /\
   emptyFormCallbacks (trace (V1.handleFormSubmission e s)) = [tt] /\
   forall result, callback = Returns result ->
     isSubmitting (finalStore (V1.handleFormSubmission e s)) = false /\
     (forall reason, result = AnswerPromise (Rejected reason) ->
        closes (trace (V1.handleFormSubmission e s)) = [])) /\
  (processorCalls (trace (V3.handleFormSubmission e s)) = [] /\
   emptyFormCallbacks (trace (V3.handleFormSubmission e s)) = [tt] /\
   isSubmitting (finalStore (V3.handleFormSubmission e s)) = false).
Proof.
  intros Hsub Hroot Hvalid Hempty Hsome.
  rewrite (V1_run e s root Hsub Hroot), (V3_run e s root Hsub Hroot).
  rewrite Hvalid, Hempty, Hsome. cbn [andb].
  unfold callbackRun1, callbackTrace3, trace, finalStore.
  destruct callback as [result|thrown]; cbn [fst snd].
  - split; [split; [|split] | split; [|split]];
      try (intros result' [= <-]; split; [reflexivity | intros reason ->]);
      project; try reflexivity;
      destruct result as [[[]|err]|[]|]; reflexivity.
  - split; [split; [|split] | split; [|split]];
      try (intros result' [=]); project; reflexivity.
Qed.

Lemma empty_form_with_callback_is_not_submitted_witness :
  (processorCalls (trace (V1.handleFormSubmission cancelledEnv sampleStore)) = [] /\
   emptyFormCallbacks (trace (V1.handleFormSubmission cancelledEnv sampleStore)) = [tt] /\
   forall result,
     Returns (AnswerPromise (Rejected (JsOther "cancelled"))) = Returns result ->
     isSubmitting (finalStore (V1.handleFormSubmission cancelledEnv sampleStore)) = false /\
     (forall reason, result = AnswerPromise (Rejected reason) ->
        closes (trace (V1.handleFormSubmission cancelledEnv sampleStore)) = [])) /\
  (processorCalls (trace (V3.handleFormSubmission cancelledEnv sampleStore)) = [] /\
   emptyFormCallbacks (trace (V3.handleFormSubmission cancelledEnv sampleStore)) = [tt] /\
   isSubmitting (finalStore (V3.handleFormSubmission cancelledEnv sampleStore)) = false).
Proof.
  apply (empty_form_with_callback_is_not_submitted
           cancelledEnv sampleStore rootSample
           (Returns (AnswerPromise (Rejected (JsOther "cancelled")))));
    reflexivity.
Defined.

(** On the sample whose callback rejects: nothing is closed, nothing is
    sent, and [isSubmitting] is reset. *)
Example cancelled_empty_submission :
  effects (trace (V1.handleFormSubmission cancelledEnv sampleStore))
  = [CallHandleEmptyFormSubmission; SetIsSubmitting false] /\
  effects (trace (V3.handleFormSubmission cancelledEnv sampleStore))
  = [CallHandleEmptyFormSubmission; SetIsSubmitting false].
Proof. split; reflexivity. Qed.

(** ** Rejections *)

Lemma firstRejection_In {A} (ps : list (Promise A)) time reason :
  firstRejection ps = Some (time, reason) ->
  exists p, In p ps /\ outcome p = Rejected reason.
Proof.
  revert time reason. induction ps as [|p rest IH]; cbn; [discriminate|].
  intros time reason.
  destruct (outcome p) as [a|e] eqn:Hp.
  - intros H. destruct (IH _ _ H) as [q [Hin Hq]]. exists q. auto.
  - destruct (firstRejection rest) as [[time' e']|] eqn:Hrest.
    + destruct (settledAt p <=? time').
      * intros [= <- <-]. exists p. auto.
      * intros [= <- <-]. destruct (IH _ _ eq_refl) as [q [Hin Hq]]. exists q. auto.
    + intros [= <- <-]. exists p. auto.
Qed.

Lemma firstRejection_None {A} (ps : list (Promise A)) p reason :
  firstRejection ps = None -> In p ps -> outcome p <> Rejected reason.
Proof.
  induction ps as [|q rest IH]; cbn; [contradiction|].
  destruct (outcome q) as [a|e] eqn:Hq.
  - intros Hnone [<-|Hin]; [congruence|]. apply IH; assumption.
  - destruct (firstRejection rest) as [[time' e']|]; [|discriminate].
    destruct (settledAt q <=? time'); discriminate.
Qed.

Lemma no_calls_not_rejected e tr : processorCalls tr = [] -> ~ rejectedIn e tr.
Proof.
  intros Hnone (p & f & c & reason & Hin & _).
  assert (Hcall : In (p, f, c) (processorCalls tr)).
  { apply select_In. exists (CallProcessSubmission p f c). auto. }
  rewrite Hnone in Hcall. exact Hcall.
Qed.

(** ** Runs that reach the processors *)

Lemma select_inert {B} (pick : Event -> option B) tr :
  (forall ev, isInert ev = true -> pick ev = None) ->
  Forall (fun ev => isInert ev = true) tr -> select pick tr = [].
Proof.
  intros Hpick Hinert. induction Hinert as [|ev rest Hev _ IH]; [reflexivity|].
  unfold select. cbn [flat_map]. rewrite (Hpick ev Hev). exact IH.
Qed.

Lemma inert_map {A} (g : A -> Event) l :
  (forall x, isInert (g x) = true) -> Forall (fun ev => isInert ev = true) (map g l).
Proof.
  intros Hg. apply Forall_forall. intros ev Hin.
  apply in_map_iff in Hin. destruct Hin as [x [<- _]]. apply Hg.
Qed.

Lemma inert_checks e forms :
  Forall (fun ev => isInert ev = true) (validations e forms) /\
  Forall (fun ev => isInert ev = true) (emptyFormChecks e forms) /\
  Forall (fun ev => isInert ev = true) (emptyFieldsChecks e forms).
Proof. repeat split; apply inert_map; reflexivity. Qed.

(** What follows the settlement, seen through a projection that ignores
    inert events and calls of processors. *)
Lemma Block_select {B} (pick : Event -> option B) e forms tr :
  (forall ev, isInert ev = true -> pick ev = None) ->
  (forall p f c, pick (CallProcessSubmission p f c) = None) ->
  Block e forms tr ->
  select pick tr = select pick (finishTrace e (submissionPromises e forms)).
Proof.
  intros Hinert Hcall (before & between & Hbefore & Hbetween & ->).
  rewrite !select_app.
  rewrite (select_inert pick before Hinert Hbefore),
    (select_inert pick between Hinert Hbetween).
  rewrite select_submissionCalls by exact Hcall. reflexivity.
Qed.

Lemma Block_processorCalls e forms tr :
  Block e forms tr -> processorCalls tr = expectedCalls e forms.
Proof.
  intros (before & between & Hbefore & Hbetween & ->).
  unfold processorCalls. rewrite !select_app.
  rewrite (select_inert pickProcessorCall before),
    (select_inert pickProcessorCall between); try assumption;
    try (intros [] Hev; try discriminate Hev; reflexivity).
  fold processorCalls.
  rewrite processorCalls_submissionCalls, processorCalls_finishTrace.
  cbn. apply app_nil_r.
Qed.

Lemma Block_after_checks e forms checks :
  Forall (fun ev => isInert ev = true) checks ->
  Block e forms (checks ++ submitTrace e forms).
Proof.
  intros Hchecks. exists checks, []. repeat split; auto.
Qed.

Ltac inert :=
  repeat first
    [ apply Forall_app; split
    | apply (proj1 (inert_checks _ _))
    | apply (proj1 (proj2 (inert_checks _ _)))
    | apply (proj2 (proj2 (inert_checks _ _)))
    | apply Forall_nil
    | apply Forall_cons; [reflexivity|] ].

(** Either no processor is called or the run is the submission block. *)
Lemma V1_calls_or_block e s :
  processorCalls (trace (V1.handleFormSubmission e s)) = [] \/
  exists root, rootForm s = Some root /\
               Block e (formsOf s root) (trace (V1.handleFormSubmission e s)).
Proof.
  destruct (isSubmitting s) eqn:Hsub.
  2:{ left. rewrite (V1_idle e s Hsub). reflexivity. }
  destruct (rootForm s) as [root|] eqn:Hroot.
  2:{ left. apply (V1_rootless e s Hsub Hroot). }
  rewrite (V1_run e s root Hsub Hroot).
  destruct (forallb (validateForm e) (formsOf s root)).
  2:{ left. unfold trace. cbn [snd]. project. reflexivity. }
  destruct (forallb (validateEmptyForm e) (formsOf s root));
    destruct (handleEmptyFormSubmission e) as [[result|thrown]|];
    unfold callbackRun1, trace; cbn [snd];
    try (right; exists root; split; [reflexivity|];
         rewrite app_assoc; apply Block_after_checks; inert).
  - left. project. destruct result as [[[]|err]|[]|]; reflexivity.
  - left. project. reflexivity.
Qed.

Lemma V3_calls_or_block e s :
  processorCalls (trace (V3.handleFormSubmission e s)) = [] \/
  exists root, rootForm s = Some root /\
               Block e (formsOf s root) (trace (V3.handleFormSubmission e s)).
Proof.
  destruct (isSubmitting s) eqn:Hsub.
  2:{ left. rewrite (V3_idle e s Hsub). reflexivity. }
  destruct (rootForm s) as [root|] eqn:Hroot.
  2:{ left. apply (V3_rootless e s Hsub Hroot). }
  rewrite (V3_run e s root Hsub Hroot). unfold trace. cbn [snd].
  destruct (forallb (validateEmptyForm e) (formsOf s root));
    destruct (forallb (validateForm e) (formsOf s root));
    destruct (handleEmptyFormSubmission e) as [[result|thrown]|]; cbn [andb];
    try (right; exists root; split; [reflexivity|];
         rewrite app_assoc; apply Block_after_checks; inert);
    left; unfold callbackTrace3; project; try reflexivity.
  destruct result as [[[]|err]|[]|]; reflexivity.
Qed.

Lemma V2_effect_calls_or_block e s :
  processorCalls (trace (V2.useEffect e s)) = [] \/
  exists root, rootForm s = Some root /\
               Block e (formsOf s root) (trace (V2.useEffect e s)).
Proof.
  destruct (isSubmitting s) eqn:Hsub.
  2:{ left. rewrite (V2_effect_idle e s Hsub). reflexivity. }
  destruct (rootForm s) as [root|] eqn:Hroot.
  2:{ left. apply (V2_effect_rootless e s Hsub Hroot). }
  rewrite (V2_effect_run e s root Hsub Hroot). unfold trace. cbn [snd].
  destruct (forallb (validateForm e) (formsOf s root)).
  2:{ left. project. reflexivity. }
  destruct (existsb (validateEmptyFields e) (formsOf s root)).
  - left. project. reflexivity.
  - right. exists root. split; [reflexivity|].
    rewrite app_assoc. apply Block_after_checks. inert.
Qed.

Lemma V2_gesture_calls_or_block e g s :
  processorCalls (trace (V2.gesture e g s)) = [] \/
  exists root, rootForm s = Some root /\
               Block e (formsOf s root) (trace (V2.gesture e g s)).
Proof.
  destruct (isEmptyFormModalOpen s) eqn:Hopen.
  2:{ left. rewrite (V2_gesture_closed e g s Hopen). reflexivity. }
  destruct (rootForm s) as [root|] eqn:Hroot.
  2:{ left. apply (V2_gesture_rootless e g s Hopen Hroot). }
  rewrite (V2_gesture_open e g s root Hopen Hroot). unfold trace. cbn [snd].
  destruct g; [left; reflexivity | | left; reflexivity].
  right. exists root. split; [reflexivity|].
  exists [UserGesture PressConfirm], [SetIsEmptyFormModalOpen false].
  repeat split; inert.
Qed.

Lemma run_calls_or_block e s tr :
  RunOf e s tr ->
  processorCalls tr = [] \/
  exists root, rootForm s = Some root /\ Block e (formsOf s root) tr.
Proof.
  intros [-> | [-> | [[g ->] | ->]]].
  - apply V1_calls_or_block.
  - apply V2_effect_calls_or_block.
  - apply V2_gesture_calls_or_block.
  - apply V3_calls_or_block.
Qed.

Lemma run_reaches_block e s tr root :
  RunOf e s tr -> rootForm s = Some root -> processorCalls tr <> [] ->
  Block e (formsOf s root) tr.
Proof.
  intros Hrun Hroot Hcalls.
  destruct (run_calls_or_block e s tr Hrun) as [Hnone | [root' [Hroot' Hblock]]].
  - contradiction.
  - rewrite Hroot in Hroot'. injection Hroot' as <-. exact Hblock.
Qed.

Lemma Block_rejected e forms tr :
  Block e forms tr -> rejectedIn e tr ->
  exists p f c errorObject,
    In (CallProcessSubmission p f c) tr /\
    outcome (processSubmission e p f c) = Rejected errorObject /\
    finishTrace e (submissionPromises e forms)
    = AllSettled false :: failureTail e errorObject.
Proof.
  intros Hblock (p & f & c & reason & Hin & Hrej).
  assert (Hcall : In (p, f, c) (expectedCalls e forms)).
  { rewrite <- (Block_processorCalls e forms tr Hblock).
    apply select_In. exists (CallProcessSubmission p f c). auto. }
  unfold expectedCalls in Hcall. apply in_map_iff in Hcall.
  destruct Hcall as [f0 [[= <- <- <-] Hf0]].
  assert (Hpending : In (processSubmission e (processor f0) f0 (abortController e))
                        (submissionPromises e forms)).
  { unfold submissionPromises. apply in_map_iff. exists f0. auto. }
  destruct (firstRejection (submissionPromises e forms)) as [[time err]|] eqn:Hfirst.
  2:{ exfalso. exact (firstRejection_None _ _ reason Hfirst Hpending Hrej). }
  destruct (firstRejection_In _ _ _ Hfirst) as [q [Hq Hout]].
  unfold submissionPromises in Hq. apply in_map_iff in Hq.
  destruct Hq as [f1 [<- Hf1]].
  exists (processor f1), f1, (abortController e), err.
  split; [|split; [exact Hout|]].
  - destruct Hblock as (before & between & _ & _ & ->).
    rewrite !in_app_iff. right. left. unfold submissionCalls.
    apply in_map_iff. exists f1. auto.
  - unfold finishTrace, allFulfilled, Promise_all. rewrite Hfirst. reflexivity.
Qed.

Ltac block_pick pick Hblock :=
  rewrite ?(Block_select pick _ _ _
              ltac:(intros [] Hev; try discriminate Hev; reflexivity)
              ltac:(reflexivity) Hblock).

Ltac block_select Hblock :=
  unfold snackbars, toasts, forwardedToPostSubmission, forwardedToOnSubmit, closes,
    collapseToggles, isSubmittingUpdates, aborts, emptyFormCallbacks;
  block_pick pickSnackbar Hblock; block_pick pickToast Hblock;
  block_pick pickPostSubmission Hblock; block_pick pickOnSubmit Hblock;
  block_pick pickClose Hblock; block_pick pickCollapseToggle Hblock;
  block_pick pickSetIsSubmitting Hblock; block_pick pickAbort Hblock;
  block_pick pickEmptyFormCallback Hblock.

Lemma Block_caught e forms tr :
  Block e forms tr -> rejectedIn e tr -> CaughtOnce e tr.
Proof.
  intros Hblock Hrej.
  destruct (Block_rejected e forms tr Hblock Hrej)
    as (p & f & c & err & Hin & Hout & Hfinish).
  exists p, f, c, err. split; [exact Hin|]. split; [exact Hout|].
  block_select Hblock. rewrite Hfinish. destruct err; reflexivity.
Qed.

Lemma run_caught e s tr : RunOf e s tr -> rejectedIn e tr -> CaughtOnce e tr.
Proof.
  intros Hrun Hrej.
  destruct (run_calls_or_block e s tr Hrun) as [Hnone | [root [_ Hblock]]].
  - exfalso. exact (no_calls_not_rejected e tr Hnone Hrej).
  - exact (Block_caught e _ tr Hblock Hrej).
Qed.

(** C3. In a run in which the promise of some called processor rejects, the
    rejection is caught once: exactly one toast is shown; for an [Error] it is
    the toast of kind 'error', critical, with the message of the error as
    description, and any other value goes to [showToast] as it is.  This holds
    of the three variants and of both ways variant 2 reaches the processors
    (the effect and the Confirm button). *)
Theorem processor_rejection_is_caught_once e s :
  (rejectedIn e (trace (V1.handleFormSubmission e s)) ->
   CaughtOnce e (trace (V1.handleFormSubmission e s))) /\
  (rejectedIn e (trace (V2.useEffect e s)) ->
   CaughtOnce e (trace (V2.useEffect e s))) /\
  (forall forms, rejectedIn e (trace (V2.handleFormSubmission e forms s)) ->
   CaughtOnce e (trace (V2.handleFormSubmission e forms s))) /\
  (forall g, rejectedIn e (trace (V2.gesture e g s)) ->
   CaughtOnce e (trace (V2.gesture e g s))) /\
  (rejectedIn e (trace (V3.handleFormSubmission e s)) ->
   CaughtOnce e (trace (V3.handleFormSubmission e s))).
Proof.
  split; [|split; [|split; [|split]]].
  - apply (run_caught e s). left. reflexivity.
  - apply (run_caught e s). right. left. reflexivity.
  - intros forms. unfold V2.handleFormSubmission. rewrite submitForms_run.
    unfold trace. cbn [snd].
    apply (Block_caught e forms). apply (Block_after_checks e forms []). constructor.
  - intros g. apply (run_caught e s). right. right. left. exists g. reflexivity.
  - apply (run_caught e s). right. right. right. reflexivity.
Qed.

Lemma processor_rejection_is_caught_once_witness :
  CaughtOnce rejectingEnv (trace (V1.handleFormSubmission rejectingEnv sampleStore)) /\
  CaughtOnce rejectingEnv (trace (V2.useEffect rejectingEnv sampleStore)) /\
  CaughtOnce rejectingEnv (trace (V3.handleFormSubmission rejectingEnv sampleStore)).
Proof.
  assert (Hcall : forall tr,
             In (CallProcessSubmission 8 subSample 5) tr -> rejectedIn rejectingEnv tr).
  { intros tr Hin. exists 8, subSample, 5, (JsError "save failed").
    split; [exact Hin | reflexivity]. }
  split; [|split].
  - apply (proj1 (processor_rejection_is_caught_once rejectingEnv sampleStore)).
    apply Hcall. vm_compute. auto 10.
  - apply (proj1 (proj2 (processor_rejection_is_caught_once rejectingEnv sampleStore))).
    apply Hcall. vm_compute. auto 10.
  - apply (proj2 (proj2 (proj2 (proj2
             (processor_rejection_is_caught_once rejectingEnv sampleStore))))).
    apply Hcall. vm_compute. auto 10.
Defined.

(** The earlier rejection is the one shown, as a critical error toast. *)
Example rejection_toast :
  toasts (trace (V2.useEffect rejectingEnv sampleStore))
  = [JsToast (mkToast "Error processing form submission" "error" "save failed" true)].
Proof. reflexivity. Qed.

(** ** The cancellation token *)

Lemma aborts_finishTrace e pending : aborts (finishTrace e pending) = [].
Proof.
  unfold finishTrace, successTail, closingTail, failureTail.
  change (AllSettled ?b :: ?l) with ([AllSettled b] ++ l).
  unfold aborts. rewrite select_app. cbn [select flat_map pickAbort app].
  destruct (Promise_all pending) as [results|err]; [|reflexivity].
  destruct (postSubmissionHandlers e) as [handlers|]; cbn.
  - destruct (processPostSubmissionActions e handlers results);
      [destruct (onSubmit e)|]; reflexivity.
  - destruct (onSubmit e); reflexivity.
Qed.

Lemma aborts_submitTrace e forms : aborts (submitTrace e forms) = [].
Proof.
  unfold submitTrace, aborts. rewrite select_app.
  rewrite select_submissionCalls by reflexivity.
  apply aborts_finishTrace.
Qed.

(** Every call of a submission block carries the token of the render. *)
Lemma token_is_shared e forms p f c :
  In (p, f, c) (processorCalls (submitTrace e forms)) -> c = abortController e.
Proof.
  rewrite processorCalls_submitTrace. unfold expectedCalls.
  intros Hin. apply in_map_iff in Hin. destruct Hin as [f0 [[= <- <- <-] _]].
  reflexivity.
Qed.

(** C6, at the failing input.  On the sample submission each variant hands
    the one token of the render (5) to both processors; at teardown variants
    1 and 3 abort it, variant 2 aborts nothing. *)
Theorem variant2_never_aborts_the_token :
  processorCalls (trace (mountThenUnmount (V2.useEffect sampleEnv) sampleStore))
  = [(7, rootSample, 5); (8, subSample, 5)] /\
  aborts (trace (mountThenUnmount (V2.useEffect sampleEnv) sampleStore)) = [] /\
  processorCalls (trace (mountThenUnmount (V1.useEffect sampleEnv) sampleStore))
  = [(7, rootSample, 5); (8, subSample, 5)] /\
  aborts (trace (mountThenUnmount (V1.useEffect sampleEnv) sampleStore)) = [5] /\
  aborts (trace (mountThenUnmount (V3.useEffect sampleEnv) sampleStore)) = [5].
Proof. repeat split. Qed.


(** ** What the processors receive and what is forwarded *)

Section Collected.
Context {A : Type} (g : A -> Promise Result).

Lemma all_fulfilled_collected (l : list A) :
  firstRejection (map g l) = None ->
  Forall2 (fun x r => outcome (g x) = Fulfilled r) l (fulfilledValues (map g l)).
Proof.
  induction l as [|x rest IH]; cbn; [constructor|].
  destruct (outcome (g x)) as [a|err] eqn:Hx.
  - intros Hnone. constructor; [exact Hx | exact (IH Hnone)].
  - destruct (firstRejection (map g rest)) as [[time e']|]; [|discriminate].
    destruct (settledAt (g x) <=? time); discriminate.
Qed.

Lemma collected_all_fulfilled (l : list A) (results : list Result) :
  Forall2 (fun x r => outcome (g x) = Fulfilled r) l results ->
  firstRejection (map g l) = None /\ fulfilledValues (map g l) = results.
Proof.
  induction 1 as [|x r rest results' Hx _ [IHnone IHvalues]]; cbn; [auto|].
  rewrite Hx, IHnone, IHvalues. auto.
Qed.
End Collected.

Lemma Promise_all_collected e forms results :
  Promise_all (submissionPromises e forms) = Fulfilled results <->
  collected e forms results.
Proof.
  unfold Promise_all, collected, submissionPromises. split.
  - destruct (firstRejection _) as [[time err]|] eqn:Hfirst; [discriminate|].
    intros [= <-]. apply all_fulfilled_collected. exact Hfirst.
  - intros Hall.
    destruct (collected_all_fulfilled
                (fun f => processSubmission e (processor f) f (abortController e))
                forms results Hall) as [Hnone Hvalues].
    rewrite Hnone, Hvalues. reflexivity.
Qed.

Lemma forwardedToPostSubmission_finishTrace e pending :
  forwardedToPostSubmission (finishTrace e pending)
  = match Promise_all pending, postSubmissionHandlers e with
    | Fulfilled results, Some _ => [results]
    | _, _ => []
    end.
Proof.
  unfold finishTrace, successTail, closingTail, failureTail.
  destruct (Promise_all pending) as [results|err]; [|reflexivity].
  destruct (postSubmissionHandlers e) as [handlers|]; cbn.
  - destruct (processPostSubmissionActions e handlers results);
      [destruct (onSubmit e)|]; reflexivity.
  - destruct (onSubmit e); reflexivity.
Qed.

Lemma forwardedToOnSubmit_finishTrace e pending :
  forwardedToOnSubmit (finishTrace e pending)
  = match Promise_all pending with
    | Fulfilled results =>
        if onSubmit e then
          match postSubmissionHandlers e with
          | Some handlers =>
              match processPostSubmissionActions e handlers results with
              | Fulfilled _ => [results]
              | Rejected _ => []
              end
          | None => [results]
          end
        else []
    | Rejected _ => []
    end.
Proof.
  unfold finishTrace, successTail, closingTail, failureTail.
  destruct (Promise_all pending) as [results|err]; [|reflexivity].
  destruct (postSubmissionHandlers e) as [handlers|]; cbn.
  - destruct (processPostSubmissionActions e handlers results);
      [destruct (onSubmit e)|destruct (onSubmit e)]; reflexivity.
  - destruct (onSubmit e); reflexivity.
Qed.


(** ** The token *)

(** X4. Whatever the run and whatever the variant, every [processSubmission]
    call receives the [AbortController] of the render whose closure made the
    call. *)
Theorem every_call_shares_the_token e s tr :
  RunOf e s tr -> SharesToken (abortController e) tr.
Proof.
  intros Hrun. unfold SharesToken.
  destruct (run_calls_or_block e s tr Hrun) as [-> | [root [_ Hblock]]].
  - constructor.
  - rewrite (Block_processorCalls e _ tr Hblock). unfold expectedCalls.
    apply Forall_forall. intros call Hin. apply in_map_iff in Hin.
    destruct Hin as [f [<- _]]. reflexivity.
Qed.

Lemma every_call_shares_the_token_witness :
  SharesToken 5 (trace (V2.gesture sampleEnv PressConfirm
                          (withIsEmptyFormModalOpen true sampleStore))).
Proof.
  apply (every_call_shares_the_token
           sampleEnv (withIsEmptyFormModalOpen true sampleStore)).
  right. right. left. exists PressConfirm. reflexivity.
Defined.

(** ** Outcomes of the submission block *)

(** X5. When the promise of some called processor rejects, the form is left
    open: every form had been sent to its processor all the same, no success
    snackbar is shown, the post-submission actions do not run, neither
    [onSubmit] nor [handleClose] nor [hideFormCollapseToggle] is called, and
    [isSubmitting] is reset once. *)
Theorem rejected_submission_leaves_the_form_open e s tr :
  RunOf e s tr -> rejectedIn e tr ->
  LeftOpen tr /\
  isSubmittingUpdates tr = [false] /\
  exists root, rootForm s = Some root /\ processorCalls tr = expectedCalls e (formsOf s root).
Proof.
  intros Hrun Hrej.
  destruct (run_calls_or_block e s tr Hrun) as [Hnone | [root [Hroot Hblock]]].
  - exfalso. exact (no_calls_not_rejected e tr Hnone Hrej).
  - destruct (Block_rejected e _ tr Hblock Hrej) as (_ & _ & _ & err & _ & _ & Hfinish).
    unfold LeftOpen. block_select Hblock. rewrite Hfinish.
    repeat split.
    exists root. split; [exact Hroot | exact (Block_processorCalls e _ tr Hblock)].
Qed.

Lemma rejected_submission_leaves_the_form_open_witness :
  LeftOpen (trace (V3.handleFormSubmission rejectingEnv sampleStore)) /\
  isSubmittingUpdates (trace (V3.handleFormSubmission rejectingEnv sampleStore)) = [false] /\
  exists root,
    rootForm sampleStore = Some root /\
    processorCalls (trace (V3.handleFormSubmission rejectingEnv sampleStore))
    = expectedCalls rejectingEnv (formsOf sampleStore root).
Proof.
  apply (rejected_submission_leaves_the_form_open rejectingEnv sampleStore).
  - right. right. right. reflexivity.
  - exists 8, subSample, 5, (JsError "save failed").
    split; [vm_compute; auto 10 | reflexivity].
Defined.

Lemma finishTrace_collected e forms results :
  collected e forms results ->
  finishTrace e (submissionPromises e forms) = AllSettled true :: successTail e results.
Proof.
  intros Hall. apply Promise_all_collected in Hall.
  unfold finishTrace, allFulfilled. rewrite Hall. reflexivity.
Qed.

(** X6. When a run reaches the processors, all of them resolve and the
    post-submission actions do not fail, the user gets one success snackbar
    ('Record updated' in edit mode, 'Form submitted' otherwise) and no toast,
    [isSubmitting] is reset once, the collapse toggle is hidden, and then
    either [onSubmit] receives the results or, when no [onSubmit] is given,
    [handleClose] is called: never both.  The run ends with these two calls,
    in this order: [hideFormCollapseToggle] first, [onSubmit] or
    [handleClose] last; the settlement of the promises and the snackbar come
    before them. *)
Theorem successful_submission_notifies_and_closes e s tr root results :
  RunOf e s tr -> rootForm s = Some root -> processorCalls tr <> [] ->
  collected e (formsOf s root) results ->
  (forall handlers,
     postSubmissionHandlers e = Some handlers ->
     processPostSubmissionActions e handlers results = Fulfilled tt) ->
  Succeeded e results tr /\
  exists before between,
    tr = before ++ AllSettled true :: SetIsSubmitting false
                :: ShowSnackbar (successSnackbar e) :: between
                ++ [HideFormCollapseToggle;
                    if onSubmit e then OnSubmit results else HandleClose] /\
    collapseToggles before = [] /\ forwardedToOnSubmit before = [] /\
    closes before = [] /\
    collapseToggles between = [] /\ forwardedToOnSubmit between = [] /\
    closes between = [].
Proof.
  intros Hrun Hroot Hcalls Hall Hactions.
  pose proof (run_reaches_block e s tr root Hrun Hroot Hcalls) as Hblock.
  split.
  - unfold Succeeded. block_select Hblock.
    rewrite (finishTrace_collected e _ results Hall).
    unfold successTail, closingTail, successSnackbar.
    destruct (postSubmissionHandlers e) as [handlers|].
    + rewrite (Hactions handlers eq_refl). destruct (onSubmit e); repeat split.
    + destruct (onSubmit e); repeat split.
  - destruct Hblock as (before & between & Hbefore & Hbetween & ->).
    rewrite (finishTrace_collected e _ results Hall).
    unfold successTail, closingTail.
    exists (before ++ submissionCalls e (formsOf s root) ++ between).
    assert (Hquiet :
              collapseToggles (before ++ submissionCalls e (formsOf s root) ++ between) = []
              /\ forwardedToOnSubmit (before ++ submissionCalls e (formsOf s root) ++ between) = []
              /\ closes (before ++ submissionCalls e (formsOf s root) ++ between) = []).
    { unfold collapseToggles, forwardedToOnSubmit, closes.
      rewrite !select_app, !select_submissionCalls by reflexivity.
      rewrite !(select_inert _ before), !(select_inert _ between); auto;
        intros [] Hev; try discriminate Hev; reflexivity. }
    destruct Hquiet as (Hq1 & Hq2 & Hq3).
    destruct (postSubmissionHandlers e) as [handlers|] eqn:Hhandlers.
    + rewrite (Hactions handlers eq_refl).
      exists [CallProcessPostSubmissionActions handlers results (patient e)
                (sessionMode e)].
      rewrite <- !app_assoc. cbn [app]. repeat split; assumption.
    + exists []. rewrite <- !app_assoc. cbn [app]. repeat split; assumption.
Qed.

Lemma successful_submission_notifies_and_closes_witness :
  Succeeded sampleEnv [107; 108] (trace (V1.handleFormSubmission sampleEnv sampleStore)) /\
  exists before between,
    trace (V1.handleFormSubmission sampleEnv sampleStore)
    = before ++ AllSettled true :: SetIsSubmitting false
             :: ShowSnackbar (successSnackbar sampleEnv) :: between
             ++ [HideFormCollapseToggle;
                 if onSubmit sampleEnv then OnSubmit [107; 108] else HandleClose] /\
    collapseToggles before = [] /\ forwardedToOnSubmit before = [] /\
    closes before = [] /\
    collapseToggles between = [] /\ forwardedToOnSubmit between = [] /\
    closes between = [].
Proof.
  apply (successful_submission_notifies_and_closes
           sampleEnv sampleStore _ rootSample).
  - left. reflexivity.
  - reflexivity.
  - vm_compute. discriminate.
  - repeat constructor.
  - intros handlers Hsome. reflexivity.
Defined.

(** X7. When all processors resolve and the post-submission actions reject,
    the success snackbar has been shown already and the rejection is then
    shown as a toast (the critical error toast for an [Error], the value
    itself otherwise); the form stays open: no [hideFormCollapseToggle], no
    [onSubmit], no [handleClose]; [setIsSubmitting(false)] is called twice. *)
Theorem failed_post_submission_actions_keep_the_form_open
        e s tr root results handlers reason :
  RunOf e s tr -> rootForm s = Some root -> processorCalls tr <> [] ->
  collected e (formsOf s root) results ->
  postSubmissionHandlers e = Some handlers ->
  processPostSubmissionActions e handlers results = Rejected reason ->
  FailedAfterSuccess e reason tr /\ forwardedToPostSubmission tr = [results].
Proof.
  intros Hrun Hroot Hcalls Hall Hhandlers Hactions.
  pose proof (run_reaches_block e s tr root Hrun Hroot Hcalls) as Hblock.
  unfold FailedAfterSuccess. block_select Hblock.
  rewrite (finishTrace_collected e _ results Hall).
  unfold successTail, failureTail, successSnackbar.
  rewrite Hhandlers, Hactions.
  destruct reason; repeat split.
Qed.

Lemma failed_post_submission_actions_keep_the_form_open_witness :
  FailedAfterSuccess failingActionsEnv (JsError "link failed")
    (trace (V2.useEffect failingActionsEnv sampleStore)) /\
  forwardedToPostSubmission (trace (V2.useEffect failingActionsEnv sampleStore))
  = [[107; 108]].
Proof.
  apply (failed_post_submission_actions_keep_the_form_open
           failingActionsEnv sampleStore _ rootSample [107; 108] ["linkHandler"]).
  - right. left. reflexivity.
  - reflexivity.
  - vm_compute. discriminate.
  - repeat constructor.
  - reflexivity.
  - reflexivity.
Defined.

(** In edit mode, with failing post-submission actions: 'Record updated'
    and the error toast are both shown. *)
Example success_then_error :
  snackbars (trace (V2.useEffect failingActionsEnv sampleStore))
  = [mkSnackbar "Record updated" "The patient encounter was updated" "success" true] /\
  toasts (trace (V2.useEffect failingActionsEnv sampleStore))
  = [JsToast (mkToast "Error processing form submission" "error" "link failed" true)].
Proof. split; reflexivity. Qed.

(** ** Teardown in variants 1 and 3 *)

Lemma aborts_of_run e s tr : RunOf e s tr -> aborts tr = [].
Proof.
  intros Hrun.
  destruct (run_calls_or_block e s tr Hrun) as [_ | [root [_ Hblock]]].
  2:{ block_select Hblock. apply aborts_finishTrace. }
  (* no processor was called: the run is one of the short paths *)
  destruct Hrun as [-> | [-> | [[g ->] | ->]]].
  - destruct (isSubmitting s) eqn:Hsub; [|rewrite (V1_idle e s Hsub); reflexivity].
    destruct (rootForm s) as [root|] eqn:Hroot;
      [|apply (V1_rootless e s Hsub Hroot)].
    rewrite (V1_run e s root Hsub Hroot).
    destruct (forallb (validateForm e) (formsOf s root));
      [|unfold trace; cbn [snd]; project; reflexivity].
    destruct (forallb (validateEmptyForm e) (formsOf s root));
      destruct (handleEmptyFormSubmission e) as [[result|thrown]|];
      unfold callbackRun1, trace; cbn [snd]; project;
      try apply aborts_submitTrace; try reflexivity.
    destruct result as [[[]|err]|[]|]; reflexivity.
  - destruct (isSubmitting s) eqn:Hsub; [|rewrite (V2_effect_idle e s Hsub); reflexivity].
    destruct (rootForm s) as [root|] eqn:Hroot;
      [|apply (V2_effect_rootless e s Hsub Hroot)].
    rewrite (V2_effect_run e s root Hsub Hroot). unfold trace. cbn [snd]. project.
    destruct (forallb (validateForm e) (formsOf s root)); [|reflexivity].
    destruct (existsb (validateEmptyFields e) (formsOf s root)); [reflexivity|].
    apply aborts_submitTrace.
  - destruct (isEmptyFormModalOpen s) eqn:Hopen;
      [|rewrite (V2_gesture_closed e g s Hopen); reflexivity].
    destruct (rootForm s) as [root|] eqn:Hroot;
      [|apply (V2_gesture_rootless e g s Hopen Hroot)].
    rewrite (V2_gesture_open e g s root Hopen Hroot). unfold trace. cbn [snd].
    destruct g; try reflexivity.
    unfold confirmTrace.
    change (UserGesture PressConfirm :: ?l) with ([UserGesture PressConfirm] ++ l).
    change (SetIsEmptyFormModalOpen false :: ?l)
      with ([SetIsEmptyFormModalOpen false] ++ l).
    project. apply aborts_finishTrace.
  - destruct (isSubmitting s) eqn:Hsub; [|rewrite (V3_idle e s Hsub); reflexivity].
    destruct (rootForm s) as [root|] eqn:Hroot;
      [|apply (V3_rootless e s Hsub Hroot)].
    rewrite (V3_run e s root Hsub Hroot). unfold trace. cbn [snd]. project.
    destruct (forallb (validateEmptyForm e) (formsOf s root));
      destruct (forallb (validateForm e) (formsOf s root));
      destruct (handleEmptyFormSubmission e) as [[result|thrown]|]; cbn [andb];
      unfold callbackTrace3;
      try apply aborts_submitTrace; try reflexivity.
    destruct result as [[[]|err]|[]|]; reflexivity.
Qed.


(** X8. In variants 1 and 3 the effect itself aborts nothing, and the
    cleanup it returns aborts the [AbortController] of its render, once:
    whether a submission ran or not, whichever path it took, and even when
    the async function threw. *)
Theorem cleanup_aborts_the_token_of_the_render e s :
  aborts (trace (V1.useEffect e s)) = [] /\
  aborts (trace (mountThenUnmount (V1.useEffect e) s)) = [abortController e] /\
  aborts (trace (V3.useEffect e s)) = [] /\
  aborts (trace (mountThenUnmount (V3.useEffect e) s)) = [abortController e].
Proof.
  assert (H1 : aborts (trace (V1.handleFormSubmission e s)) = [])
    by (apply (aborts_of_run e s); left; reflexivity).
  assert (H3 : aborts (trace (V3.handleFormSubmission e s)) = [])
    by (apply (aborts_of_run e s); right; right; right; reflexivity).
  unfold mountThenUnmount, V1.useEffect, V3.useEffect, floating, tryCatch, bind,
    runCleanup, ret, abort, emit.
  destruct (V1.handleFormSubmission e s) as [[[[]|thrown1] s1] tr1];
    destruct (V3.handleFormSubmission e s) as [[[[]|thrown3] s3] tr3];
    unfold trace in *; cbn [snd] in *; unfold aborts in *;
    rewrite ?select_app, ?H1, ?H3; repeat split.
Qed.


(** ** When the empty-form callback and the modal come into play *)

Lemma emptyFormCallbacks_submitTrace e forms :
  emptyFormCallbacks (submitTrace e forms) = [].
Proof.
  unfold submitTrace, finishTrace, successTail, closingTail, failureTail.
  project.
  destruct (Promise_all _) as [results|err]; [|reflexivity].
  destruct (postSubmissionHandlers e) as [handlers|]; cbn.
  - destruct (processPostSubmissionActions e handlers results);
      [destruct (onSubmit e)|]; reflexivity.
  - destruct (onSubmit e); reflexivity.
Qed.

Lemma modalUpdates_submitTrace e forms : modalUpdates (submitTrace e forms) = [].
Proof.
  unfold submitTrace, finishTrace, successTail, closingTail, failureTail, modalUpdates.
  project.
  destruct (Promise_all _) as [results|err]; [|reflexivity].
  destruct (postSubmissionHandlers e) as [handlers|]; cbn.
  - destruct (processPostSubmissionActions e handlers results);
      [destruct (onSubmit e)|]; reflexivity.
  - destruct (onSubmit e); reflexivity.
Qed.

(** X9. In variants 1 and 3 the empty-form callback is called, once, exactly
    when every form is valid, every form is empty and the callback is given;
    in particular a valid submission in which some form has data goes to the
    processors without the callback being asked.  Variant 2 never calls
    it. *)
Theorem empty_form_callback_is_called_only_for_empty_forms e s root :
  isSubmitting s = true -> rootForm s = Some root ->
  let expected :=
    if (forallb (validateForm e) (formsOf s root)
        && forallb (validateEmptyForm e) (formsOf s root))%bool
    then match handleEmptyFormSubmission e with Some _ => [tt] | None => [] end
    else [] in
  emptyFormCallbacks (trace (V1.handleFormSubmission e s)) = expected /\
  emptyFormCallbacks (trace (V3.handleFormSubmission e s)) = expected /\
  emptyFormCallbacks (trace (V2.useEffect e s)) = [] /\
  (forall g, emptyFormCallbacks (trace (V2.gesture e g s)) = []).
Proof.
  intros Hsub Hroot. cbn zeta.
  rewrite (V1_run e s root Hsub Hroot), (V3_run e s root Hsub Hroot),
    (V2_effect_run e s root Hsub Hroot).
  unfold trace. cbn [snd].
  split; [|split; [|split]].
  - destruct (forallb (validateForm e) (formsOf s root));
      [|cbn [snd]; project; reflexivity].
    destruct (forallb (validateEmptyForm e) (formsOf s root));
      destruct (handleEmptyFormSubmission e) as [[result|thrown]|]; cbn [andb];
      unfold callbackRun1; cbn [snd]; project;
      try apply emptyFormCallbacks_submitTrace; try reflexivity.
    destruct result as [[[]|err]|[]|]; reflexivity.
  - project.
    destruct (forallb (validateForm e) (formsOf s root));
      destruct (forallb (validateEmptyForm e) (formsOf s root));
      destruct (handleEmptyFormSubmission e) as [[result|thrown]|]; cbn [andb];
      unfold callbackTrace3;
      try apply emptyFormCallbacks_submitTrace; try reflexivity;
      destruct result as [[[]|err]|[]|]; reflexivity.
  - project. destruct (forallb (validateForm e) (formsOf s root)); [|reflexivity].
    destruct (existsb (validateEmptyFields e) (formsOf s root)); [reflexivity|].
    apply emptyFormCallbacks_submitTrace.
  - intros g. destruct (isEmptyFormModalOpen s) eqn:Hopen;
      [|rewrite (V2_gesture_closed e g s Hopen); reflexivity].
    rewrite (V2_gesture_open e g s root Hopen Hroot). cbn [snd].
    destruct g; try reflexivity.
    pose proof (V2_gesture_calls_or_block e PressConfirm s) as Hshape.
    rewrite (V2_gesture_open e PressConfirm s root Hopen Hroot) in Hshape.
    unfold trace in Hshape. cbn [snd] in Hshape.
    destruct Hshape as [Hnone | [root' [_ Hblock]]].
    + exfalso. unfold confirmTrace, formsOf in Hnone. cbn in Hnone. discriminate.
    + block_select Hblock.
      pose proof (emptyFormCallbacks_submitTrace e (formsOf s root')) as Hquiet.
      unfold submitTrace, emptyFormCallbacks in Hquiet.
      rewrite select_app, select_submissionCalls in Hquiet by reflexivity.
      exact Hquiet.
Qed.

Lemma empty_form_callback_is_called_only_for_empty_forms_witness :
  emptyFormCallbacks (trace (V1.handleFormSubmission partlyFilledEnv sampleStore)) = [] /\
  emptyFormCallbacks (trace (V3.handleFormSubmission partlyFilledEnv sampleStore)) = [] /\
  emptyFormCallbacks (trace (V2.useEffect partlyFilledEnv sampleStore)) = [] /\
  (forall g, emptyFormCallbacks (trace (V2.gesture partlyFilledEnv g sampleStore)) = []).
Proof.
  exact (empty_form_callback_is_called_only_for_empty_forms
           partlyFilledEnv sampleStore rootSample eq_refl eq_refl).
Defined.

(** X10. The effect of variant 2 does one of three things and no two of
    them: it opens the confirmation modal when every form is valid and some
    form context is empty (one empty sub-form is enough, whatever the others
    hold); it sends every form to its processor when every form is valid and
    none is empty; otherwise it only resets [isSubmitting]. *)
Theorem effect_of_variant2_opens_submits_or_aborts e s root :
  isSubmitting s = true -> rootForm s = Some root ->
  let valid := forallb (validateForm e) (formsOf s root) in
  let someEmpty := existsb (validateEmptyFields e) (formsOf s root) in
  modalUpdates (trace (V2.useEffect e s))
  = (if (valid && someEmpty)%bool then [true] else []) /\
  processorCalls (trace (V2.useEffect e s))
  = (if (valid && negb someEmpty)%bool then expectedCalls e (formsOf s root) else []) /\
  (valid = false ->
   effects (trace (V2.useEffect e s)) = [SetIsSubmitting false]).
Proof.
  intros Hsub Hroot. cbn zeta.
  rewrite (V2_effect_run e s root Hsub Hroot). unfold trace. cbn [snd].
  destruct (forallb (validateForm e) (formsOf s root));
    destruct (existsb (validateEmptyFields e) (formsOf s root)); cbn [andb negb];
    (split; [|split]); try discriminate; try (intros _);
    unfold modalUpdates; project; fold modalUpdates; fold processorCalls;
    rewrite ?modalUpdates_submitTrace, ?processorCalls_submitTrace; reflexivity.
Qed.

Lemma effect_of_variant2_opens_submits_or_aborts_witness :
  modalUpdates (trace (V2.useEffect partlyFilledEnv sampleStore)) = [true] /\
  processorCalls (trace (V2.useEffect partlyFilledEnv sampleStore)) = [].
Proof.
  pose (claim := effect_of_variant2_opens_submits_or_aborts
                   partlyFilledEnv sampleStore rootSample eq_refl eq_refl).
  split; [exact (proj1 claim) | exact (proj1 (proj2 claim))].
Defined.

(** X11. What the empty-form callback hands back decides what happens to
    the form.  Variant 1 calls [handleClose] for a promise that resolves,
    for [true] and for any value that is neither a promise nor a boolean,
    and does not call it for a promise that rejects or for [false].  Variant
    3 calls [handleDiscardForm], never [handleClose], unless the promise
    rejects. *)
Theorem answer_of_the_callback_decides_closing e s root result :
  isSubmitting s = true -> rootForm s = Some root ->
  forallb (validateForm e) (formsOf s root) = true ->
  forallb (validateEmptyForm e) (formsOf s root) = true ->
  handleEmptyFormSubmission e = Some (Returns result) ->
  closes (trace (V1.handleFormSubmission e s))
  = match result with
    | AnswerPromise (Fulfilled _) => [tt]
    | AnswerPromise (Rejected _) => []
    | AnswerBoolean b => if b then [tt] else []
    | AnswerOther => [tt]
    end /\
  discards (trace (V1.handleFormSubmission e s)) = [] /\
  discards (trace (V3.handleFormSubmission e s))
  = match result with
    | AnswerPromise (Rejected _) => []
    | _ => [tt]
    end /\
  closes (trace (V3.handleFormSubmission e s)) = [].
Proof.
  intros Hsub Hroot Hvalid Hempty Hsome.
  rewrite (V1_run e s root Hsub Hroot), (V3_run e s root Hsub Hroot).
  rewrite Hvalid, Hempty, Hsome. cbn [andb].
  unfold callbackRun1, callbackTrace3, trace. cbn [snd].
  unfold discards. project. fold discards.
  destruct result as [[[]|err]|[]|]; repeat split.
Qed.

Lemma answer_of_the_callback_decides_closing_witness :
  closes (trace (V1.handleFormSubmission (emptyFormEnv (Some (AnswerBoolean false)))
                   sampleStore)) = [] /\
  discards (trace (V1.handleFormSubmission (emptyFormEnv (Some (AnswerBoolean false)))
                     sampleStore)) = [] /\
  discards (trace (V3.handleFormSubmission (emptyFormEnv (Some (AnswerBoolean false)))
                     sampleStore)) = [tt] /\
  closes (trace (V3.handleFormSubmission (emptyFormEnv (Some (AnswerBoolean false)))
                   sampleStore)) = [].
Proof.
  exact (answer_of_the_callback_decides_closing
           (emptyFormEnv (Some (AnswerBoolean false))) sampleStore rootSample
           (AnswerBoolean false) eq_refl eq_refl eq_refl eq_refl eq_refl).
Defined.

(** ** The registry through a run *)

(** X13. No handler unregisters a form: after the async function of
    variants 1 and 3, the effect of variant 2 and any gesture on its modal,
    whatever the path, the root form and the sub-forms are the ones there
    were, so the next submission sends the same forms again; variants 1 and
    3 leave the modal state alone as well. *)
Theorem runs_keep_the_registry e s :
  KeepsRefs s (V1.handleFormSubmission e s) /\
  KeepsRefs s (V2.useEffect e s) /\
  (forall g, KeepsRefs s (V2.gesture e g s)) /\
  KeepsRefs s (V3.handleFormSubmission e s) /\
  isEmptyFormModalOpen (finalStore (V1.handleFormSubmission e s)) = isEmptyFormModalOpen s /\
  isEmptyFormModalOpen (finalStore (V3.handleFormSubmission e s)) = isEmptyFormModalOpen s.
Proof.
  unfold KeepsRefs.
  assert (Hgesture : forall g,
             rootForm (finalStore (V2.gesture e g s)) = rootForm s /\
             subForms (finalStore (V2.gesture e g s)) = subForms s).
  { intros g. destruct (isEmptyFormModalOpen s) eqn:Hopen;
      [|rewrite (V2_gesture_closed e g s Hopen); split; reflexivity].
    destruct (rootForm s) as [root|] eqn:Hroot.
    - rewrite (V2_gesture_open e g s root Hopen Hroot). cbn. auto.
    - destruct (V2_gesture_rootless e g s Hopen Hroot) as (_ & _ & Hr & Hf & _).
      split; [congruence | assumption]. }
  destruct (isSubmitting s) eqn:Hsub.
  2:{ rewrite (V1_idle e s Hsub), (V3_idle e s Hsub), (V2_effect_idle e s Hsub).
      repeat split; try apply Hgesture; cbn; auto. }
  destruct (rootForm s) as [root|] eqn:Hroot.
  2:{ destruct (V1_rootless e s Hsub Hroot) as [(_ & _ & Hr1 & Hf1 & _) Hm1].
      destruct (V3_rootless e s Hsub Hroot) as [(_ & _ & Hr3 & Hf3 & _) Hm3].
      destruct (V2_effect_rootless e s Hsub Hroot) as (_ & _ & Hr2 & Hf2 & _).
      repeat split; try apply Hgesture; congruence. }
  rewrite (V1_run e s root Hsub Hroot), (V3_run e s root Hsub Hroot),
    (V2_effect_run e s root Hsub Hroot).
  unfold storeAfterEffect2, callbackRun1.
  destruct (forallb (validateForm e) (formsOf s root));
    destruct (existsb (validateEmptyFields e) (formsOf s root));
    destruct (forallb (validateEmptyForm e) (formsOf s root));
    destruct (handleEmptyFormSubmission e) as [[result|thrown]|];
    repeat split; try apply Hgesture; cbn; auto.
Qed.


(** * Further properties *)

(** ** The registry, call after call *)

Lemma registrations_cons formId isSubForm context rest s :
  finalStore (registrations ((formId, isSubForm, context) :: rest) s)
  = finalStore (registrations rest (finalStore (registerForm formId isSubForm context s))).
Proof.
  unfold finalStore. cbn [registrations]. unfold bind, registerForm, modify.
  cbn [fst snd].
  destruct (registrations rest _) as [[c s2] tr]. reflexivity.
Qed.

Lemma registrations_app earlier later s :
  finalStore (registrations (earlier ++ later) s)
  = finalStore (registrations later (finalStore (registrations earlier s))).
Proof.
  revert s. induction earlier as [|[[formId isSubForm] context] rest IH]; intros s.
  - reflexivity.
  - cbn [app]. rewrite !registrations_cons. apply IH.
Qed.

Lemma defineOwn_keys {V} (o : list (string * V)) k v k' :
  In k' (map fst (defineOwn o k v)) <-> k' = k \/ In k' (map fst o).
Proof.
  induction o as [|[k0 v0] rest IH]; cbn.
  - intuition auto.
  - destruct (String.eqb k0 k) eqn:Hk; cbn.
    + apply String.eqb_eq in Hk. subst k0. intuition auto.
    + rewrite IH. intuition auto.
Qed.

Lemma defineOwn_NoDup {V} (o : list (string * V)) k v :
  NoDup (map fst o) -> NoDup (map fst (defineOwn o k v)).
Proof.
  induction o as [|[k0 v0] rest IH]; cbn; intros Hnodup.
  - constructor; [intros [] | constructor].
  - destruct (String.eqb k0 k) eqn:Hk; cbn; [exact Hnodup|].
    apply String.eqb_neq in Hk. inversion Hnodup as [|? ? Hnotin Hrest]; subst.
    constructor; [|auto].
    rewrite defineOwn_keys. intros [-> | Hin]; [congruence | contradiction].
Qed.

Lemma defineOwn_In_iff {V} (o : list (string * V)) k v k' v' :
  NoDup (map fst o) ->
  In (k', v') (defineOwn o k v) <-> (k' = k /\ v' = v) \/ (k' <> k /\ In (k', v') o).
Proof.
  induction o as [|[k0 v0] rest IH]; cbn; intros Hnodup.
  - split.
    + intros [[= <- <-] | []]. auto.
    + intros [[-> ->] | [_ []]]. auto.
  - inversion Hnodup as [|? ? Hnotin Hrest]; subst.
    destruct (String.eqb k0 k) eqn:Hk; cbn.
    + apply String.eqb_eq in Hk. subst k0. split.
      * intros [[= <- <-] | Hin]; [auto|].
        right. split; [|auto].
        intros ->. apply Hnotin. apply in_map_iff. exists (k, v'). auto.
      * intros [[-> ->] | [Hneq [[= -> ->] | Hin]]]; [auto | congruence | auto].
    + apply String.eqb_neq in Hk. rewrite (IH Hrest). split.
      * intros [[= <- <-] | [[-> ->] | [Hneq Hin]]]; auto.
      * intros [[-> ->] | [Hneq [[= -> ->] | Hin]]]; auto.
Qed.

Lemma assign_NoDup {V} (o : list (string * V)) k v :
  NoDup (map fst o) -> NoDup (map fst (assign o k v)).
Proof.
  intros Hnodup. unfold assign.
  destruct (String.eqb k "__proto__"); [exact Hnodup | apply defineOwn_NoDup, Hnodup].
Qed.

(** An assignment under another key leaves what is held under [k']. *)
Lemma assign_other {V} (o : list (string * V)) k v k' v' :
  NoDup (map fst o) -> k <> k' ->
  In (k', v') (assign o k v) <-> In (k', v') o.
Proof.
  intros Hnodup Hneq. unfold assign.
  destruct (String.eqb k "__proto__"); [reflexivity|].
  rewrite (defineOwn_In_iff _ _ _ _ _ Hnodup). split.
  - intros [[-> _] | [_ Hin]]; [congruence | exact Hin].
  - intros Hin. right. auto.
Qed.

(** No assignment makes an own property named [__proto__]. *)
Lemma assign_no_proto {V} (o : list (string * V)) k v :
  ~ In "__proto__" (map fst o) -> ~ In "__proto__" (map fst (assign o k v)).
Proof.
  intros Hnone. unfold assign.
  destruct (String.eqb k "__proto__") eqn:Hk; [exact Hnone|].
  apply String.eqb_neq in Hk. rewrite defineOwn_keys.
  intros [Heq | Hin]; [congruence | contradiction].
Qed.

Lemma registrations_NoDup calls s :
  NoDup (map fst (subForms s)) ->
  NoDup (map fst (subForms (finalStore (registrations calls s)))).
Proof.
  revert s. induction calls as [|[[formId isSubForm] context] rest IH]; intros s Hnodup.
  - exact Hnodup.
  - rewrite registrations_cons. apply IH.
    destruct isSubForm; cbn; [apply assign_NoDup|]; exact Hnodup.
Qed.

Lemma registrations_no_proto calls s :
  ~ In "__proto__" (map fst (subForms s)) ->
  ~ In "__proto__" (map fst (subForms (finalStore (registrations calls s)))).
Proof.
  revert s. induction calls as [|[[formId isSubForm] context] rest IH]; intros s Hnone.
  - exact Hnone.
  - rewrite registrations_cons. apply IH.
    destruct isSubForm; cbn; [apply assign_no_proto|]; exact Hnone.
Qed.

(** Calls that do not register a sub-form under [formId] keep what is
    registered under it. *)
Lemma registrations_keep calls formId s :
  NoDup (map fst (subForms s)) ->
  (forall otherId isSubForm other,
     In (otherId, isSubForm, other) calls -> isSubForm = true -> otherId <> formId) ->
  forall c,
    In (formId, c) (subForms (finalStore (registrations calls s)))
    <-> In (formId, c) (subForms s).
Proof.
  revert s. induction calls as [|[[otherId isSubForm] other] rest IH];
    intros s Hnodup Hother c.
  - reflexivity.
  - rewrite registrations_cons, IH.
    + destruct isSubForm; cbn; [|reflexivity].
      apply assign_other; [exact Hnodup|].
      apply (Hother otherId true other); [now left | reflexivity].
    + destruct isSubForm; cbn; [apply assign_NoDup|]; exact Hnodup.
    + intros id' b c' Hin. apply (Hother id' b c'). now right.
Qed.

Lemma registrations_keep_root calls s :
  (forall otherId isSubForm other, In (otherId, isSubForm, other) calls -> isSubForm = true) ->
  rootForm (finalStore (registrations calls s)) = rootForm s.
Proof.
  revert s. induction calls as [|[[otherId isSubForm] other] rest IH]; intros s Hsub.
  - reflexivity.
  - rewrite registrations_cons, IH.
    + rewrite (Hsub otherId isSubForm other) by now left. reflexivity.
    + intros id' b c' Hin. apply (Hsub id' b c'). now right.
Qed.

(** X1. The registry holds one context per sub-form id: whatever the
    sequence of [registerForm] calls, no id is held twice, and the context
    held under an id other than [__proto__] is the one of the last call
    that registered a sub-form under it.  The id [__proto__] is never held:
    a registration under it changes the prototype of the registry and adds
    no entry, and so leaves the context held under every id as it was. *)
Theorem last_sub_form_registration_wins earlier later formId context s :
  NoDup (map fst (subForms s)) ->
  formId <> "__proto__" ->
  (forall otherId isSubForm other,
     In (otherId, isSubForm, other) later -> isSubForm = true -> otherId <> formId) ->
  let s' := finalStore (registrations (earlier ++ (formId, true, context) :: later) s) in
  NoDup (map fst (subForms s')) /\
  (forall c, In (formId, c) (subForms s') <-> c = context) /\
  (~ In "__proto__" (map fst (subForms s)) -> ~ In "__proto__" (map fst (subForms s'))) /\
  subForms (finalStore (registerForm "__proto__" true context s')) = subForms s'.
Proof.
  intros Hnodup Hid Hlater. cbn zeta. split; [|split; [|split]].
  - apply registrations_NoDup. exact Hnodup.
  - intros c. rewrite registrations_app, registrations_cons.
    pose proof (registrations_NoDup earlier s Hnodup) as Hmid.
    rewrite registrations_keep.
    + cbn. rewrite (assign_ordinary _ _ _ Hid).
      rewrite (defineOwn_In_iff _ _ _ _ _ Hmid). split.
      * intros [[_ ->] | [Hneq _]]; [reflexivity | congruence].
      * intros ->. auto.
    + cbn. apply assign_NoDup. exact Hmid.
    + exact Hlater.
  - apply registrations_no_proto.
  - reflexivity.
Qed.

Lemma last_sub_form_registration_wins_witness :
  let s' := finalStore
    (registrations [("vitals", true, rootSample); ("vitals", true, subSample);
                    ("root", false, rootSample); ("__proto__", true, lateSample);
                    ("labs", true, lateSample)]
                   (mountedStore false)) in
  NoDup (map fst (subForms s')) /\
  (forall c, In ("vitals", c) (subForms s') <-> c = subSample) /\
  (~ In "__proto__" (map fst (subForms (mountedStore false))) ->
   ~ In "__proto__" (map fst (subForms s'))) /\
  subForms (finalStore (registerForm "__proto__" true subSample s')) = subForms s'.
Proof.
  apply (last_sub_form_registration_wins
           [("vitals", true, rootSample)]
           [("root", false, rootSample); ("__proto__", true, lateSample);
            ("labs", true, lateSample)]
           "vitals" subSample (mountedStore false)).
  - constructor.
  - discriminate.
  - intros otherId isSubForm other
      [[= <- <- <-] | [[= <- <- <-] | [[= <- <- <-] | []]]] Hsub;
      [discriminate Hsub | discriminate | discriminate].
Defined.

(** The registry of the sample above: the registration under [__proto__]
    left no entry. *)
Example registry_after_proto :
  subForms (finalStore
    (registrations [("vitals", true, rootSample); ("__proto__", true, lateSample);
                    ("labs", true, lateSample)] (mountedStore false)))
  = [("vitals", rootSample); ("labs", lateSample)].
Proof. reflexivity. Qed.

(** The root form is the one of the last call that registered a root form;
    registering sub-forms does not touch it. *)
Lemma last_root_registration_wins earlier later formId context s :
  (forall otherId isSubForm other, In (otherId, isSubForm, other) later -> isSubForm = true) ->
  rootForm (finalStore (registrations (earlier ++ (formId, false, context) :: later) s))
  = Some context.
Proof.
  intros Hlater. rewrite registrations_app, registrations_cons.
  rewrite registrations_keep_root by exact Hlater. reflexivity.
Qed.

(** ** The order of the forms *)

Lemma insertByIndex_Permutation {V} (x : N * V) l :
  Permutation (insertByIndex x l) (x :: l).
Proof.
  induction l as [|y rest IH]; cbn; [reflexivity|].
  destruct (fst x <=? fst y)%N; [reflexivity|].
  rewrite IH. apply perm_swap.
Qed.

Lemma Object_values_Permutation {V} (o : list (string * V)) :
  Permutation (Object_values o) (map snd o).
Proof.
  unfold Object_values. induction o as [|[k v] rest IH]; cbn; [reflexivity|].
  destruct (arrayIndex k) as [n|]; cbn.
  - rewrite (Permutation_map snd (insertByIndex_Permutation (n, v) (indexEntries rest))).
    cbn. constructor. exact IH.
  - rewrite <- Permutation_middle. constructor. exact IH.
Qed.

Lemma indexEntries_named {V} (o : list (string * V)) :
  (forall k v, In (k, v) o -> arrayIndex k = None) ->
  indexEntries o = [] /\ namedEntries o = o.
Proof.
  induction o as [|[k v] rest IH]; cbn; intros Hnamed; [auto|].
  rewrite (Hnamed k v) by now left.
  destruct IH as [Hindex Hrest].
  - intros k' v' Hin. apply (Hnamed k' v'). now right.
  - split; [exact Hindex | f_equal; exact Hrest].
Qed.

Lemma Object_values_named {V} (o : list (string * V)) :
  (forall k v, In (k, v) o -> arrayIndex k = None) -> Object_values o = map snd o.
Proof.
  intros Hnamed. unfold Object_values.
  destruct (indexEntries_named o Hnamed) as [-> ->]. reflexivity.
Qed.

Lemma insertByIndex_sorted {V} (x : N * V) l :
  Sorted (fun a b => (fst a <= fst b)%N) l ->
  Sorted (fun a b => (fst a <= fst b)%N) (insertByIndex x l).
Proof.
  induction l as [|y rest IH]; cbn; intros Hsorted.
  - constructor; constructor.
  - destruct (fst x <=? fst y)%N eqn:Hle.
    + constructor; [exact Hsorted|]. constructor. apply N.leb_le. exact Hle.
    + apply N.leb_gt in Hle. inversion Hsorted as [|? ? Hrest Hhd]; subst.
      constructor; [auto|].
      destruct rest as [|z rest']; cbn.
      * constructor. lia.
      * destruct (fst x <=? fst z)%N; constructor; [lia|].
        inversion Hhd; subst. assumption.
Qed.

Lemma indexEntries_sorted {V} (o : list (string * V)) :
  Sorted (fun a b => (fst a <= fst b)%N) (indexEntries o).
Proof.
  induction o as [|[k v] rest IH]; cbn; [constructor|].
  destruct (arrayIndex k); [apply insertByIndex_sorted|]; exact IH.
Qed.

(** X2. The forms of a submission are the root form followed by every
    registered sub-form context, each entry of the registry once; when no
    sub-form id is an array index they come in the order in which the ids
    were first registered, and ids that are array indices come before the
    others, in ascending order. *)
Theorem forms_follow_the_registry s root :
  Permutation (formsOf s root) (root :: map snd (subForms s)) /\
  ((forall formId context, In (formId, context) (subForms s) -> arrayIndex formId = None) ->
   formsOf s root = root :: map snd (subForms s)) /\
  formsOf s root
  = root :: map snd (indexEntries (subForms s)) ++ map snd (namedEntries (subForms s)) /\
  Sorted (fun a b => (fst a <= fst b)%N) (indexEntries (subForms s)).
Proof.
  unfold formsOf. split; [|split; [|split]].
  - constructor. apply Object_values_Permutation.
  - intros Hnamed. f_equal. apply Object_values_named. exact Hnamed.
  - reflexivity.
  - apply indexEntries_sorted.
Qed.

Lemma forms_follow_the_registry_witness :
  formsOf sampleStore rootSample = rootSample :: map snd (subForms sampleStore).
Proof.
  apply (proj1 (proj2 (forms_follow_the_registry sampleStore rootSample))).
  intros formId context [[= <- <-] | []]. reflexivity.
Defined.

(** Numeric ids go first, in ascending order, whatever the order of
    registration. *)
Example numeric_ids_go_first :
  formsOf (finalStore (registrations
             [("root", false, rootSample); ("vitals", true, subSample);
              ("10", true, lateSample); ("2", true, mkContext 4 9)]
             (mountedStore true)))
          rootSample
  = [rootSample; mkContext 4 9; lateSample; subSample].
Proof. reflexivity. Qed.

(** ** Which forms are validated *)

Lemma visitedByEvery_stops {A} (p : A -> bool) passed x rest :
  forallb p passed = true -> p x = false ->
  visitedByEvery p (passed ++ x :: rest) = passed ++ [x] /\
  forallb p (passed ++ x :: rest) = false.
Proof.
  intros Hpassed Hx. induction passed as [|y passed IH]; cbn.
  - rewrite Hx. auto.
  - cbn in Hpassed. apply andb_true_iff in Hpassed. destruct Hpassed as [Hy Hpassed].
    rewrite Hy. destruct (IH Hpassed) as [-> ->]. auto.
Qed.

Lemma validatedForms_validations e forms :
  validatedForms (validations e forms) = visitedByEvery (validateForm e) forms.
Proof.
  unfold validatedForms, validations.
  rewrite (select_map_some pickValidation CallValidateForm (fun f => f))
    by reflexivity.
  apply map_id.
Qed.

(** X3. Validation stops at the first form that fails: the forms before it
    are validated, it is validated, and no form after it is handed to
    [validateForm].  This holds of the three variants. *)
Theorem validation_stops_at_the_first_invalid_form e s root passed f skipped :
  isSubmitting s = true -> rootForm s = Some root ->
  formsOf s root = passed ++ f :: skipped ->
  forallb (validateForm e) passed = true -> validateForm e f = false ->
  validatedForms (trace (V1.handleFormSubmission e s)) = passed ++ [f] /\
  validatedForms (trace (V2.useEffect e s)) = passed ++ [f] /\
  validatedForms (trace (V3.handleFormSubmission e s)) = passed ++ [f].
Proof.
  intros Hsub Hroot Hforms Hpassed Hf.
  destruct (visitedByEvery_stops (validateForm e) passed f skipped Hpassed Hf)
    as [Hvisited Hinvalid].
  rewrite <- Hforms in Hvisited, Hinvalid.
  rewrite (V1_run e s root Hsub Hroot), (V2_effect_run e s root Hsub Hroot),
    (V3_run e s root Hsub Hroot).
  rewrite Hinvalid, andb_false_r. unfold trace. cbn [snd].
  unfold validatedForms. rewrite !select_app. fold validatedForms.
  rewrite validatedForms_validations, Hvisited.
  unfold validatedForms.
  rewrite select_emptyFormChecks, select_emptyFieldsChecks by reflexivity.
  cbn. rewrite !app_nil_r. auto.
Qed.

Lemma validation_stops_at_the_first_invalid_form_witness :
  validatedForms (trace (V1.handleFormSubmission invalidRootEnv sampleStore)) = [rootSample] /\
  validatedForms (trace (V2.useEffect invalidRootEnv sampleStore)) = [rootSample] /\
  validatedForms (trace (V3.handleFormSubmission invalidRootEnv sampleStore)) = [rootSample].
Proof.
  exact (validation_stops_at_the_first_invalid_form
           invalidRootEnv sampleStore rootSample [] rootSample [subSample]
           eq_refl eq_refl eq_refl eq_refl eq_refl).
Defined.

(** ** From mounting to submission *)

Lemma defineOwn_fresh {V} (o : list (string * V)) k v :
  ~ In k (map fst o) -> defineOwn o k v = o ++ [(k, v)].
Proof.
  induction o as [|[k0 v0] rest IH]; cbn; intros Hfresh; [reflexivity|].
  destruct (String.eqb k0 k) eqn:Hk.
  - apply String.eqb_eq in Hk. exfalso. apply Hfresh. now left.
  - f_equal. apply IH. intros Hin. apply Hfresh. now right.
Qed.

Lemma registrations_of_sub_forms subs s :
  NoDup (map fst (subForms s ++ subs)) ->
  ~ In "__proto__" (map fst subs) ->
  finalStore (registrations (map (fun entry => (fst entry, true, snd entry)) subs) s)
  = mkStore (isSubmitting s) (isEmptyFormModalOpen s) (rootForm s) (subForms s ++ subs).
Proof.
  revert s. induction subs as [|[k v] rest IH]; intros s Hnodup Hproto.
  - rewrite app_nil_r. destruct s. reflexivity.
  - cbn [map fst snd]. rewrite registrations_cons.
    assert (Hfresh : ~ In k (map fst (subForms s))).
    { rewrite map_app in Hnodup. cbn in Hnodup.
      apply NoDup_remove_2 in Hnodup. rewrite in_app_iff in Hnodup. tauto. }
    assert (Hk : k <> "__proto__") by (intros ->; apply Hproto; now left).
    assert (Hstep : finalStore (registerForm k true v s)
                    = mkStore (isSubmitting s) (isEmptyFormModalOpen s) (rootForm s)
                              (subForms s ++ [(k, v)])).
    { unfold registerForm, modify, finalStore. cbn [fst snd].
      rewrite (assign_ordinary _ _ _ Hk), (defineOwn_fresh _ _ _ Hfresh).
      reflexivity. }
    rewrite Hstep, IH; cbn [isSubmitting isEmptyFormModalOpen rootForm subForms];
      rewrite <- ?app_assoc.
    + reflexivity.
    + exact Hnodup.
    + intros Hin. apply Hproto. now right.
Qed.

Lemma mountForms_store rootId root subs submitting :
  NoDup (map fst subs) -> ~ In "__proto__" (map fst subs) ->
  finalStore (registrations (mountForms rootId root subs) (mountedStore submitting))
  = mkStore submitting false (Some root) subs.
Proof.
  intros Hnodup Hproto. unfold mountForms. rewrite registrations_cons.
  rewrite registrations_of_sub_forms; [reflexivity | exact Hnodup | exact Hproto].
Qed.

(** X14. From mounting to submission: once the root form and the sub-forms
    have registered, under ids that are distinct, not array indices and not
    [__proto__], a valid submission of a form that is not empty calls the
    processor of the root form and then those of the sub-forms in the order
    in which they registered, each with its own context. *)
Theorem mounted_forms_are_submitted_in_order e rootId root subs :
  NoDup (map fst subs) ->
  ~ In "__proto__" (map fst subs) ->
  (forall formId context, In (formId, context) subs -> arrayIndex formId = None) ->
  forallb (validateForm e) (root :: map snd subs) = true ->
  let s := finalStore (registrations (mountForms rootId root subs) (mountedStore true)) in
  (forallb (validateEmptyForm e) (root :: map snd subs) = false ->
   processorCalls (trace (V1.handleFormSubmission e s))
   = expectedCalls e (root :: map snd subs) /\
   processorCalls (trace (V3.handleFormSubmission e s))
   = expectedCalls e (root :: map snd subs)) /\
  (existsb (validateEmptyFields e) (root :: map snd subs) = false ->
   processorCalls (trace (V2.useEffect e s)) = expectedCalls e (root :: map snd subs)).
Proof.
  intros Hnodup Hproto Hnamed Hvalid. cbn zeta.
  rewrite (mountForms_store rootId root subs true Hnodup Hproto).
  set (s := mkStore true false (Some root) subs).
  assert (Hforms : formsOf s root = root :: map snd subs).
  { unfold formsOf. cbn [subForms s]. f_equal. apply Object_values_named. exact Hnamed. }
  rewrite (V1_run e s root eq_refl eq_refl), (V3_run e s root eq_refl eq_refl),
    (V2_effect_run e s root eq_refl eq_refl).
  rewrite Hforms, Hvalid. unfold trace. cbn [snd].
  split; [intros Hfilled; rewrite Hfilled; cbn [andb]; split | intros Hfilled; rewrite Hfilled];
    cbn [snd]; project; fold processorCalls; apply processorCalls_submitTrace.
Qed.

Lemma mounted_forms_are_submitted_in_order_witness :
  processorCalls
    (trace (V2.useEffect sampleEnv
              (finalStore (registrations
                             (mountForms "encounter" rootSample
                                [("vitals", subSample); ("labs", lateSample)])
                             (mountedStore true)))))
  = expectedCalls sampleEnv [rootSample; subSample; lateSample].
Proof.
  apply (mounted_forms_are_submitted_in_order
           sampleEnv "encounter" rootSample [("vitals", subSample); ("labs", lateSample)]).
  - repeat constructor; cbn; intuition discriminate.
  - cbn. intros [H | [H | []]]; discriminate H.
  - intros formId context [[= <- <-] | [[= <- <-] | []]]; reflexivity.
  - reflexivity.
  - reflexivity.
Defined.

(** A sub-form that registers under [__proto__] is not among the forms of
    the submission: its processor is never called. *)
Example proto_sub_form_is_not_submitted :
  processorCalls
    (trace (V2.useEffect sampleEnv
              (finalStore (registrations
                             (mountForms "encounter" rootSample
                                [("__proto__", subSample); ("labs", lateSample)])
                             (mountedStore true)))))
  = expectedCalls sampleEnv [rootSample; lateSample].
Proof. reflexivity. Qed.

(** * The living provider of variant 2 *)

Lemma run_app p a b :
  Live.run p (a ++ b)
  = (fst (Live.run (fst (Live.run p a)) b),
     snd (Live.run p a) ++ snd (Live.run (fst (Live.run p a)) b)).
Proof.
  revert p. induction a as [|st rest IH]; intros p.
  - cbn. destruct (Live.run p b). reflexivity.
  - cbn [app Live.run]. destruct (Live.step p st) as [p1 tr1].
    rewrite IH. destruct (Live.run p1 rest) as [p2 tr2]. cbn [fst snd].
    rewrite app_assoc. reflexivity.
Qed.

Lemma run_cons p st rest :
  Live.run p (st :: rest)
  = (fst (Live.run (fst (Live.step p st)) rest),
     snd (Live.step p st) ++ snd (Live.run (fst (Live.step p st)) rest)).
Proof.
  cbn [Live.run]. destruct (Live.step p st) as [p1 tr1]. cbn [fst snd].
  destruct (Live.run p1 rest) as [p2 tr2]. reflexivity.
Qed.

Lemma Calm_app a b : Calm a -> Calm b -> Calm (a ++ b).
Proof.
  intros Ha Hb ev Hin. apply in_app_iff in Hin. destruct Hin; auto.
Qed.

Lemma Calm_map {A} (g : A -> Event) l :
  (forall x, isProcessorCall (g x) = false) -> Calm (map g l).
Proof.
  intros Hg ev Hin. apply in_map_iff in Hin. destruct Hin as [x [<- _]]. apply Hg.
Qed.

Lemma Calm_cons ev tr : isProcessorCall ev = false -> Calm tr -> Calm (ev :: tr).
Proof. intros Hev Htr x [<-|Hin]; auto. Qed.

Lemma Calm_nil : Calm [].
Proof. intros ev []. Qed.

Lemma Calm_no_call calm pre b post :
  Calm calm -> calm = pre ++ b :: post -> isProcessorCall b = false.
Proof. intros Hcalm ->. apply Hcalm. rewrite in_app_iff. right. now left. Qed.

Lemma Calm_finishTrace e pending : Calm (finishTrace e pending).
Proof.
  unfold finishTrace, successTail, closingTail, failureTail.
  destruct (Promise_all pending) as [results|err].
  - destruct (postSubmissionHandlers e) as [handlers|];
      [destruct (processPostSubmissionActions e handlers results)|];
      destruct (onSubmit e);
      repeat (apply Calm_cons; [reflexivity|]); apply Calm_nil.
  - repeat (apply Calm_cons; [reflexivity|]). apply Calm_nil.
Qed.

(** The steps in closed form. *)
Lemma step_render e p :
  Live.step p (Live.Render e)
  = (Live.mkProvider (finalStore (V2.effectNow e (Live.store p))) (Some e)
       (isEmptyFormModalOpen (Live.store p))
       (Live.takeOff e (Live.landed (completion (V2.effectNow e (Live.store p))))
          (Live.flights p)),
     trace (V2.effectNow e (Live.store p))).
Proof.
  cbn [Live.step]. destruct (V2.effectNow e (Live.store p)) as [[c s'] tr].
  reflexivity.
Qed.

Lemma step_settle i p f :
  nth_error (Live.flights p) i = Some f ->
  Live.step p (Live.Settle i)
  = (Live.mkProvider (withIsSubmitting false (Live.store p)) (Live.committed p)
       (Live.shown p) (Live.removeAt i (Live.flights p)),
     finishTrace (Live.flightEnv f) (Live.flightPending f)).
Proof.
  intros Hf. cbn [Live.step]. rewrite Hf, finishSubmissions_run. reflexivity.
Qed.

Lemma step_confirm e p :
  Live.committed p = Some e -> Live.shown p = true ->
  Live.step p (Live.Gesture PressConfirm)
  = (Live.mkProvider (finalStore (V2.handleIncompleteFormConfirmation e (Live.store p))) (Some e) true
       (Live.takeOff e (Live.landed (completion (V2.handleIncompleteFormConfirmation e (Live.store p))))
          (Live.flights p)),
     UserGesture PressConfirm :: trace (V2.handleIncompleteFormConfirmation e (Live.store p))).
Proof.
  intros He Hshown. cbn [Live.step]. rewrite He, Hshown.
  cbn [IncompleteFormConfirmationModal]. unfold bind at 1. cbn [emit].
  destruct (V2.handleIncompleteFormConfirmation e (Live.store p)) as [[c s'] tr]. reflexivity.
Qed.

Lemma step_discard e g p :
  Live.committed p = Some e -> Live.shown p = true -> g <> PressConfirm ->
  Live.step p (Live.Gesture g)
  = (Live.mkProvider (closeModal (Live.store p)) (Some e) true (Live.flights p),
     discardTrace g).
Proof.
  intros He Hshown Hg. cbn [Live.step]. rewrite He, Hshown.
  destruct g; [reflexivity | contradiction | reflexivity].
Qed.

Lemma step_unseen g p :
  Live.committed p = None \/ Live.shown p = false ->
  Live.step p (Live.Gesture g) = (p, []).
Proof.
  intros Hnone. cbn [Live.step].
  destruct (Live.committed p) as [e|]; [|reflexivity].
  destruct Hnone as [Hnone | ->]; [discriminate | reflexivity].
Qed.


(** ** One execution of the effect and the living provider *)

(** The trace of the effect starts with what it does before its [await]. *)
Lemma effect_starts_with_effectNow e s :
  exists rest, trace (V2.useEffect e s) = trace (V2.effectNow e s) ++ rest.
Proof.
  unfold V2.useEffect, bind, trace.
  destruct (V2.effectNow e s) as [[[started|thrown] s1] tr1]; cbn [snd].
  - destruct (resumeSubmissions e started s1) as [[[[]|thrown] s2] tr2]; cbn [snd].
    + exists tr2. unfold ret. rewrite app_nil_r. reflexivity.
    + exists tr2. reflexivity.
  - exists []. rewrite app_nil_r. reflexivity.
Qed.

(** An effect that nothing interrupts is a render followed by the settlement
    of the submission it started. *)
Lemma effect_is_render_then_settlement e s :
  snd (Live.run (Live.mounted s) [Live.Render e; Live.Settle 0])
  = trace (V2.useEffect e s).
Proof.
  rewrite run_cons, step_render. cbn [fst snd Live.mounted Live.store Live.flights].
  unfold V2.useEffect, bind, trace, completion, finalStore.
  destruct (V2.effectNow e s) as [[[[pending|]|thrown] s1] tr1];
    cbn [fst snd Live.landed Live.takeOff app Live.run Live.step Live.flights
         nth_error Live.store Live.flightEnv Live.flightPending resumeSubmissions].
  - destruct (finishSubmissions e pending s1) as [[[[]|thrown] s2] tr2];
      cbn [snd ret]; rewrite ?app_nil_r; reflexivity.
  - cbn [snd ret]. rewrite ?app_nil_r. reflexivity.
  - rewrite ?app_nil_r. reflexivity.
Qed.

(** ** Stages of one execution *)

Lemma StagedFrom_prefix stage k a b :
  StagedFrom stage k (a ++ b) -> StagedFrom stage k a.
Proof.
  unfold StagedFrom. rewrite select_app. intros [Hsorted Hfrom]. split.
  - clear Hfrom. induction (select stage a) as [|n rest IH]; [constructor|].
    cbn [app] in Hsorted. apply StronglySorted_inv in Hsorted.
    destruct Hsorted as [Hrest Hall]. constructor; [apply IH; exact Hrest|].
    apply Forall_app in Hall. apply Hall.
  - apply Forall_app in Hfrom. apply Hfrom.
Qed.

Lemma finishTrace_staged e pending k :
  k <= 4 -> StagedFrom actualStage k (finishTrace e pending).
Proof.
  intros Hk. unfold finishTrace, successTail, closingTail, failureTail.
  destruct (Promise_all pending) as [results|err]; [|staged].
  destruct (postSubmissionHandlers e) as [handlers|].
  - destruct (processPostSubmissionActions e handlers results);
      [destruct (onSubmit e)|]; staged.
  - destruct (onSubmit e); staged.
Qed.

Lemma submitTrace_staged e forms k :
  k <= 3 -> StagedFrom actualStage k (submitTrace e forms).
Proof.
  intros Hk. unfold submitTrace, submissionCalls.
  eapply StagedFrom_block; [intros; reflexivity | exact Hk |].
  apply finishTrace_staged. lia.
Qed.

Lemma confirmTrace_staged e forms : StagedFrom actualStage 2 (confirmTrace e forms).
Proof.
  unfold confirmTrace, submissionCalls.
  eapply StagedFrom_staged; [reflexivity | lia |].
  eapply StagedFrom_block; [intros; reflexivity | lia |].
  apply StagedFrom_unstaged; [reflexivity|].
  apply finishTrace_staged. lia.
Qed.

Lemma V1_staged e s : StagedFrom actualStage 0 (trace (V1.handleFormSubmission e s)).
Proof.
  destruct (isSubmitting s) eqn:Hsub.
  2:{ rewrite (V1_idle e s Hsub). apply StagedFrom_nil. }
  destruct (rootForm s) as [root|] eqn:Hroot.
  2:{ apply (V1_rootless e s Hsub Hroot). }
  rewrite (V1_run e s root Hsub Hroot).
  destruct (forallb (validateForm e) (formsOf s root));
    [|unfold trace, validations; cbn [snd]; staged].
  destruct (forallb (validateEmptyForm e) (formsOf s root));
    destruct (handleEmptyFormSubmission e) as [[result|thrown]|];
    unfold callbackRun1, trace, validations, emptyFormChecks; cbn [snd]; tidy;
    try (eapply StagedFrom_block; [intros; reflexivity | lia |];
         eapply StagedFrom_block; [intros; reflexivity | lia |];
         apply submitTrace_staged; lia);
    try solve [staged].
  destruct result as [[[]|err]|[]|]; cbn [answerTrace1 app]; staged.
Qed.

Lemma V3_staged e s : StagedFrom actualStage 0 (trace (V3.handleFormSubmission e s)).
Proof.
  destruct (isSubmitting s) eqn:Hsub.
  2:{ rewrite (V3_idle e s Hsub). apply StagedFrom_nil. }
  destruct (rootForm s) as [root|] eqn:Hroot.
  2:{ apply (V3_rootless e s Hsub Hroot). }
  rewrite (V3_run e s root Hsub Hroot). unfold trace. cbn [snd].
  unfold validations, emptyFormChecks.
  eapply StagedFrom_block; [intros; reflexivity | lia |].
  eapply StagedFrom_block; [intros; reflexivity | lia |].
  destruct (forallb (validateEmptyForm e) (formsOf s root));
    destruct (forallb (validateForm e) (formsOf s root));
    destruct (handleEmptyFormSubmission e) as [[result|thrown]|]; cbn [andb];
    unfold callbackTrace3;
    try (apply submitTrace_staged; lia); try solve [staged].
  destruct result as [[[]|err]|[]|]; staged.
Qed.

Lemma V2_effect_staged e s : StagedFrom actualStage 0 (trace (V2.useEffect e s)).
Proof.
  destruct (isSubmitting s) eqn:Hsub.
  2:{ rewrite (V2_effect_idle e s Hsub). apply StagedFrom_nil. }
  destruct (rootForm s) as [root|] eqn:Hroot.
  2:{ apply (V2_effect_rootless e s Hsub Hroot). }
  rewrite (V2_effect_run e s root Hsub Hroot). unfold trace. cbn [snd].
  unfold validations, emptyFieldsChecks.
  eapply StagedFrom_block; [intros; reflexivity | lia |].
  eapply StagedFrom_block; [intros; reflexivity | lia |].
  destruct (forallb (validateForm e) (formsOf s root)); [|staged].
  destruct (existsb (validateEmptyFields e) (formsOf s root)); [staged|].
  apply submitTrace_staged. lia.
Qed.

Lemma V2_gesture_staged e g s : StagedFrom actualStage 0 (trace (V2.gesture e g s)).
Proof.
  destruct (isEmptyFormModalOpen s) eqn:Hopen.
  2:{ rewrite (V2_gesture_closed e g s Hopen). apply StagedFrom_nil. }
  destruct (rootForm s) as [root|] eqn:Hroot.
  2:{ apply (V2_gesture_rootless e g s Hopen Hroot). }
  rewrite (V2_gesture_open e g s root Hopen Hroot). unfold trace. cbn [snd].
  apply (StagedFrom_weaken _ 2); [lia|].
  destruct g; try apply confirmTrace_staged; unfold discardTrace; staged.
Qed.

Lemma confirmation_staged e s :
  StagedFrom actualStage 2 (UserGesture PressConfirm :: trace (V2.handleIncompleteFormConfirmation e s)).
Proof.
  destruct (rootForm s) as [root|] eqn:Hroot.
  - rewrite (V2_confirmation_run e s root Hroot). unfold trace. cbn [snd].
    unfold submissionCalls. staged.
  - unfold V2.handleIncompleteFormConfirmation. run_step. rewrite Hroot, beginSubmissions_undefined.
    run_step. cbn [snd app]. staged.
Qed.

Lemma step_staged p st : StagedFrom actualStage 0 (snd (Live.step p st)).
Proof.
  destruct st as [e|g|i|formId isSubForm context].
  - rewrite step_render. cbn [snd].
    destruct (effect_starts_with_effectNow e (Live.store p)) as [rest Hrest].
    apply (StagedFrom_prefix _ _ _ rest). rewrite <- Hrest. apply V2_effect_staged.
  - destruct (Live.committed p) as [e|] eqn:He;
      [|rewrite step_unseen by auto; apply StagedFrom_nil].
    destruct (Live.shown p) eqn:Hshown;
      [|rewrite step_unseen by auto; apply StagedFrom_nil].
    destruct g.
    + rewrite (step_discard e) by (auto; discriminate). unfold discardTrace. cbn [snd].
      staged.
    + rewrite (step_confirm e) by auto. cbn [snd].
      apply (StagedFrom_weaken _ 2); [lia | apply confirmation_staged].
    + rewrite (step_discard e) by (auto; discriminate). unfold discardTrace. cbn [snd].
      staged.
  - destruct (nth_error (Live.flights p) i) as [f|] eqn:Hf.
    + rewrite (step_settle i p f Hf). cbn [snd]. apply finishTrace_staged. lia.
    + cbn [Live.step]. rewrite Hf. apply StagedFrom_nil.
  - cbn. apply StagedFrom_nil.
Qed.

(** C1, as amended.  One execution of a handler follows the order validate,
    empty-check, confirm, process (the calls, then their settlement), success
    snackbar, post-submission actions, [hideFormCollapseToggle], close
    ([onSubmit] or [handleClose]) or error toast: none of its calls comes
    before a call of an earlier stage.  The executions are the async function
    of variants 1 and 3 (one per submission), and in variant 2 the effect and
    each handler of the modal, taken with the submission they start, as well
    as every single step of the living provider: a render with its effect, a
    gesture, a settlement.  Across the renders of variant 2 the order does
    not hold: its effect runs again after every render. *)
Theorem submission_follows_the_stage_order e s :
  StageOrdered actualStage (trace (V1.handleFormSubmission e s)) /\
  StageOrdered actualStage (trace (V3.handleFormSubmission e s)) /\
  StageOrdered actualStage (trace (V2.useEffect e s)) /\
  (forall g, StageOrdered actualStage (trace (V2.gesture e g s))) /\
  (forall p st, StageOrdered actualStage (snd (Live.step p st))).
Proof.
  split; [|split; [|split; [|split]]].
  - exact (StagedFrom_ordered _ _ _ (V1_staged e s)).
  - exact (StagedFrom_ordered _ _ _ (V3_staged e s)).
  - exact (StagedFrom_ordered _ _ _ (V2_effect_staged e s)).
  - intros g. exact (StagedFrom_ordered _ _ _ (V2_gesture_staged e g s)).
  - intros p st. exact (StagedFrom_ordered _ _ _ (step_staged p st)).
Qed.

(** C1, as stated, fails twice.  On the sample submission (two valid forms
    that are not empty, one post-submission handler) the success snackbar, a
    notification of the user, is shown before the post-submission actions
    run.  And in variant 2, when the forms are valid and empty, the render
    that follows the opening of the modal runs the effect again: the forms
    are validated after the confirmation step has begun. *)
Lemma snackbar_comes_before_post_submission_actions :
  ~ StageOrdered claimedStage (trace (V2.useEffect sampleEnv sampleStore)) /\
  ~ StageOrdered claimedStage
      (snd (Live.run (Live.mounted sampleStore)
              [Live.Render (rerender 5 (emptyFormEnv None));
               Live.Render (rerender 6 (emptyFormEnv None))])).
Proof.
  split; intros Hordered.
  - pose proof
      (Hordered
         [CallValidateForm rootSample; CallValidateForm subSample;
          CallValidateEmptyFields rootSample; CallValidateEmptyFields subSample;
          CallProcessSubmission 7 rootSample 5; CallProcessSubmission 8 subSample 5;
          AllSettled true; SetIsSubmitting false]
         (ShowSnackbar (formSubmitted sampleEnv))
         []
         (CallProcessPostSubmissionActions ["linkHandler"] [107; 108] 42 "enter")
         [HideFormCollapseToggle; OnSubmit [107; 108]]
         6 5 eq_refl eq_refl eq_refl) as Hle.
    lia.
  - pose proof
      (Hordered
         [CallValidateForm rootSample; CallValidateForm subSample;
          CallValidateEmptyFields rootSample]
         (SetIsEmptyFormModalOpen true)
         []
         (CallValidateForm rootSample)
         [CallValidateForm subSample; CallValidateEmptyFields rootSample;
          SetIsEmptyFormModalOpen true]
         2 0 eq_refl eq_refl eq_refl) as Hle.
    lia.
Qed.

(** The same recurrence, against the order of one execution: across renders
    the stages of variant 2 start over. *)
Example validation_recurs_after_every_render :
  validatedForms
    (snd (Live.run (Live.mounted sampleStore)
            [Live.Render (rerender 5 (emptyFormEnv None));
             Live.Render (rerender 6 (emptyFormEnv None));
             Live.Gesture PressConfirm;
             Live.Render (rerender 7 (emptyFormEnv None))]))
  = [rootSample; subSample; rootSample; subSample; rootSample; subSample] /\
  ~ StageOrdered actualStage
      (snd (Live.run (Live.mounted sampleStore)
              [Live.Render (rerender 5 (emptyFormEnv None));
               Live.Render (rerender 6 (emptyFormEnv None))])).
Proof.
  split; [reflexivity|]. intros Hordered.
  pose proof
    (Hordered
       [CallValidateForm rootSample; CallValidateForm subSample;
        CallValidateEmptyFields rootSample]
       (SetIsEmptyFormModalOpen true)
       []
       (CallValidateForm rootSample)
       [CallValidateForm subSample; CallValidateEmptyFields rootSample;
        SetIsEmptyFormModalOpen true]
       2 0 eq_refl eq_refl eq_refl) as Hle.
  lia.
Qed.

(** ** The modal comes before the processors *)

Lemma Calm_effectNow_empty e s :
  EmptySubmission e s -> Calm (trace (V2.effectNow e s)) /\
  (isSubmitting s = true ->
   In (SetIsEmptyFormModalOpen true) (trace (V2.effectNow e s))) /\
  isEmptyFormModalOpen (finalStore (V2.effectNow e s))
  = (isSubmitting s || isEmptyFormModalOpen s)%bool.
Proof.
  intros Hempty. destruct (isSubmitting s) eqn:Hsub.
  - destruct (Hempty Hsub) as (root & Hroot & Hvalid & Hsome).
    rewrite (V2_effectNow_run e s root Hsub Hroot), Hvalid, Hsome.
    unfold trace, finalStore. cbn [fst snd]. split; [|split].
    + repeat apply Calm_app; try (apply Calm_map; reflexivity).
      apply Calm_cons; [reflexivity | apply Calm_nil].
    + intros _. rewrite !in_app_iff. right. right. now left.
    + reflexivity.
  - rewrite (V2_effectNow_idle e s Hsub). split; [apply Calm_nil|].
    split; [discriminate | reflexivity].
Qed.

(** One step of the provider: the modal is not shown unless it was opened,
    and a call of a processor in the step follows the Confirm gesture of the
    step. *)
Lemma step_waits p st past :
  Opened p past ->
  match st with
  | Live.Render e => EmptySubmission e (Live.store p)
  | _ => True
  end ->
  Opened (fst (Live.step p st)) (past ++ snd (Live.step p st)) /\
  forall pre call post,
    snd (Live.step p st) = pre ++ call :: post -> isProcessorCall call = true ->
    In (SetIsEmptyFormModalOpen true) past /\
    exists pre', pre = UserGesture PressConfirm :: pre'.
Proof.
  intros Hopened Hrender.
  destruct st as [e|g|i|formId isSubForm context].
  - rewrite step_render. cbn [fst snd].
    destruct (Calm_effectNow_empty e (Live.store p) Hrender)
      as (Hcalm & Hin & Hmodal).
    split.
    + unfold Opened. cbn [Live.store Live.shown]. rewrite Hmodal.
      intros Hnow. rewrite in_app_iff.
      destruct (isSubmitting (Live.store p)); [right; auto|].
      left. apply Hopened. left. cbn [orb] in Hnow. destruct Hnow; assumption.
    + intros pre call post Heq Hcall.
      rewrite (Calm_no_call _ _ _ _ Hcalm Heq) in Hcall. discriminate.
  - destruct (Live.committed p) as [e|] eqn:He.
    2:{ rewrite step_unseen by auto. cbn [fst snd]. rewrite app_nil_r.
        split; [exact Hopened | intros [|? ?] ? ? Heq; discriminate Heq]. }
    destruct (Live.shown p) eqn:Hshown.
    2:{ rewrite step_unseen by auto. cbn [fst snd]. rewrite app_nil_r.
        split; [exact Hopened | intros [|? ?] ? ? Heq; discriminate Heq]. }
    assert (Hpast : In (SetIsEmptyFormModalOpen true) past)
      by (apply Hopened; right; exact Hshown).
    assert (Hdiscard : forall g', Calm (discardTrace g')).
    { intros g'. unfold discardTrace.
      repeat (apply Calm_cons; [reflexivity|]). apply Calm_nil. }
    destruct g.
    + rewrite (step_discard e) by (auto; discriminate). cbn [fst snd]. split.
      * intros _. rewrite in_app_iff. left. exact Hpast.
      * intros pre call post Heq Hcall.
        rewrite (Calm_no_call _ _ _ _ (Hdiscard _) Heq) in Hcall. discriminate.
    + rewrite (step_confirm e) by auto. cbn [fst snd]. split.
      * intros _. rewrite in_app_iff. left. exact Hpast.
      * intros pre call post Heq Hcall. split; [exact Hpast|].
        destruct pre as [|ev pre'].
        -- cbn in Heq. injection Heq as <- _. discriminate Hcall.
        -- cbn in Heq. injection Heq as <- _. exists pre'. reflexivity.
    + rewrite (step_discard e) by (auto; discriminate). cbn [fst snd]. split.
      * intros _. rewrite in_app_iff. left. exact Hpast.
      * intros pre call post Heq Hcall.
        rewrite (Calm_no_call _ _ _ _ (Hdiscard _) Heq) in Hcall. discriminate.
  - destruct (nth_error (Live.flights p) i) as [f|] eqn:Hf.
    + rewrite (step_settle i p f Hf). cbn [fst snd]. split.
      * intros Hnow. rewrite in_app_iff. left. apply Hopened. exact Hnow.
      * intros pre call post Heq Hcall.
        rewrite (Calm_no_call _ _ _ _ (Calm_finishTrace _ _) Heq) in Hcall.
        discriminate.
    + cbn [Live.step]. rewrite Hf. cbn [fst snd]. rewrite app_nil_r.
      split; [exact Hopened | intros [|? ?] ? ? Heq; discriminate Heq].
  - cbn [Live.step]. unfold registerForm, modify. cbn [fst snd]. rewrite app_nil_r.
    split.
    + unfold Opened. cbn [Live.store Live.shown]. intros Hnow. apply Hopened.
      destruct isSubForm; exact Hnow.
    + intros [|? ?] ? ? Heq; discriminate Heq.
Qed.

Lemma run_waits schedule :
  forall p past,
    Opened p past -> AtEveryRender EmptySubmission p schedule ->
    forall pre call post,
      snd (Live.run p schedule) = pre ++ call :: post -> isProcessorCall call = true ->
      exists a b c,
        past ++ pre
        = a ++ SetIsEmptyFormModalOpen true :: b ++ UserGesture PressConfirm :: c.
Proof.
  induction schedule as [|st rest IH]; intros p past Hopened Hrenders pre call post Heq Hcall.
  - destruct pre; discriminate Heq.
  - destruct Hrenders as [Hrender Hrest].
    destruct (step_waits p st past Hopened Hrender) as [Hnext Hstep].
    rewrite run_cons in Heq. cbn [snd] in Heq.
    apply app_eq_app in Heq. destruct Heq as [l [[Hhere Hthere] | [Hpre Hthere]]].
    + destruct l as [|ev l].
      * cbn in Hthere. rewrite app_nil_r in Hhere.
        destruct (IH _ _ Hnext Hrest [] call post (eq_sym Hthere) Hcall)
          as (a & b & c & Hsplit).
        exists a, b, c. rewrite <- Hsplit, Hhere, app_nil_r. reflexivity.
      * cbn in Hthere. injection Hthere as <- Hthere.
        destruct (Hstep pre call l Hhere Hcall) as [Hpast [pre' ->]].
        apply in_split in Hpast. destruct Hpast as (a & b & ->).
        exists a, b, pre'. rewrite <- app_assoc. reflexivity.
    + destruct (IH _ _ Hnext Hrest l call post Hthere Hcall) as (a & b & c & Hsplit).
      exists a, b, c. rewrite <- Hsplit, Hpre, app_assoc. reflexivity.
Qed.

(** C2. When every registered form passes [validateForm] and the form is
    empty (the check of the variant with the modal: some form context has only
    empty fields, which holds in particular when all have), the effect opens
    the confirmation modal and calls no processor.  And as the provider
    lives, whatever the renders, gestures, registrations and settlements
    that follow the mounting, as long as every render finds such a
    submission: every [processSubmission] call comes after the opening of the
    modal and after a press on Confirm that itself follows the opening. *)
Theorem empty_submission_waits_for_confirmation e s root :
  isSubmitting s = true -> rootForm s = Some root ->
  forallb (validateForm e) (formsOf s root) = true ->
  existsb (validateEmptyFields e) (formsOf s root) = true ->
  In (SetIsEmptyFormModalOpen true) (trace (V2.useEffect e s)) /\
  processorCalls (trace (V2.useEffect e s)) = [] /\
  (isEmptyFormModalOpen s = false ->
   forall schedule,
     AtEveryRender EmptySubmission (Live.mounted s) schedule ->
     forall pre p f c post,
       snd (Live.run (Live.mounted s) schedule)
       = pre ++ CallProcessSubmission p f c :: post ->
       exists before between after,
         pre = before ++ SetIsEmptyFormModalOpen true
                      :: between ++ UserGesture PressConfirm :: after).
Proof.
  intros Hsub Hroot Hvalid Hempty.
  split; [|split].
  - rewrite (V2_effect_run e s root Hsub Hroot), Hvalid, Hempty.
    unfold trace. cbn [snd]. rewrite !in_app_iff. right. right. now left.
  - rewrite (V2_effect_run e s root Hsub Hroot), Hvalid, Hempty.
    unfold trace. cbn [snd]. project. reflexivity.
  - intros Hclosed schedule Hrenders pre p f c post Heq.
    assert (Hopened : Opened (Live.mounted s) []).
    { intros [Hnow | Hnow]; cbn in Hnow; congruence. }
    exact (run_waits schedule _ _ Hopened Hrenders pre _ post Heq eq_refl).
Qed.

Lemma empty_submission_waits_for_confirmation_witness :
  In (SetIsEmptyFormModalOpen true) (trace (V2.useEffect (emptyFormEnv None) sampleStore)) /\
  processorCalls (trace (V2.useEffect (emptyFormEnv None) sampleStore)) = [] /\
  forall pre p f c post,
    snd (Live.run (Live.mounted sampleStore)
           [Live.Render (rerender 5 (emptyFormEnv None));
            Live.Render (rerender 6 (emptyFormEnv None));
            Live.Gesture PressConfirm;
            Live.Render (rerender 7 (emptyFormEnv None));
            Live.Settle 0])
    = pre ++ CallProcessSubmission p f c :: post ->
    exists before between after,
      pre = before ++ SetIsEmptyFormModalOpen true
                   :: between ++ UserGesture PressConfirm :: after.
Proof.
  pose (claim := empty_submission_waits_for_confirmation
                   (emptyFormEnv None) sampleStore rootSample
                   eq_refl eq_refl eq_refl eq_refl).
  split; [exact (proj1 claim) | split; [exact (proj1 (proj2 claim))|]].
  apply (proj2 (proj2 claim) eq_refl).
  cbn. repeat split; intros _; exists rootSample; repeat split.
Defined.

(** On the sample: the modal opens, the next render shows it (and validates
    again), the user confirms, and only then the two processors are called,
    with the token of the render that showed the modal. *)
Example confirmed_empty_submission :
  effects (snd (Live.run (Live.mounted sampleStore)
                  [Live.Render (rerender 5 (emptyFormEnv None));
                   Live.Render (rerender 6 (emptyFormEnv None));
                   Live.Gesture PressConfirm]))
  = [SetIsEmptyFormModalOpen true; SetIsEmptyFormModalOpen true;
     UserGesture PressConfirm;
     CallProcessSubmission 7 rootSample 6; CallProcessSubmission 8 subSample 6;
     SetIsEmptyFormModalOpen false].
Proof. reflexivity. Qed.

(** ** The confirmation modal as the provider lives *)

(** C5, at the failing input.  Two forms, valid and empty; the effect opens
    the modal, the next render shows it, the user presses Confirm.  The
    handler sends both registered forms to their processors and calls
    [setIsEmptyFormModalOpen(false)].  But the render that this update brings
    runs the effect again while [isSubmitting] still holds: the forms are
    still valid and empty, so the modal is opened again and shown again, and
    it stays open once the submission has settled; a second press on Confirm
    sends the forms a second time.  Discarding (Cancel, or closing the
    dialog) does what is specified: the modal closes and stays closed,
    [isSubmitting] is reset, no processor is called. *)
Theorem confirmation_reopens_the_modal :
  (* the press on Confirm *)
  processorCalls (snd (afterConfirm [])) = [(7, rootSample, 6); (8, subSample, 6)] /\
  isEmptyFormModalOpen (Live.store (fst (afterConfirm []))) = false /\
  isSubmitting (Live.store (fst (afterConfirm []))) = true /\
  (* the renders that follow *)
  isEmptyFormModalOpen (Live.store (fst (afterConfirm [emptyRender 7]))) = true /\
  Live.shown (fst (afterConfirm [emptyRender 7; emptyRender 8])) = true /\
  (* the settlement *)
  Live.store (fst (afterConfirm [emptyRender 7; emptyRender 8; Live.Settle 0;
                                 emptyRender 9]))
  = mkStore false true (Some rootSample) [("vitals", subSample)] /\
  Live.shown (fst (afterConfirm [emptyRender 7; emptyRender 8; Live.Settle 0;
                                 emptyRender 9])) = true /\
  (* a second press *)
  processorCalls
    (snd (afterConfirm [emptyRender 7; emptyRender 8; Live.Gesture PressConfirm]))
  = [(7, rootSample, 6); (8, subSample, 6); (7, rootSample, 8); (8, subSample, 8)] /\
  (* discarding *)
  processorCalls (snd (afterGesture PressCancel)) = [] /\
  effects (snd (afterGesture PressCancel))
  = [SetIsEmptyFormModalOpen true; SetIsEmptyFormModalOpen true;
     UserGesture PressCancel; SetIsEmptyFormModalOpen false; SetIsSubmitting false] /\
  Live.store (fst (afterGesture PressCancel))
  = mkStore false false (Some rootSample) [("vitals", subSample)] /\
  Live.shown (fst (afterGesture PressCancel)) = false /\
  processorCalls (snd (afterGesture RequestClose)) = [] /\
  effects (snd (afterGesture RequestClose))
  = [SetIsEmptyFormModalOpen true; SetIsEmptyFormModalOpen true;
     UserGesture RequestClose; SetIsEmptyFormModalOpen false; SetIsSubmitting false] /\
  Live.store (fst (afterGesture RequestClose))
  = mkStore false false (Some rootSample) [("vitals", subSample)] /\
  Live.shown (fst (afterGesture RequestClose)) = false.
Proof. repeat split. Qed.

(** What the user sees of it: the two openings before the press, and the
    opening after it. *)
Example modal_updates_around_the_confirmation :
  modalUpdates (snd (afterConfirm [emptyRender 7; emptyRender 8; Live.Settle 0]))
  = [true; true; false; true; true] /\
  snackbars (snd (afterConfirm [emptyRender 7; emptyRender 8; Live.Settle 0]))
  = [mkSnackbar "Record updated" "The patient encounter was updated" "success" true].
Proof. split; reflexivity. Qed.

(** ** What a render does to a submission in flight *)

(** C7, at the failing input.  Two forms, valid and filled.  In variants 1
    and 3 the effect depends on [isSubmitting] alone: the submission is one
    run of the async function, each form goes once to its processor and the
    two results reach the post-submission actions and [onSubmit] once.  In
    variant 2 a render that comes before the promises settle runs the effect
    again: each form goes to its processor a second time, with the token of
    that render, and the results are forwarded twice. *)
Theorem rerender_repeats_the_submission :
  processorCalls (trace (V1.handleFormSubmission sampleEnv sampleStore))
  = [(7, rootSample, 5); (8, subSample, 5)] /\
  forwardedToPostSubmission (trace (V1.handleFormSubmission sampleEnv sampleStore))
  = [[107; 108]] /\
  forwardedToOnSubmit (trace (V1.handleFormSubmission sampleEnv sampleStore))
  = [[107; 108]] /\
  processorCalls (trace (V3.handleFormSubmission sampleEnv sampleStore))
  = [(7, rootSample, 5); (8, subSample, 5)] /\
  forwardedToPostSubmission (trace (V3.handleFormSubmission sampleEnv sampleStore))
  = [[107; 108]] /\
  forwardedToOnSubmit (trace (V3.handleFormSubmission sampleEnv sampleStore))
  = [[107; 108]] /\
  (* variant 2, nothing in between *)
  processorCalls
    (snd (Live.run (Live.mounted sampleStore) [filledRender 5; Live.Settle 0]))
  = [(7, rootSample, 5); (8, subSample, 5)] /\
  (* variant 2, a render in between *)
  processorCalls
    (snd (Live.run (Live.mounted sampleStore)
            [filledRender 5; filledRender 6; Live.Settle 0; Live.Settle 0]))
  = [(7, rootSample, 5); (8, subSample, 5); (7, rootSample, 6); (8, subSample, 6)] /\
  forwardedToPostSubmission
    (snd (Live.run (Live.mounted sampleStore)
            [filledRender 5; filledRender 6; Live.Settle 0; Live.Settle 0]))
  = [[107; 108]; [107; 108]] /\
  forwardedToOnSubmit
    (snd (Live.run (Live.mounted sampleStore)
            [filledRender 5; filledRender 6; Live.Settle 0; Live.Settle 0]))
  = [[107; 108]; [107; 108]].
Proof. repeat split. Qed.

(** ** A callback that throws *)

(** C10, at the failing input.  Two forms, valid and empty, and an empty-form
    callback that throws.  Variant 1 calls the callback outside of any [try]:
    the async function ends there, [setIsSubmitting] is never called and
    [isSubmitting] stays true, with no modal and nothing left to reset it.
    Variant 3 calls the callback inside [try] and resets [isSubmitting] in
    the [catch] clause.  A second path ends without a reset, in every
    variant: a submission before the root form has registered hands
    [undefined] to [validateForm], outside of any [try]. *)
Theorem throwing_callback_leaves_isSubmitting_set :
  completion (V1.handleFormSubmission throwingCallbackEnv sampleStore)
  = Abrupt (JsError "callback failed") /\
  effects (trace (V1.handleFormSubmission throwingCallbackEnv sampleStore))
  = [CallHandleEmptyFormSubmission] /\
  isSubmitting (finalStore (V1.handleFormSubmission throwingCallbackEnv sampleStore)) = true /\
  isSubmitting (finalStore (V1.useEffect throwingCallbackEnv sampleStore)) = true /\
  isEmptyFormModalOpen (finalStore (V1.useEffect throwingCallbackEnv sampleStore)) = false /\
  completion (V3.handleFormSubmission throwingCallbackEnv sampleStore) = Normal tt /\
  effects (trace (V3.handleFormSubmission throwingCallbackEnv sampleStore))
  = [CallHandleEmptyFormSubmission; SetIsSubmitting false] /\
  isSubmitting (finalStore (V3.handleFormSubmission throwingCallbackEnv sampleStore)) = false /\
  (* before the root form has registered *)
  isSubmittingUpdates (trace (V1.useEffect sampleEnv (mountedStore true))) = [] /\
  isSubmitting (finalStore (V1.useEffect sampleEnv (mountedStore true))) = true /\
  isSubmittingUpdates (trace (V2.useEffect sampleEnv (mountedStore true))) = [] /\
  isSubmitting (finalStore (V2.useEffect sampleEnv (mountedStore true))) = true /\
  isEmptyFormModalOpen (finalStore (V2.useEffect sampleEnv (mountedStore true))) = false /\
  isSubmittingUpdates (trace (V3.useEffect sampleEnv (mountedStore true))) = [] /\
  isSubmitting (finalStore (V3.useEffect sampleEnv (mountedStore true))) = true.
Proof. repeat split. Qed.

(** ** [isSubmitting] on the other paths *)

(** X17. With the root form registered and an empty-form callback that does
    not throw, one execution of the async function of variants 1 and 3 ends
    with [isSubmitting] reset to false on every path; one execution of the
    effect of variant 2, taken with the submission it starts, ends with it
    reset unless it opens the modal (every form valid, some form empty),
    where [isSubmitting] stays true with the modal open until a gesture: any
    gesture, taken with the submission it starts, resets it. *)
Theorem isSubmitting_is_reset_when_nothing_throws e s root :
  isSubmitting s = true -> rootForm s = Some root ->
  (forall thrown, handleEmptyFormSubmission e <> Some (Throws thrown)) ->
  isSubmitting (finalStore (V1.handleFormSubmission e s)) = false /\
  isSubmitting (finalStore (V3.handleFormSubmission e s)) = false /\
  (if (forallb (validateForm e) (formsOf s root)
       && existsb (validateEmptyFields e) (formsOf s root))%bool
   then isSubmitting (finalStore (V2.useEffect e s)) = true /\
        isEmptyFormModalOpen (finalStore (V2.useEffect e s)) = true /\
        forall e' g,
          isSubmitting (finalStore (V2.gesture e' g (finalStore (V2.useEffect e s))))
          = false
   else isSubmitting (finalStore (V2.useEffect e s)) = false).
Proof.
  intros Hsub Hroot Hreturns.
  rewrite (V1_run e s root Hsub Hroot), (V3_run e s root Hsub Hroot),
    (V2_effect_run e s root Hsub Hroot).
  unfold storeAfterEffect2, callbackRun1, trace, finalStore. cbn [fst snd].
  split; [|split; [reflexivity|]].
  - destruct (forallb (validateForm e) (formsOf s root)); [|reflexivity].
    destruct (forallb (validateEmptyForm e) (formsOf s root));
      destruct (handleEmptyFormSubmission e) as [[result|thrown]|] eqn:Hcallback;
      try reflexivity.
    exfalso. exact (Hreturns thrown eq_refl).
  - destruct (forallb (validateForm e) (formsOf s root)); cbn [andb]; [|reflexivity].
    destruct (existsb (validateEmptyFields e) (formsOf s root)); [|reflexivity].
    split; [exact Hsub|]. split; [reflexivity|].
    intros e' g.
    rewrite (V2_gesture_open e' g (withIsEmptyFormModalOpen true s) root)
      by (try reflexivity; exact Hroot).
    reflexivity.
Qed.

Lemma isSubmitting_is_reset_when_nothing_throws_witness :
  isSubmitting (finalStore (V1.handleFormSubmission (emptyFormEnv None) sampleStore)) = false /\
  isSubmitting (finalStore (V3.handleFormSubmission (emptyFormEnv None) sampleStore)) = false /\
  isSubmitting (finalStore (V2.useEffect (emptyFormEnv None) sampleStore)) = true /\
  isEmptyFormModalOpen (finalStore (V2.useEffect (emptyFormEnv None) sampleStore)) = true /\
  forall e' g,
    isSubmitting
      (finalStore (V2.gesture e' g
                     (finalStore (V2.useEffect (emptyFormEnv None) sampleStore))))
    = false.
Proof.
  apply (isSubmitting_is_reset_when_nothing_throws (emptyFormEnv None) sampleStore
           rootSample eq_refl eq_refl).
  intros thrown Hthrows. discriminate Hthrows.
Defined.

(** ** A form that registers while the modal is shown *)

(** X12. Pressing Confirm validates nothing: the forms are read from the
    registry again and sent as they are.  So a sub-form that registers while
    the modal is shown, after the last render, and that [validateForm] has
    not seen so far, is sent to its processor by the press on Confirm before
    [validateForm] is ever called on it: whatever the renders, gestures,
    registrations and settlements before. *)
Theorem confirmation_submits_without_validation s before e root formId context :
  AwaitsAnswer e root (fst (Live.run (Live.mounted s) before)) ->
  formId <> "__proto__" ->
  ~ In context (validatedForms (snd (Live.run (Live.mounted s) before))) ->
  exists pre post,
    snd (Live.run (Live.mounted s)
           (before ++ [Live.Register formId true context; Live.Gesture PressConfirm]))
    = pre ++ CallProcessSubmission (processor context) context (abortController e)
          :: post /\
    ~ In context (validatedForms pre).
Proof.
  intros (He & Hshown & Hroot) Hid Hnew.
  rewrite run_app. cbn [snd].
  set (p := fst (Live.run (Live.mounted s) before)) in *.
  set (past := snd (Live.run (Live.mounted s) before)) in *.
  rewrite run_cons.
  set (p1 := fst (Live.step p (Live.Register formId true context))).
  assert (Hp1 : Live.committed p1 = Some e /\ Live.shown p1 = true /\
                rootForm (Live.store p1) = Some root /\
                In context (formsOf (Live.store p1) root)).
  { subst p1. cbn [Live.step]. unfold registerForm, modify.
    cbn [fst Live.committed Live.shown Live.store rootForm].
    repeat split; try assumption.
    right. apply Object_values_In. exists formId. cbn [subForms].
    apply assign_In. exact Hid. }
  destruct Hp1 as (He1 & Hshown1 & Hroot1 & Hin).
  assert (Hquiet : snd (Live.step p (Live.Register formId true context)) = [])
    by reflexivity.
  rewrite Hquiet. cbn [app].
  rewrite run_cons, (step_confirm e p1 He1 Hshown1). cbn [fst snd Live.run].
  rewrite (V2_confirmation_run e _ root Hroot1). unfold trace. cbn [snd].
  apply in_split in Hin. destruct Hin as (earlier & later & Hforms).
  rewrite Hforms. unfold submissionCalls. rewrite map_app. cbn [map].
  exists (past ++ UserGesture PressConfirm
               :: map (fun f => CallProcessSubmission (processor f) f (abortController e))
                      earlier),
    (map (fun f => CallProcessSubmission (processor f) f (abortController e)) later
     ++ [SetIsEmptyFormModalOpen false]).
  split.
  - rewrite ?app_nil_r, <- ?app_assoc. cbn [app]. rewrite <- ?app_assoc.
    cbn [app]. reflexivity.
  - unfold validatedForms.
    change (UserGesture PressConfirm :: ?l) with ([UserGesture PressConfirm] ++ l).
    rewrite !select_app.
    rewrite (select_map_none pickValidation) by reflexivity.
    cbn [select flat_map pickValidation app]. rewrite app_nil_r. exact Hnew.
Qed.

Lemma confirmation_submits_without_validation_witness :
  exists pre post,
    snd (Live.run (Live.mounted sampleStore)
           ([emptyRender 5; emptyRender 6]
            ++ [Live.Register "labs" true lateSample; Live.Gesture PressConfirm]))
    = pre ++ CallProcessSubmission (processor lateSample) lateSample
               (abortController (rerender 6 (emptyFormEnv None)))
          :: post /\
    ~ In lateSample (validatedForms pre).
Proof.
  apply (confirmation_submits_without_validation
           sampleStore [emptyRender 5; emptyRender 6]
           (rerender 6 (emptyFormEnv None)) rootSample "labs" lateSample).
  - repeat split.
  - discriminate.
  - vm_compute. intros [H | [H | [H | [H | []]]]]; discriminate H.
Defined.

(** The late sub-form is validated by the render that follows the press,
    when it has been sent already. *)
Example late_sub_form_is_validated_too_late :
  effects
    (snd (Live.run (Live.mounted sampleStore)
            [emptyRender 5; emptyRender 6; Live.Register "labs" true lateSample;
             Live.Gesture PressConfirm]))
  = [SetIsEmptyFormModalOpen true; SetIsEmptyFormModalOpen true;
     UserGesture PressConfirm;
     CallProcessSubmission 7 rootSample 6; CallProcessSubmission 8 subSample 6;
     CallProcessSubmission 9 lateSample 6; SetIsEmptyFormModalOpen false] /\
  validatedForms
    (snd (Live.run (Live.mounted sampleStore)
            [emptyRender 5; emptyRender 6; Live.Register "labs" true lateSample;
             Live.Gesture PressConfirm]))
  = [rootSample; subSample; rootSample; subSample] /\
  validatedForms
    (snd (Live.step
            (fst (Live.run (Live.mounted sampleStore)
                    [emptyRender 5; emptyRender 6; Live.Register "labs" true lateSample;
                     Live.Gesture PressConfirm]))
            (emptyRender 7)))
  = [rootSample; subSample; lateSample].
Proof. repeat split. Qed.

(** ** Each form once, in variants 1 and 3 *)

Lemma ResultsOf_expectedCalls e forms results :
  ResultsOf e (expectedCalls e forms) results <-> collected e forms results.
Proof.
  unfold ResultsOf, collected, expectedCalls. revert results.
  induction forms as [|f rest IH]; intros results; cbn [map]; split; intros Hall;
    inversion Hall; subst; constructor; try assumption; apply IH; assumption.
Qed.

Lemma DeliveredOnce_submitTrace e s root checks :
  processorCalls checks = [] ->
  forwardedToPostSubmission checks = [] ->
  forwardedToOnSubmit checks = [] ->
  DeliveredOnce e root (subForms s) (checks ++ submitTrace e (formsOf s root)).
Proof.
  intros Hcalls Hpost Hsubmit.
  set (forms := formsOf s root).
  assert (Hp : forwardedToPostSubmission (checks ++ submitTrace e forms)
               = forwardedToPostSubmission (finishTrace e (submissionPromises e forms))).
  { unfold submitTrace, forwardedToPostSubmission. rewrite !select_app.
    rewrite select_submissionCalls by reflexivity.
    fold forwardedToPostSubmission. rewrite Hpost. reflexivity. }
  assert (Ho : forwardedToOnSubmit (checks ++ submitTrace e forms)
               = forwardedToOnSubmit (finishTrace e (submissionPromises e forms))).
  { unfold submitTrace, forwardedToOnSubmit. rewrite !select_app.
    rewrite select_submissionCalls by reflexivity.
    fold forwardedToOnSubmit. rewrite Hsubmit. reflexivity. }
  assert (Hc : processorCalls (checks ++ submitTrace e forms) = expectedCalls e forms).
  { unfold processorCalls. rewrite select_app. fold processorCalls.
    rewrite Hcalls. apply processorCalls_submitTrace. }
  unfold DeliveredOnce. rewrite Hp, Ho, Hc.
  rewrite forwardedToPostSubmission_finishTrace, forwardedToOnSubmit_finishTrace.
  split; [|split; [|split; [|split]]].
  - exists (Object_values (subForms s)). split.
    + apply Object_values_Permutation.
    + reflexivity.
  - intros results Hin. apply ResultsOf_expectedCalls.
    destruct (Promise_all (submissionPromises e forms)) as [collectedResults|err] eqn:Hall;
      [|destruct Hin].
    apply Promise_all_collected in Hall.
    assert (Hsame : results = collectedResults).
    { destruct (postSubmissionHandlers e) as [handlers|];
        [destruct (processPostSubmissionActions e handlers collectedResults)|];
        destruct (onSubmit e); cbn in Hin;
        repeat (destruct Hin as [Hin|Hin]; [now symmetry|]); destruct Hin. }
    subst results. exact Hall.
  - intros results Hall. apply ResultsOf_expectedCalls in Hall.
    apply Promise_all_collected in Hall. rewrite Hall.
    split.
    + intros handlers ->. reflexivity.
    + intros -> Hactions.
      destruct (postSubmissionHandlers e) as [handlers|]; [|reflexivity].
      rewrite (Hactions handlers eq_refl). reflexivity.
  - destruct (Promise_all (submissionPromises e forms));
      destruct (postSubmissionHandlers e); cbn; lia.
  - destruct (Promise_all (submissionPromises e forms)) as [results|]; [|cbn; lia].
    destruct (onSubmit e); [|cbn; lia].
    destruct (postSubmissionHandlers e) as [handlers|]; [|cbn; lia].
    destruct (processPostSubmissionActions e handlers results); cbn; lia.
Qed.

(** X15. In variants 1 and 3, whose effect runs once per submission, a valid
    submission that goes to the processors (the form is not empty, or no
    empty-form callback is given) calls the processor of the root form and
    then, once each, the processor of every sub-form held by the registry,
    each with its own context and the token of the render; the list that
    reaches the post-submission actions and [onSubmit] holds what these
    calls resolved with, call by call, and reaches each of them at most
    once. *)
Theorem variants_1_and_3_deliver_once e s root :
  isSubmitting s = true -> rootForm s = Some root ->
  forallb (validateForm e) (formsOf s root) = true ->
  forallb (validateEmptyForm e) (formsOf s root) = false \/
  handleEmptyFormSubmission e = None ->
  DeliveredOnce e root (subForms s) (trace (V1.handleFormSubmission e s)) /\
  DeliveredOnce e root (subForms s) (trace (V3.handleFormSubmission e s)).
Proof.
  intros Hsub Hroot Hvalid Hgoes.
  rewrite (V1_run e s root Hsub Hroot), (V3_run e s root Hsub Hroot), Hvalid.
  assert (Hblock1 :
            match forallb (validateEmptyForm e) (formsOf s root),
                  handleEmptyFormSubmission e with
            | true, Some callback =>
                callbackRun1 s (validations e (formsOf s root)
                                ++ emptyFormChecks e (formsOf s root)) callback
            | _, _ =>
                (Normal tt, withIsSubmitting false s,
                 validations e (formsOf s root) ++ emptyFormChecks e (formsOf s root)
                 ++ submitTrace e (formsOf s root))
            end
            = (Normal tt, withIsSubmitting false s,
               validations e (formsOf s root) ++ emptyFormChecks e (formsOf s root)
               ++ submitTrace e (formsOf s root))).
  { destruct Hgoes as [-> | ->]; [reflexivity|].
    destruct (forallb (validateEmptyForm e) (formsOf s root)); reflexivity. }
  assert (Hblock3 :
            match (forallb (validateEmptyForm e) (formsOf s root) && true)%bool,
                  handleEmptyFormSubmission e with
            | true, Some callback => callbackTrace3 callback
            | _, _ => submitTrace e (formsOf s root)
            end
            = submitTrace e (formsOf s root)).
  { destruct Hgoes as [-> | ->]; [reflexivity|].
    destruct (forallb (validateEmptyForm e) (formsOf s root)); reflexivity. }
  rewrite Hblock1, Hblock3. unfold trace. cbn [snd].
  split; rewrite app_assoc; apply DeliveredOnce_submitTrace; project; reflexivity.
Qed.

Lemma variants_1_and_3_deliver_once_witness :
  DeliveredOnce sampleEnv rootSample (subForms sampleStore)
    (trace (V1.handleFormSubmission sampleEnv sampleStore)) /\
  DeliveredOnce sampleEnv rootSample (subForms sampleStore)
    (trace (V3.handleFormSubmission sampleEnv sampleStore)).
Proof.
  apply (variants_1_and_3_deliver_once sampleEnv sampleStore rootSample);
    try reflexivity.
  left. reflexivity.
Defined.

(** ** The handlers of the modal, one gesture at a time *)

(** X16. With the modal shown and the root form registered, a press on
    Confirm calls the processor of the root form and then, once each, that of
    every sub-form held by the registry, with the token of the render that
    showed the modal, calls [setIsEmptyFormModalOpen(false)] and leaves the
    submission in flight with [isSubmitting] untouched; Cancel and closing
    the dialog close the modal, reset [isSubmitting] and call no processor.
    This is what one gesture does; the render that follows it runs the effect
    again. *)
Theorem modal_handlers_submit_or_discard e root p g :
  AwaitsAnswer e root p ->
  match g with
  | PressConfirm =>
      OwedTo (abortController e) root (subForms (Live.store p))
             (processorCalls (snd (Live.step p (Live.Gesture g)))) /\
      effects (snd (Live.step p (Live.Gesture g)))
      = UserGesture PressConfirm
        :: submissionCalls e (root :: Object_values (subForms (Live.store p)))
        ++ [SetIsEmptyFormModalOpen false] /\
      Live.store (fst (Live.step p (Live.Gesture g)))
      = withIsEmptyFormModalOpen false (Live.store p) /\
      List.length (Live.flights (fst (Live.step p (Live.Gesture g))))
      = S (List.length (Live.flights p))
  | _ =>
      snd (Live.step p (Live.Gesture g))
      = [UserGesture g; SetIsEmptyFormModalOpen false; SetIsSubmitting false] /\
      Live.store (fst (Live.step p (Live.Gesture g))) = closeModal (Live.store p) /\
      Live.flights (fst (Live.step p (Live.Gesture g))) = Live.flights p
  end.
Proof.
  intros (He & Hshown & Hroot).
  destruct g.
  - rewrite (step_discard e) by (auto; discriminate). repeat split.
  - rewrite (step_confirm e p He Hshown).
    rewrite (V2_confirmation_run e _ root Hroot).
    unfold trace, finalStore, completion. cbn [fst snd Live.store Live.flights].
    split; [|split; [|split]].
    + exists (Object_values (subForms (Live.store p))). split.
      * apply Object_values_Permutation.
      * change (UserGesture PressConfirm :: ?l) with ([UserGesture PressConfirm] ++ l).
        unfold processorCalls. rewrite !select_app. fold processorCalls.
        rewrite processorCalls_submissionCalls.
        cbn [select flat_map pickProcessorCall app]. rewrite app_nil_r. reflexivity.
    + unfold effects, submissionCalls. cbn [filter isQuery negb].
      rewrite filter_app. cbn [filter isQuery negb]. f_equal. f_equal.
      apply forallb_filter_id. apply forallb_forall.
      intros ev Hin. apply in_map_iff in Hin. destruct Hin as [f [<- _]]. reflexivity.
    + reflexivity.
    + cbn [Live.landed Live.takeOff]. rewrite length_app. cbn. lia.
  - rewrite (step_discard e) by (auto; discriminate). repeat split.
Qed.

Lemma modal_handlers_submit_or_discard_witness :
  OwedTo 6 rootSample [("vitals", subSample)]
         (processorCalls
            (snd (Live.step
                    (fst (Live.run (Live.mounted sampleStore)
                            [emptyRender 5; emptyRender 6]))
                    (Live.Gesture PressConfirm)))) /\
  Live.store
    (fst (Live.step
            (fst (Live.run (Live.mounted sampleStore) [emptyRender 5; emptyRender 6]))
            (Live.Gesture PressConfirm)))
  = mkStore true false (Some rootSample) [("vitals", subSample)].
Proof.
  pose (claim := modal_handlers_submit_or_discard
                   (rerender 6 (emptyFormEnv None)) rootSample
                   (fst (Live.run (Live.mounted sampleStore)
                           [emptyRender 5; emptyRender 6]))
                   PressConfirm
                   (conj eq_refl (conj eq_refl eq_refl))).
  split; [exact (proj1 claim) | exact (proj1 (proj2 (proj2 claim)))].
Defined.
